(** * fitness-bot: response processing and history reconstruction

    A shallow embedding of the parts of [claude_api.py], [google_docs.py] and
    [bot.py] that turn a free-text reply into a stored record and read the
    stored records back, together with the properties the specification
    states about them.

    Python values are embedded as follows.
    - [str] is a list of Unicode code points ([list N]); the literals of the
      sources are ASCII except for the bullet characters, written out below.
    - a [dict] is an association list in insertion order, read by key.
    - exceptions are results: [Ok v] or [Raise e].
    - a [float] is a binary64 value; what the runtime does on floats beyond
      multiplication ([**], the argument check of [time.sleep]) is a
      parameter, a [Runtime], about which nothing is assumed.
    - the clock ([time.sleep]) and the remote services are explicit state:
      a [World] records every call and every sleep. *)

From Stdlib Require Import String Ascii ZArith PrimFloat Lia DecimalString.
From stdpp Require Import base list.

Local Set Warnings "-register-all".
Local Set Warnings "-inexact-float".
Local Open Scope Z_scope.

(** ** Python [str] *)

Module Py.

Definition str := list N.

(** An ASCII literal of the source as a [str]. *)
Definition u (s : string) : str :=
  map N_of_ascii (list_ascii_of_string s).

(** [c.isspace()]: the code points Python's [str.strip()] removes. *)
Definition isspace (c : N) : bool :=
  ((9 <=? c) && (c <=? 13) || (28 <=? c) && (c <=? 32)
   || (c =? 133) || (c =? 160) || (c =? 5760)
   || (8192 <=? c) && (c <=? 8202)
   || (c =? 8232) || (c =? 8233) || (c =? 8239) || (c =? 8287)
   || (c =? 12288))%N.

Fixpoint lstrip (s : str) : str :=
  match s with
  | [] => []
  | c :: rest => if isspace c then lstrip rest else s
  end.

Definition rstrip (s : str) : str := rev (lstrip (rev s)).

(** [s.strip()] *)
Definition strip (s : str) : str := rstrip (lstrip s).

Definition eqb (s t : str) : bool := bool_decide (s = t).

(** [s.startswith(p)] *)
Fixpoint startswith (p s : str) : bool :=
  match p, s with
  | [], _ => true
  | _ :: _, [] => false
  | a :: p', b :: s' => (a =? b)%N && startswith p' s'
  end.

(** [s.endswith(p)] *)
Definition endswith (p s : str) : bool := startswith (rev p) (rev s).

(** [s.replace(old, new)] for a non-empty [old] (every call site passes a
    literal): occurrences are replaced left to right without overlap.
    [skip] counts the code points of a matched occurrence still to drop. *)
Fixpoint replace_from (old new : str) (skip : nat) (s : str) : str :=
  match s with
  | [] => []
  | c :: rest =>
      match skip with
      | S k => replace_from old new k rest
      | O =>
          if startswith old s
          then new ++ replace_from old new (length old - 1) rest
          else c :: replace_from old new 0 rest
      end
  end.

Definition replace (old new s : str) : str := replace_from old new 0 s.

(** [s.split(sep)] for a one-character separator; empty fields are kept
    and the empty string gives one empty field. *)
Fixpoint split (sep : N) (s : str) : list str :=
  match s with
  | [] => [[]]
  | c :: rest =>
      if (c =? sep)%N then [] :: split sep rest
      else match split sep rest with
           | [] => [[c]]
           | w :: ws => (c :: w) :: ws
           end
  end.

(** [sep.join(parts)] *)
Fixpoint join (sep : str) (parts : list str) : str :=
  match parts with
  | [] => []
  | [p] => p
  | p :: ps => p ++ sep ++ join sep ps
  end.

(** [s.lower()]. The ASCII letters are folded. Python folds the cased
    letters beyond ASCII as well; the only ones whose lower case contains an
    ASCII letter are U+0130 (to [i] and a combining dot) and U+212A (to [k]),
    and this development compares lower-cased text only against words
    built from other letters. *)
Definition lower_char (c : N) : N :=
  if ((65 <=? c) && (c <=? 90))%N then (c + 32)%N else c.

Definition lower (s : str) : str := map lower_char s.

(** [needle in hay] *)
Fixpoint contains (needle hay : str) : bool :=
  startswith needle hay ||
  match hay with
  | [] => false
  | _ :: rest => contains needle rest
  end.

Definition NL : N := 10.
Definition COMMA : N := 44.

End Py.

Import Py.

(** ** Python values, dictionaries and exceptions *)

Inductive pyval :=
| VNone
| VBool (b : bool)
| VInt (z : Z)
| VFloat (literal : str)
| VStr (s : str)
| VList (items : list pyval)
| VDict (items : list (str * pyval)).

Definition dict := list (str * pyval).

(** [d.get(k)] *)
Fixpoint dict_lookup (k : str) (d : dict) : option pyval :=
  match d with
  | [] => None
  | (k', v) :: d' => if eqb k k' then Some v else dict_lookup k d'
  end.

(** [d.get(k, default)] *)
Definition dict_get (k : str) (default : pyval) (d : dict) : pyval :=
  match dict_lookup k d with
  | Some v => v
  | None => default
  end.

(** [d[k] = v]: an existing key keeps its place. *)
Fixpoint dict_set (k : str) (v : pyval) (d : dict) : dict :=
  match d with
  | [] => [(k, v)]
  | (k', v') :: d' =>
      if eqb k k' then (k, v) :: d' else (k', v') :: dict_set k v d'
  end.

(** [k in d] *)
Definition dict_has (k : str) (d : dict) : bool :=
  match dict_lookup k d with Some _ => true | None => false end.

(** The exceptions that occur, all of them subclasses of [Exception]. *)
Inductive exception :=
| HttpError (status : Z)        (* googleapiclient: [e.resp.status] *)
| APIStatusError (status : Z)   (* anthropic: a reply with an error status *)
| APIConnectionError            (* transport failure *)
| TypeError
| ValueError
| AttributeError
| IndexError
| JSONDecodeError               (* [json.loads]: the text is not JSON *)
| OverflowError                 (* a float out of range *)
| RecursionError.               (* [json.loads]: the text is nested too deep *)

Inductive result (A : Type) :=
| Ok (v : A)
| Raise (e : exception).
Arguments Ok {A} v.
Arguments Raise {A} e.

(** ** The daily record *)

(** The keys of a daily summary and the sentinel for a missing text. *)
Definition K_DATE := u "date".
Definition K_WORKOUT := u "workout".
Definition K_EATING := u "eating_feelings".
Definition K_GOALS := u "short_term_goals".
Definition NOT_SPECIFIED := u "Not specified".

(** A daily record with every field present and of its proper type. *)
Record DailyRecord := {
  date : str;
  workout : str;
  eating_feelings : str;
  short_term_goals : list str
}.

(** The dictionary [get_daily_summaries_from_doc] builds for a record. *)
Definition record_dict (r : DailyRecord) : dict :=
  [ (K_DATE, VStr (date r));
    (K_WORKOUT, VStr (workout r));
    (K_EATING, VStr (eating_feelings r));
    (K_GOALS, VList (map VStr (short_term_goals r))) ].

(** The dictionary the extractor is asked to return for a record: the same
    without the date. *)
Definition summary_dict (r : DailyRecord) : dict :=
  [ (K_WORKOUT, VStr (workout r));
    (K_EATING, VStr (eating_feelings r));
    (K_GOALS, VList (map VStr (short_term_goals r))) ].

(** ** Formatting and joining values *)

(** The double quote. *)
Definition QUOTE : str := [34]%N.

(** [str(n)] for a natural number. *)
Definition decimal (n : nat) : str :=
  u (DecimalString.NilZero.string_of_uint (Nat.to_uint n)).

(** A value inside an f-string: a [str] stands for itself; for any other
    value the text is whatever Python's [format] gives, [fmt]. *)
Definition format_value (fmt : pyval -> str) (v : pyval) : str :=
  match v with
  | VStr s => s
  | _ => fmt v
  end.

(** The items of [v] as strings, the way [', '.join(v)] reads them: the
    items of a list, the characters of a string, the keys of a dict; an item
    that is not a string, or a value that cannot be iterated, is a
    [TypeError]. *)
Fixpoint str_items (items : list pyval) : result (list str) :=
  match items with
  | [] => Ok []
  | VStr s :: rest =>
      match str_items rest with
      | Ok l => Ok (s :: l)
      | Raise e => Raise e
      end
  | _ :: _ => Raise TypeError
  end.

Definition join_value (sep : str) (v : pyval) : result str :=
  match v with
  | VList items =>
      match str_items items with
      | Ok l => Ok (join sep l)
      | Raise e => Raise e
      end
  | VStr s => Ok (join sep (map (fun c => [c]) s))
  | VDict items => Ok (join sep (map fst items))
  | _ => Raise TypeError
  end.

(** ** The retry policy: clock, calls and configuration *)

(** A Python [float]: a binary64 value, with the multiplication of the
    hardware. *)
Definition float := PrimFloat.float.

(** [config.py]: the three retry settings, read from the environment
    (defaults 3, 1.0 and 2.0) with [int] and [float]. *)
Record Config := {
  MAX_RETRIES : Z;
  RETRY_DELAY : float;
  RETRY_BACKOFF : float
}.

(** The defaults of [config.py]. *)
Definition default_config : Config :=
  {| MAX_RETRIES := 3; RETRY_DELAY := 1%float; RETRY_BACKOFF := 2%float |}.

(** What the Python runtime does where it is not modelled here. [float_pow
    x n] is [x ** n] for a float and an int: a float (the [pow] of the C
    library, rounded as that library rounds) or an exception
    ([OverflowError] when the result is out of range). [sleep_check d] is
    what [time.sleep(d)] does with its argument before it waits: nothing,
    or an exception ([ValueError] for a negative length or a NaN,
    [OverflowError] for a length beyond the range of the clock). Nothing is
    assumed about either. *)
Record Runtime := {
  float_pow : float -> Z -> result float;
  sleep_check : float -> result unit
}.

(** What the wrapped callable did so far and what the clock was asked to
    wait: [calls] counts the invocations of [func], [sleeps] lists the
    arguments of the calls of [time.sleep] that returned, in order. *)
Record World := {
  calls : nat;
  sleeps : list float
}.

(** Nothing called, nothing slept. *)
Definition world0 : World := {| calls := 0; sleeps := [] |}.

(** A wrapped callable: its outcome at each invocation, numbered from 0. *)
Definition operation (A : Type) := nat -> result A.

(** One call of the wrapped callable. *)
Definition invoke {A} (func : operation A) (w : World) : result A * World :=
  (func (calls w), {| calls := S (calls w); sleeps := sleeps w |}).

(** [time.sleep(delay)] *)
Definition time_sleep (rt : Runtime) (delay : float) (w : World)
  : result unit * World :=
  match sleep_check rt delay with
  | Ok _ => (Ok tt, {| calls := calls w; sleeps := sleeps w ++ [delay] |})
  | Raise e => (Raise e, w)
  end.

(** The world [k] calls and the sleeps [ds] later. *)
Definition advance (w : World) (k : nat) (ds : list float) : World :=
  {| calls := (calls w + k)%nat; sleeps := sleeps w ++ ds |}.

(** [RETRY_DELAY * (RETRY_BACKOFF ** attempt)] *)
Definition backoff_delay (rt : Runtime) (cfg : Config) (attempt : Z)
  : result float :=
  match float_pow rt (RETRY_BACKOFF cfg) attempt with
  | Ok power => Ok (RETRY_DELAY cfg * power)%float
  | Raise e => Raise e
  end.

(** The two statements [delay = ...] and [time.sleep(delay)] of the
    handlers. *)
Definition backoff_sleep (rt : Runtime) (cfg : Config) (attempt : Z)
  (w : World) : result unit * World :=
  match backoff_delay rt cfg attempt with
  | Ok delay => time_sleep rt delay w
  | Raise e => (Raise e, w)
  end.

(** What the backoff after the attempt numbered [attempt] does: it sleeps
    the delay [d] ([Ok d]), or the computation of the delay or
    [time.sleep] raises. *)
Definition backoff_outcome (rt : Runtime) (cfg : Config) (attempt : Z)
  : result float :=
  match backoff_delay rt cfg attempt with
  | Ok delay =>
      match sleep_check rt delay with
      | Ok _ => Ok delay
      | Raise e => Raise e
      end
  | Raise e => Raise e
  end.

(** The backoffs after the attempts numbered [a], ..., [a + k - 1] all go
    through, and [ds] are the delays slept. *)
Definition sleeps_through (rt : Runtime) (cfg : Config) (a k : nat)
  (ds : list float) : Prop :=
  Forall2 (fun i d => backoff_outcome rt cfg (Z.of_nat i) = Ok d) (seq a k) ds.

(** From its call number [start] on, [func] fails [k] times and then
    returns [v]. *)
Definition first_success {A} (func : operation A) (start k : nat) (v : A)
  : Prop :=
  func (start + k)%nat = Ok v /\
  forall i, (i < k)%nat -> exists e, func (start + i)%nat = Raise e.

(** From its call number [start] on, [func] fails [n] times. *)
Definition fails_for {A} (func : operation A) (start n : nat) : Prop :=
  forall i, (i < n)%nat -> exists e, func (start + i)%nat = Raise e.

(** [range(MAX_RETRIES)] *)
Definition range (n : Z) : list Z := map Z.of_nat (seq 0 (Z.to_nat n)).

(** [raise last_exception]; raising [None] is a [TypeError]. *)
Definition raise_last {A} (last_exception : option exception) : result A :=
  match last_exception with
  | Some e => Raise e
  | None => Raise TypeError
  end.

(** ** claude_api.py *)

Module ClaudeApi.

(** The [for] loop of [claude_api._retry_with_backoff] over the attempts
    still to run. *)
Fixpoint retry_loop {A} (rt : Runtime) (cfg : Config) (func : operation A)
  (attempts : list Z) (last_exception : option exception) (w : World)
  : result A * World :=
  match attempts with
  | [] => (raise_last last_exception, w)
  | attempt :: later =>
      match invoke func w with
      | (Ok v, w1) => (Ok v, w1)
      | (Raise e, w1) =>
          if attempt <? MAX_RETRIES cfg - 1 then
            match backoff_sleep rt cfg attempt w1 with
            | (Ok _, w2) => retry_loop rt cfg func later (Some e) w2
            | (Raise e', w2) => (Raise e', w2)
            end
          else retry_loop rt cfg func later (Some e) w1
      end
  end.

(** [claude_api._retry_with_backoff] *)
Definition _retry_with_backoff {A} (rt : Runtime) (cfg : Config)
  (func : operation A) (w : World) : result A * World :=
  retry_loop rt cfg func (range (MAX_RETRIES cfg)) None w.

(** [_clean_json_response] *)
Definition _clean_json_response (response_text : str) : str :=
  let text := strip response_text in
  let text :=
    if startswith (u "```json") text then drop 7 text
    else if startswith (u "```") text then drop 3 text
    else text in
  let text :=
    if endswith (u "```") text then take (length text - 3) text else text in
  strip text.

(** The text-generation service: for a prompt, what
    [client.messages.create] together with [response.content[0].text] gives
    at each call, a text or an exception. *)
Definition Oracle := str -> operation str.

(** [json.loads]: the decoded value or the exception it raises,
    [JSONDecodeError] for a text that is not JSON, another one where the
    decoder gives up on the text (as [RecursionError] on deep nesting). *)
Definition Decoder := str -> result pyval.

(** The [prompt] f-string of [get_daily_summary]. *)
Definition daily_prompt (history user_reply : str) : str :=
  concat
    [ [NL];
      u "You are a fitness accountability coach assistant. Analyze the user's daily check-in response and extract key information.";
      [NL];
      [NL];
      u "Recent context: "; history; [NL];
      [NL];
      u "User's response today: "; user_reply; [NL];
      [NL];
      u "Please provide a JSON response with the following structure:"; [NL];
      u "{"; [NL];
      u "    "; QUOTE; u "workout"; QUOTE; u ": "; QUOTE;
      u "brief summary of their workout (or lack thereof)"; QUOTE; u ",";
      [NL];
      u "    "; QUOTE; u "eating_feelings"; QUOTE; u ": "; QUOTE;
      u "brief summary of how they felt about their eating"; QUOTE; u ",";
      [NL];
      u "    "; QUOTE; u "short_term_goals"; QUOTE; u ": ["; QUOTE;
      u "goal1"; QUOTE; u ", "; QUOTE; u "goal2"; QUOTE; u ", "; QUOTE;
      u "goal3"; QUOTE;
      u "] // extract 1-3 specific goals they mentioned for tomorrow/next few days";
      [NL];
      u "}"; [NL];
      [NL];
      u "Guidelines:"; [NL];
      u "- Be kind and encouraging in your summaries"; [NL];
      u "- Keep workout and eating_feelings to 1-2 sentences each"; [NL];
      u "- Extract concrete, actionable goals from their response"; [NL];
      u "- If they didn't mention something, use "; QUOTE; u "Not specified";
      QUOTE; u " rather than making assumptions"; [NL];
      u "- Focus on their actual words and feelings"; [NL];
      [NL];
      u "Respond with ONLY the JSON, no other text."; [NL];
      u "    " ].

(** The fallback structure of [get_daily_summary]. *)
Definition DAILY_FALLBACK : pyval :=
  VDict
    [ (u "workout", VStr (u "Unable to process workout information"));
      (u "eating_feelings", VStr (u "Unable to process eating information"));
      (u "short_term_goals", VList []) ].

(** [_make_request] inside [get_daily_summary] *)
Definition daily_request (json_loads : Decoder) (oracle : Oracle)
  (prompt : str) : operation pyval :=
  fun k =>
    match oracle prompt k with
    | Raise e => Raise e
    | Ok text =>
        let response_text := strip text in
        let cleaned_text := _clean_json_response response_text in
        match json_loads cleaned_text with
        | Ok v => Ok v
        | Raise JSONDecodeError => Ok DAILY_FALLBACK
        | Raise e => Raise e
        end
    end.

(** The oracle's first reply to [prompt], counted from call [start], is
    rejected by [json.loads], once cleaned, with [JSONDecodeError]. *)
Definition first_reply_malformed (json_loads : Decoder) (oracle : Oracle)
  (prompt : str) (start : nat) : Prop :=
  exists k text,
    first_success (oracle prompt) start k text /\
    json_loads (_clean_json_response (strip text)) = Raise JSONDecodeError.

(** The call numbered [k] of the request fails: the oracle raises, or
    [json.loads] raises on its cleaned reply an exception that is not
    [JSONDecodeError]. *)
Definition attempt_fails (json_loads : Decoder) (oracle : Oracle)
  (prompt : str) (k : nat) : Prop :=
  (exists e, oracle prompt k = Raise e) \/
  (exists text e,
     oracle prompt k = Ok text /\
     json_loads (_clean_json_response (strip text)) = Raise e /\
     e <> JSONDecodeError).

(** [get_daily_summary] *)
Definition get_daily_summary (rt : Runtime) (cfg : Config)
  (json_loads : Decoder) (oracle : Oracle) (history user_reply : str)
  (w : World) : result pyval * World :=
  let prompt := daily_prompt history user_reply in
  match _retry_with_backoff rt cfg
          (daily_request json_loads oracle prompt) w with
  | (Ok result, w') => (Ok result, w')
  | (Raise _, w') => (Ok DAILY_FALLBACK, w')
  end.

(** The f-string added to [summaries_text] for day [i]. *)
Definition day_block (i workout eating_feelings goals : str) : str :=
  concat
    [ [NL];
      u "Day "; i; u ":"; [NL];
      u "- Workout: "; workout; [NL];
      u "- Eating Feelings: "; eating_feelings; [NL];
      u "- Goals: "; goals; [NL];
      u "        " ].

(** The loop that builds [summaries_text]; [i] is the number of the next
    day. *)
Fixpoint summaries_text_from (fmt : pyval -> str) (i : nat)
  (daily_summaries : list dict) (acc : str) : result str :=
  match daily_summaries with
  | [] => Ok acc
  | summary :: rest =>
      match join_value (u ", ") (dict_get (u "short_term_goals") (VList []) summary) with
      | Raise e => Raise e
      | Ok goals =>
          summaries_text_from fmt (S i) rest
            (acc ++ day_block (decimal i)
                      (format_value fmt (dict_get (u "workout") (VStr (u "Not specified")) summary))
                      (format_value fmt (dict_get (u "eating_feelings") (VStr (u "Not specified")) summary))
                      goals)
      end
  end.

(** The [prompt] f-string of [get_weekly_recap]. *)
Definition weekly_prompt (summaries_text : str) : str :=
  concat
    [ [NL];
      u "You are a fitness accountability coach. Analyze the past week's daily summaries and provide a comprehensive weekly recap.";
      [NL];
      [NL];
      u "Daily summaries from this week:"; [NL];
      summaries_text; [NL];
      [NL];
      u "Please provide a JSON response with the following structure:"; [NL];
      u "{"; [NL];
      u "    "; QUOTE; u "workout_count"; QUOTE;
      u ": number, // count of days where the user had a meaningful workout";
      [NL];
      u "    "; QUOTE; u "general_eating_feeling"; QUOTE; u ": "; QUOTE;
      u "brief summary of overall eating patterns/feelings this week"; QUOTE;
      u ","; [NL];
      u "    "; QUOTE; u "slip_ups"; QUOTE; u ": "; QUOTE;
      u "comma-separated list of foods/eating behaviors they struggled with, or 'None reported' if none";
      QUOTE; u ","; [NL];
      u "    "; QUOTE; u "suggested_reflection"; QUOTE; u ": "; QUOTE;
      u "one encouraging sentence about their progress and/or a gentle suggestion for next week";
      QUOTE; [NL];
      u "}"; [NL];
      [NL];
      u "Guidelines:"; [NL];
      u "- Be encouraging and supportive in tone"; [NL];
      u "- Count workouts only if they seem meaningful (not just "; QUOTE;
      u "didn't work out"; QUOTE; u " or similar)"; [NL];
      u "- Focus on patterns across the week"; [NL];
      u "- Keep slip_ups factual but non-judgmental"; [NL];
      u "- Make the reflection personal and motivating"; [NL];
      [NL];
      u "Respond with ONLY the JSON, no other text."; [NL];
      u "    " ].

(** [s.get('workout', '').lower() not in ['not specified', 'none', '']];
    a workout that is not a string has no [lower]. *)
Definition counts_as_workout (s : dict) : result bool :=
  match dict_get (u "workout") (VStr []) s with
  | VStr workout =>
      Ok (negb (bool_decide (lower workout ∈ [u "not specified"; u "none"; []])))
  | _ => Raise AttributeError
  end.

(** [len([s for s in daily_summaries if ...])] *)
Fixpoint workout_count (daily_summaries : list dict) : result Z :=
  match daily_summaries with
  | [] => Ok 0
  | s :: rest =>
      match counts_as_workout s with
      | Raise e => Raise e
      | Ok b =>
          match workout_count rest with
          | Raise e => Raise e
          | Ok n => Ok (if b then n + 1 else n)
          end
      end
  end.

(** The workout text of a summary whose workout, when present, is a
    string: [s.get('workout', '')]. *)
Definition workout_text (s : dict) : str :=
  match dict_get (u "workout") (VStr []) s with
  | VStr workout => workout
  | _ => []
  end.

(** A summary of the right types: the workout, when present, is a string
    and the goals, when present, are a list of strings. The other keys are
    free. *)
Definition typed_summary (s : dict) : Prop :=
  (exists workout, dict_get (u "workout") (VStr []) s = VStr workout) /\
  (exists goals,
     dict_get (u "short_term_goals") (VList []) s = VList (map VStr goals)).

(** The recap computed from the summaries alone. *)
Definition local_recap (daily_summaries : list dict) : pyval :=
  VDict
    [ (u "workout_count",
       VInt (Z.of_nat (length (filter
         (fun s => lower (workout_text s) ∉ [u "not specified"; u "none"; []])
         daily_summaries))));
      (u "general_eating_feeling", VStr (u "Mixed feelings about eating this week"));
      (u "slip_ups", VStr (u "Unable to analyze slip-ups"));
      (u "suggested_reflection", VStr (u "Keep up the great work and stay consistent!")) ].

(** The fallback dictionary of [get_weekly_recap]. *)
Definition weekly_fallback (daily_summaries : list dict) : result pyval :=
  match workout_count daily_summaries with
  | Raise e => Raise e
  | Ok n =>
      Ok (VDict
            [ (u "workout_count", VInt n);
              (u "general_eating_feeling", VStr (u "Mixed feelings about eating this week"));
              (u "slip_ups", VStr (u "Unable to analyze slip-ups"));
              (u "suggested_reflection", VStr (u "Keep up the great work and stay consistent!")) ])
  end.

(** [_make_request] inside [get_weekly_recap] *)
Definition weekly_request (json_loads : Decoder) (oracle : Oracle)
  (daily_summaries : list dict) (prompt : str) : operation pyval :=
  fun k =>
    match oracle prompt k with
    | Raise e => Raise e
    | Ok text =>
        let response_text := strip text in
        let cleaned_text := _clean_json_response response_text in
        match json_loads cleaned_text with
        | Ok v => Ok v
        | Raise JSONDecodeError => weekly_fallback daily_summaries
        | Raise e => Raise e
        end
    end.

(** [get_weekly_recap]; building the prompt is outside the [try]. *)
Definition get_weekly_recap (rt : Runtime) (cfg : Config)
  (json_loads : Decoder) (fmt : pyval -> str) (oracle : Oracle)
  (daily_summaries : list dict) (w : World) : result pyval * World :=
  match summaries_text_from fmt 1 daily_summaries [] with
  | Raise e => (Raise e, w)
  | Ok summaries_text =>
      let prompt := weekly_prompt summaries_text in
      match _retry_with_backoff rt cfg
              (weekly_request json_loads oracle daily_summaries prompt) w with
      | (Ok result, w') => (Ok result, w')
      | (Raise _, w') => (weekly_fallback daily_summaries, w')
      end
  end.

End ClaudeApi.

(** ** google_docs.py *)

Module GoogleDocs.

(** [e.resp.status in [429, 500, 502, 503, 504]] *)
Definition retryable_status (status : Z) : bool :=
  bool_decide (status ∈ [429; 500; 502; 503; 504]).

(** The [for] loop of [google_docs._retry_with_backoff]: an [HttpError] with
    another status leaves the loop ([break]); every other exception takes the
    second handler. *)
Fixpoint retry_loop {A} (rt : Runtime) (cfg : Config) (func : operation A)
  (attempts : list Z) (last_exception : option exception) (w : World)
  : result A * World :=
  match attempts with
  | [] => (raise_last last_exception, w)
  | attempt :: later =>
      match invoke func w with
      | (Ok v, w1) => (Ok v, w1)
      | (Raise (HttpError status), w1) =>
          let e := HttpError status in
          if retryable_status status then
            if attempt <? MAX_RETRIES cfg - 1 then
              match backoff_sleep rt cfg attempt w1 with
              | (Ok _, w2) => retry_loop rt cfg func later (Some e) w2
              | (Raise e', w2) => (Raise e', w2)
              end
            else retry_loop rt cfg func later (Some e) w1
          else (raise_last (Some e), w1)
      | (Raise e, w1) =>
          if attempt <? MAX_RETRIES cfg - 1 then
            match backoff_sleep rt cfg attempt w1 with
            | (Ok _, w2) => retry_loop rt cfg func later (Some e) w2
            | (Raise e', w2) => (Raise e', w2)
            end
          else retry_loop rt cfg func later (Some e) w1
      end
  end.

(** [google_docs._retry_with_backoff] *)
Definition _retry_with_backoff {A} (rt : Runtime) (cfg : Config)
  (func : operation A) (w : World) : result A * World :=
  retry_loop rt cfg func (range (MAX_RETRIES cfg)) None w.


(** The heading prefix and the separator the parser looks for. *)
Definition DAILY_HEADING := u "Daily Check-in:".
Definition SEPARATOR := u "---".

(** The bullet prefixes as [google_docs.py] spells them. The file holds the
    three code points U+00E2 U+20AC U+00A2 where [bot.py] writes the bullet
    U+2022. *)
Definition PARSER_BULLET : str := [226; 8364; 162]%N.
Definition P_WORKOUT := PARSER_BULLET ++ u " Workout:".
Definition P_EATING := PARSER_BULLET ++ u " Eating Feelings:".
Definition P_GOALS := PARSER_BULLET ++ u " Short-term Goals:".

(** The document body returned by [documents().get]: elements that may be
    paragraphs, whose elements may be text runs with a content. *)
Inductive paragraph_element :=
| TextRun (content : option str)
| OtherRun.

Inductive structural_element :=
| Paragraph (elements : option (list paragraph_element))
| OtherElement.

Definition run_text (e : paragraph_element) : str :=
  match e with
  | TextRun (Some c) => c
  | _ => []
  end.

Definition element_text (e : structural_element) : str :=
  match e with
  | Paragraph (Some elems) => concat (map run_text elems)
  | _ => []
  end.

(** The loop that builds [full_text]. *)
Definition full_text (content : list structural_element) : str :=
  concat (map element_text content).

(** The fresh [summary_data] of an entry. *)
Definition new_summary (date_str : str) : dict :=
  [ (K_DATE, VStr date_str);
    (K_WORKOUT, VStr NOT_SPECIFIED);
    (K_EATING, VStr NOT_SPECIFIED);
    (K_GOALS, VList []) ].

(** The list comprehension over [goals_text.split(',')]. *)
Definition parse_goals (goals_text : str) : list str :=
  map strip (filter (fun goal => strip goal <> []) (split COMMA goals_text)).

(** One turn of the inner loop on the stripped line [line_content]. *)
Definition update_summary (line_content : str) (summary_data : dict) : dict :=
  if startswith P_WORKOUT line_content then
    dict_set K_WORKOUT (VStr (strip (replace P_WORKOUT [] line_content))) summary_data
  else if startswith P_EATING line_content then
    dict_set K_EATING (VStr (strip (replace P_EATING [] line_content))) summary_data
  else if startswith P_GOALS line_content then
    let goals_text := strip (replace P_GOALS [] line_content) in
    if negb (eqb goals_text []) && negb (eqb goals_text NOT_SPECIFIED) then
      dict_set K_GOALS (VList (map VStr (parse_goals goals_text))) summary_data
    else summary_data
  else summary_data.

(** The two nested [while] loops over [lines]. The outer loop is at
    [lines[i:]] with [summaries] collected so far; the inner loop is at
    [lines[j:]] with the [summary_data] of the open entry. When the inner
    loop stops at a separator the outer loop resumes at that line
    ([i = j]). *)
Fixpoint scan_lines (days : Z) (lines : list str) (summaries : list dict)
  {struct lines} : list dict :=
  if negb (Z.of_nat (length summaries) <? days) then summaries else
  match lines with
  | [] => summaries
  | l :: rest =>
      let line := strip l in
      if startswith DAILY_HEADING line then
        let date_str := strip (replace DAILY_HEADING [] line) in
        (fix scan_entry (ls : list str) (summary_data : dict) {struct ls}
           : list dict :=
           match ls with
           | [] => summaries ++ [summary_data]
           | l' :: ls' =>
               if startswith SEPARATOR (strip l')
               then scan_lines days ls (summaries ++ [summary_data])
               else scan_entry ls' (update_summary (strip l') summary_data)
           end) rest (new_summary date_str)
      else scan_lines days rest summaries
  end.

(** The body of the [try] block of [get_daily_summaries_from_doc], from the
    fetched body content on. *)
Definition daily_summaries_of_text (text : str) (days : Z) : list dict :=
  scan_lines days (split NL text) [].

(** [get_daily_summaries_from_doc]; [fetched] is what
    [get_document_content(doc_id)] did: returned the body content or raised. *)
Definition get_daily_summaries_from_doc
  (fetched : result (list structural_element)) (days : Z) : list dict :=
  match fetched with
  | Ok content => daily_summaries_of_text (full_text content) days
  | Raise _ => []
  end.


(** The inner loop on its own: the summary of the entry whose body starts
    at [ls], and the lines from the separator on ([lines[j:]]). *)
Fixpoint scan_entry (ls : list str) (summary_data : dict) : dict * list str :=
  match ls with
  | [] => (summary_data, [])
  | l' :: ls' =>
      if startswith SEPARATOR (strip l') then (summary_data, ls)
      else scan_entry ls' (update_summary (strip l') summary_data)
  end.

(** The test that ends the inner loop. *)
Definition is_separator (l : str) : bool := startswith SEPARATOR (strip l).

(** The date a line carries when it is a daily heading. *)
Definition heading_date (l : str) : option str :=
  let line := strip l in
  if startswith DAILY_HEADING line
  then Some (strip (replace DAILY_HEADING [] line))
  else None.

(** *** The stretch log *)

Record StretchEntry := {
  entry_date : str;
  stretched : bool;
  raw_text : str
}.

(** Modelled from the spec: [get_stretch_entry] is imported by [bot.py] from
    [google_docs] but is not defined in the sources at hand. The stretch
    document is the sequence of its entries from head to tail, newest first;
    the lookup scans it for the entry whose key is exactly [date_key] and
    returns the first match or signals absence; a fetch that fails gives
    the empty result, as for every read operation. *)
Definition get_stretch_entry (fetched : result (list StretchEntry))
  (date_key : str) : option StretchEntry :=
  match fetched with
  | Ok entries => List.find (fun e => eqb (entry_date e) date_key) entries
  | Raise _ => None
  end.

(** *** What a re-parsed record is made of *)

(** A goal kept by the parser: not empty, not blank, already stripped. *)
Definition goal_ok (g : str) : Prop :=
  g <> [] /\ forallb isspace g = false /\ strip g = g.

(** The text fields of a record are stripped and its goals are kept ones. *)
Definition record_stripped (r : DailyRecord) : Prop :=
  strip (date r) = date r /\
  strip (workout r) = workout r /\
  strip (eating_feelings r) = eating_feelings r /\
  Forall goal_ok (short_term_goals r).

(** [v] is what follows the prefix [p] on some line of [lines]. *)
Definition from_bullet (lines : list str) (p v : str) : Prop :=
  exists l, l ∈ lines /\ startswith p (strip l) = true /\
            v = strip (replace p [] (strip l)).

(** The three summary fields of [r] are each either the default of a
    fresh summary or read off a line of [lines]. *)
Definition fields_from (lines : list str) (r : DailyRecord) : Prop :=
  (workout r = NOT_SPECIFIED \/ from_bullet lines P_WORKOUT (workout r)) /\
  (eating_feelings r = NOT_SPECIFIED \/
   from_bullet lines P_EATING (eating_feelings r)) /\
  (short_term_goals r = [] \/
   exists t, from_bullet lines P_GOALS t /\ t <> [] /\ t <> NOT_SPECIFIED /\
             short_term_goals r = parse_goals t).

(** What the inner loop maintains about the open entry. *)
Definition entry_inv (lines : list str) (r : DailyRecord) : Prop :=
  record_stripped r /\ fields_from lines r.

(** The record of a fresh summary. *)
Definition fresh_record (date_str : str) : DailyRecord :=
  {| date := date_str; workout := NOT_SPECIFIED;
     eating_feelings := NOT_SPECIFIED; short_term_goals := [] |}.

(** [r] is read off [lines]: its date off a heading line, its fields off
    bullet lines or left at their defaults. *)
Definition parsed_from (lines : list str) (r : DailyRecord) : Prop :=
  (exists l, l ∈ lines /\ heading_date l = Some (date r)) /\
  fields_from lines r.

(** [d] is the dictionary of a stripped record read off [lines]. *)
Definition summary_from (lines : list str) (d : dict) : Prop :=
  exists r, d = record_dict r /\ record_stripped r /\ parsed_from lines r.

(** The dates of the heading lines of [lines], in order. *)
Definition heading_dates (lines : list str) : list str :=
  omap heading_date lines.

(** *** An entry and its record *)




End GoogleDocs.

(** ** bot.py and the document it writes *)

Module Bot.

(** The [doc_content] f-string of [process_daily_response], with the three
    summary fields already formatted. *)
Definition daily_doc_content
  (today_str user_text workout eating_feelings goals : str) : str :=
  concat
    [ [NL];
      u "Daily Check-in: "; today_str; [NL];
      [NL];
      u "Raw Response:"; [NL];
      user_text; [NL];
      [NL];
      u "Summary:"; [NL];
      [8226]%N; u " Workout: "; workout; [NL];
      [8226]%N; u " Eating Feelings: "; eating_feelings; [NL];
      [8226]%N; u " Short-term Goals: "; goals; [NL];
      [NL];
      u "---"; [NL];
      u "            " ].

(** [summary.get(key, default)] on what [get_daily_summary] returned: only a
    dict has [get]. *)
Definition summary_get (key : str) (default : pyval) (summary : pyval)
  : result pyval :=
  match summary with
  | VDict d => Ok (dict_get key default d)
  | _ => Raise AttributeError
  end.

(** The [doc_content] f-string of [process_daily_response]. *)
Definition render_daily (fmt : pyval -> str) (today_str user_text : str)
  (summary : pyval) : result str :=
  match summary_get (u "workout") (VStr (u "Not specified")) summary with
  | Raise e => Raise e
  | Ok workout =>
  match summary_get (u "eating_feelings") (VStr (u "Not specified")) summary with
  | Raise e => Raise e
  | Ok eating =>
  match summary_get (u "short_term_goals") (VList []) summary with
  | Raise e => Raise e
  | Ok goals_value =>
  match join_value (u ", ") goals_value with
  | Raise e => Raise e
  | Ok goals =>
      Ok (daily_doc_content today_str user_text
            (format_value fmt workout) (format_value fmt eating) goals)
  end end end end.

(** The heading passed to [append_to_doc]. *)
Definition daily_heading (today_str : str) : str :=
  u "Daily Check-in: " ++ today_str.

(** [insertText] at a document index. The body text starts at index 1, and
    an index counts one unit per code point (every code point of the Basic
    Multilingual Plane is one unit). *)
Definition insert_text (index : nat) (text body : str) : str :=
  take (index - 1) body ++ text ++ drop (index - 1) body.

(** The text lies in the Basic Multilingual Plane. The service counts an
    index in UTF-16 code units, of which a code point beyond the plane takes
    two while [len] counts it once: [insert_text] is what the service does
    with the indices [append_to_doc] computes only when the heading and the
    content it inserts are such texts. *)
Definition bmp (s : str) : bool := forallb (fun c => (c <? 65536)%N) s.

(** The three [insertText] requests of [append_to_doc], in order, on the
    text of the document body (the paragraph style request changes no
    text). *)
Definition append_to_doc (heading content body : str) : str :=
  let insert_index := 1%nat in
  let body := insert_text insert_index ([NL] ++ heading ++ [NL]) body in
  let body := insert_text (insert_index + length heading + 2)
                (content ++ [NL]) body in
  insert_text (insert_index + length heading + length content + 3) [NL] body.

(** The document text after [process_daily_response] stored [summary]. *)
Definition store_daily (fmt : pyval -> str) (today_str user_text : str)
  (summary : pyval) (body : str) : result str :=
  match render_daily fmt today_str user_text summary with
  | Raise e => Raise e
  | Ok doc_content => Ok (append_to_doc (daily_heading today_str) doc_content body)
  end.

(** The test of [process_stretch_response] on the reply. *)
Definition stretched_of_reply (user_text : str) : bool :=
  let user_text_lower := lower user_text in
  contains (u "yes") user_text_lower
  || contains (u "yeah") user_text_lower
  || contains (u "yep") user_text_lower.

(** What [send_stretch_check] does with the two lookups. *)
Inductive stretch_check :=
| StretchedYesterday           (* no reminder *)
| EntryForToday                (* no reminder *)
| Reminder (opening : str).    (* reminder sent, starting with [opening] *)

Definition send_stretch_check
  (yesterday_entry today_entry : option GoogleDocs.StretchEntry)
  : stretch_check :=
  if match yesterday_entry with
     | Some e => GoogleDocs.stretched e
     | None => false
     end
  then StretchedYesterday
  else if match today_entry with Some _ => true | None => false end
  then EntryForToday
  else Reminder
         (match yesterday_entry with
          | Some _ => u "I noticed you didn't stretch yesterday. "
          | None => u "I don't have a record of you stretching yesterday. "
          end).


End Bot.

(** ** google_docs.py: fetching the document and the raw entries *)

Module GoogleDocsLog.

Import GoogleDocs.

(** [get_document_content]: the remote [documents().get] behind the retry
    wrapper; a failure is logged and raised again. [documents_get] gives the
    body content of the document at each call. *)
Definition get_document_content (rt : Runtime) (cfg : Config)
  (documents_get : operation (list structural_element)) (w : World)
  : result (list structural_element) * World :=
  match _retry_with_backoff rt cfg documents_get w with
  | (Ok result, w') => (Ok result, w')
  | (Raise e, w') => (Raise e, w')
  end.

(** [test_docs_connection] *)
Definition test_docs_connection (rt : Runtime) (cfg : Config)
  (documents_get : operation (list structural_element)) (w : World)
  : bool * World :=
  match get_document_content rt cfg documents_get w with
  | (Ok _, w') => (true, w')
  | (Raise _, w') => (false, w')
  end.

(** Closing the entry in progress: [entries.append('\n'.join(current_entry))]
    when [current_entry] is not empty. *)
Definition close_entry (entries : list str) (current_entry : list str)
  : list str :=
  match current_entry with
  | [] => entries
  | _ :: _ => entries ++ [join [NL] current_entry]
  end.

(** One turn of the [for] loop of [search_recent_entries] on the pair
    [(entries, current_entry)]. *)
Definition entry_step (st : list str * list str) (line : str)
  : list str * list str :=
  let '(entries, current_entry) := st in
  if startswith DAILY_HEADING (strip line) then
    (close_entry entries current_entry, [strip line])
  else if eqb (strip line) SEPARATOR then
    match current_entry with
    | [] => (entries, current_entry)
    | _ :: _ => (entries ++ [join [NL] current_entry], [])
    end
  else
    match current_entry with
    | [] => (entries, current_entry)
    | _ :: _ => (entries, current_entry ++ [strip line])
    end.

(** The loop and the closing of the last entry. *)
Definition collect_entries (lines : list str) : list str :=
  let '(entries, current_entry) := fold_left entry_step lines ([], []) in
  close_entry entries current_entry.

(** [entries[:days] if len(entries) >= days else entries]; a negative bound
    counts from the end. *)
Definition recent_slice (days : Z) (entries : list str) : list str :=
  if Z.of_nat (length entries) >=? days then
    if 0 <=? days then take (Z.to_nat days) entries
    else take (length entries - Z.to_nat (- days)) entries
  else entries.

(** The body of the [try] block of [search_recent_entries] on the text. *)
Definition recent_entries_of_text (text : str) (days : Z) : list str :=
  recent_slice days (collect_entries (split NL text)).

(** [search_recent_entries]; [fetched] is what [get_document_content] did. *)
Definition search_recent_entries
  (fetched : result (list structural_element)) (days : Z) : list str :=
  match fetched with
  | Ok content => recent_entries_of_text (full_text content) days
  | Raise _ => []
  end.

(** The two readers on a document fetched through the retry wrapper. *)
Definition read_daily_summaries (rt : Runtime) (cfg : Config)
  (documents_get : operation (list structural_element)) (days : Z)
  (w : World) : list dict * World :=
  let '(fetched, w') := get_document_content rt cfg documents_get w in
  (get_daily_summaries_from_doc fetched days, w').

Definition read_recent_entries (rt : Runtime) (cfg : Config)
  (documents_get : operation (list structural_element)) (days : Z)
  (w : World) : list str * World :=
  let '(fetched, w') := get_document_content rt cfg documents_get w in
  (search_recent_entries fetched days, w').

(** The heading lines of a list of lines, stripped, in order. *)
Definition stripped_headings (lines : list str) : list str :=
  map strip (filter (fun l => startswith DAILY_HEADING (strip l) = true) lines).

(** A failure the wrapper of this module retries: any exception but an
    [HttpError] whose status is not in the list. *)
Definition retryable (e : exception) : bool :=
  match e with
  | HttpError status => retryable_status status
  | _ => true
  end.

(** An entry opens with its heading line: it is that line, or that line
    followed by a newline and more. *)
Definition opens_with (e h : str) : Prop :=
  startswith DAILY_HEADING e = true /\
  (e = h \/ exists more, e = h ++ [NL] ++ more).

(** What the loop of [search_recent_entries] maintains: the closed entries
    open with the headings seen so far but the last, and the entry in
    progress begins with the last heading. *)
Definition raw_inv (hs entries cur : list str) : Prop :=
  exists hs1,
    Forall2 opens_with entries hs1 /\
    match cur with
    | [] => hs = hs1
    | h :: _ => hs = hs1 ++ [h] /\ startswith DAILY_HEADING h = true
    end.

(** A line that neither ends an entry of the daily re-parser nor begins
    with the first code point of its bullet prefix. *)
Definition inert_line (l : str) : bool :=
  negb (is_separator l) && negb (startswith [226%N] (strip l)).

(** The characters of a date written by [strftime("%Y-%m-%d")]: digits and
    the hyphen. *)
Definition iso_date_char (c : N) : bool :=
  ((48 <=? c) && (c <=? 57) || (c =? 45))%N.

(** A line that [search_recent_entries] adds to the entry in progress: not
    a heading and not the separator. *)
Definition plain_line (l : str) : bool :=
  negb (startswith DAILY_HEADING (strip l)) && negb (eqb (strip l) SEPARATOR).

(** The lines between the heading of a stored check-in and its separator. *)
Definition stored_body (today user_text workout eating goals : str)
  : list str :=
  [ []; u "Daily Check-in: " ++ today; []; u "Raw Response:" ]
  ++ split NL user_text
  ++ [ []; u "Summary:";
       [8226%N] ++ u " Workout: " ++ workout;
       [8226%N] ++ u " Eating Feelings: " ++ eating;
       [8226%N] ++ u " Short-term Goals: " ++ goals;
       [] ].

(** From its call number [start] on, [func] fails [k] times with failures
    that the wrapper of this module retries. *)
Definition fails_retryably {A} (func : operation A) (start k : nat) : Prop :=
  forall i, (i < k)%nat ->
    exists e, func (start + i)%nat = Raise e /\ retryable e = true.

End GoogleDocsLog.

(** ** bot.py: the recent history given to the extractor *)

Module BotHistory.

(** [_get_recent_history] on what [search_recent_entries] returned:
    [recent_entries[-3:]], one line per entry. *)
Definition _get_recent_history (recent_entries : list str) : str :=
  match recent_entries with
  | [] => u "No recent history available."
  | _ :: _ =>
      fold_left (fun history_text entry =>
                   history_text ++ u "- " ++ entry ++ [NL])
                (drop (length recent_entries - 3) recent_entries)
                (u "Recent fitness history:" ++ [NL])
  end.

End BotHistory.

(** ** Runs of the retry wrappers *)

(** [out] is the outcome of a run of [n] calls of [func] that started in
    [w], under a wrapper that retries the failures accepted by [retried]:
    between one and [MAX_RETRIES] calls, every call but the last failed with
    a retried failure and was followed by a backoff that went through, [ds]
    being the delays slept. The run ends in one of two ways. Either the
    result is that of the last call, and a run that stops before
    [MAX_RETRIES] calls ends in a success or in a failure that is not
    retried. Or the last call failed with a retried failure before the last
    attempt and its backoff raised, in the computation of the delay or in
    [time.sleep]: that exception is the result. *)
Definition retry_run {A} (rt : Runtime) (cfg : Config) (func : operation A)
  (retried : exception -> bool) (w : World) (out : result A * World)
  (n : nat) (ds : list float) : Prop :=
  (1 <= n)%nat /\ Z.of_nat n <= MAX_RETRIES cfg /\
  out.2 = advance w n ds /\
  sleeps_through rt cfg 0 (n - 1) ds /\
  (forall i, (S i < n)%nat ->
     exists e, func (calls w + i)%nat = Raise e /\ retried e = true) /\
  ((out.1 = func (calls w + (n - 1))%nat /\
    (Z.of_nat n < MAX_RETRIES cfg ->
     match out.1 with Ok _ => True | Raise e => retried e = false end)) \/
   (Z.of_nat n < MAX_RETRIES cfg /\
    exists e e',
      func (calls w + (n - 1))%nat = Raise e /\ retried e = true /\
      backoff_outcome rt cfg (Z.of_nat (n - 1)) = Raise e' /\
      out.1 = Raise e')).

(** ** bot.py: the handlers and the state of the bot *)

Module BotFlow.

Import GoogleDocs GoogleDocsLog BotHistory Bot.

(** The attributes of [FitnessCoachBot] that the handlers read and write. *)
Record FitnessCoachBot := {
  awaiting_daily_response : bool;
  awaiting_weekly_response : bool;
  awaiting_stretch_response : bool;
  pending_weekly_data : pyval;
  pending_stretch_data : dict
}.

(** [__init__] *)
Definition new_bot : FitnessCoachBot :=
  {| awaiting_daily_response := false;
     awaiting_weekly_response := false;
     awaiting_stretch_response := false;
     pending_weekly_data := VDict [];
     pending_stretch_data := [] |}.

(** The calls a handler makes that change something outside the bot.
    [save_stretch_entry] is imported from [google_docs] but not defined in
    the sources at hand: only its call and its outcome are modelled. *)
Inductive action :=
| SendMessage (text : str)       (* [context.bot.send_message] to the user *)
| ReplyText (text : str)         (* [update.message.reply_text] *)
| AppendToDoc (heading content : str)
| SaveStretchEntry (date : pyval) (user_text : str) (stretched : bool).

(** What surrounds one run of a handler: the chat the bot serves, the
    outcome of each action ([perform n a] is what the action [a] does when
    [n] actions were made before it in the run), what the fetch of the log
    document does, the two extractor functions, the lookup of a stretch
    entry ([get_stretch_entry], whose outcome is taken as given), the dates
    the clock gives, and the two facts about Python values
    that are not modelled: the text of a value that is not a string and the
    truth value of a float. *)
Record Services := {
  USER_CHAT_ID : Z;
  perform : nat -> action -> result unit;
  document : result (list structural_element);
  daily_summary_of : str -> str -> result pyval;
  weekly_recap_of : list dict -> result pyval;
  stretch_entry_on : str -> result (option StretchEntry);
  today_str : str;
  yesterday_str : str;
  week_start_str : str;
  fmt : pyval -> str;
  float_truth : str -> bool
}.

(** A handler body: it runs on the state of the bot and the actions made so
    far, and returns or raises. *)
Definition handler (A : Type) : Type :=
  FitnessCoachBot -> list action -> result A * FitnessCoachBot * list action.

Definition ret {A} (v : A) : handler A := fun bot log => (Ok v, bot, log).

Definition bind {A B} (m : handler A) (f : A -> handler B) : handler B :=
  fun bot log =>
    match m bot log with
    | (Ok v, bot', log') => f v bot' log'
    | (Raise e, bot', log') => (Raise e, bot', log')
    end.

Notation "x <- m ;; k" := (bind m (fun x => k))
  (at level 100, m at next level, right associativity).
Notation "m ;; k" := (bind m (fun _ => k))
  (at level 100, right associativity).

(** A value computed outside the bot, or the exception it raised. *)
Definition lift {A} (r : result A) : handler A := fun bot log => (r, bot, log).

(** One action: it is made, and it returns or raises. *)
Definition act (env : Services) (a : action) : handler unit :=
  fun bot log => (perform env (length log) a, bot, log ++ [a]).

(** An assignment to an attribute of the bot. *)
Definition assign (f : FitnessCoachBot -> FitnessCoachBot) : handler unit :=
  fun bot log => (Ok tt, f bot, log).

Definition set_awaiting_daily (b : bool) (bot : FitnessCoachBot) :=
  {| awaiting_daily_response := b;
     awaiting_weekly_response := awaiting_weekly_response bot;
     awaiting_stretch_response := awaiting_stretch_response bot;
     pending_weekly_data := pending_weekly_data bot;
     pending_stretch_data := pending_stretch_data bot |}.

Definition set_awaiting_weekly (b : bool) (bot : FitnessCoachBot) :=
  {| awaiting_daily_response := awaiting_daily_response bot;
     awaiting_weekly_response := b;
     awaiting_stretch_response := awaiting_stretch_response bot;
     pending_weekly_data := pending_weekly_data bot;
     pending_stretch_data := pending_stretch_data bot |}.

Definition set_awaiting_stretch (b : bool) (bot : FitnessCoachBot) :=
  {| awaiting_daily_response := awaiting_daily_response bot;
     awaiting_weekly_response := awaiting_weekly_response bot;
     awaiting_stretch_response := b;
     pending_weekly_data := pending_weekly_data bot;
     pending_stretch_data := pending_stretch_data bot |}.

Definition set_pending_weekly (v : pyval) (bot : FitnessCoachBot) :=
  {| awaiting_daily_response := awaiting_daily_response bot;
     awaiting_weekly_response := awaiting_weekly_response bot;
     awaiting_stretch_response := awaiting_stretch_response bot;
     pending_weekly_data := v;
     pending_stretch_data := pending_stretch_data bot |}.

Definition set_pending_stretch (d : dict) (bot : FitnessCoachBot) :=
  {| awaiting_daily_response := awaiting_daily_response bot;
     awaiting_weekly_response := awaiting_weekly_response bot;
     awaiting_stretch_response := awaiting_stretch_response bot;
     pending_weekly_data := pending_weekly_data bot;
     pending_stretch_data := d |}.

(** [try: body except Exception as e: on_error]; every exception of the
    model is an [Exception]. *)
Definition try_except {A} (body : handler A) (on_error : exception -> handler A)
  : handler A :=
  fun bot log =>
    match body bot log with
    | (Ok v, bot', log') => (Ok v, bot', log')
    | (Raise e, bot', log') => on_error e bot' log'
    end.

(** [bool(v)] *)
Definition truthy (env : Services) (v : pyval) : bool :=
  match v with
  | VNone => false
  | VBool b => b
  | VInt z => negb (z =? 0)
  | VFloat literal => float_truth env literal
  | VStr s => negb (bool_decide (s = []))
  | VList items => match items with [] => false | _ :: _ => true end
  | VDict items => match items with [] => false | _ :: _ => true end
  end.

(** *** The texts of the messages *)

Definition NOT_EXPECTING : str :=
  concat [u "I'm not currently expecting a response. Use /daily to start ";
          u "a daily check-in, /weekly for a weekly recap, or /stretch ";
          u "for a stretch check." ].

Definition GOOD_EVENING : str :=
  concat [u "Good evening! Time for your daily check-in "; [127749]%N;
          [NL]; [NL] ].

Definition TELL_ME : str :=
  concat [u "Please tell me about your day:"; [NL]; [8226]%N;
          u " How was your workout today?"; [NL]; [8226]%N;
          u " How did you feel about what you ate?"; [NL]; [8226]%N;
          u " Any goals for tomorrow / the next few days?" ].

Definition STRETCH_REMINDER : str :=
  concat [[129496]%N; [8205]%N; [9794]%N; [65039]%N;
          u " Stretch Reminder!"; [NL]; [NL] ].

Definition HAVE_YOU_STRETCHED : str :=
  concat [u "Have you stretched today? Even 5-10 minutes can make a big ";
          u "difference!"; [NL]; [NL];
          u "Please reply with 'yes' or 'no' and let me know about your ";
          u "stretching today." ].

Definition PROCESSING : str :=
  concat [u "Thanks! Processing your response... "; [129302]%N ].

Definition SORRY_DAILY : str :=
  concat [u "Sorry, there was an error processing your response. Please ";
          u "try again later." ].

Definition NO_SUMMARIES : str :=
  concat [u "No daily summaries found for the past week. Start logging ";
          u "your daily check-ins!" ].

Definition PREPARING : str :=
  concat [u "Preparing your weekly recap... "; [128202]%N ].

Definition SORRY_RECAP : str :=
  concat [u "Sorry, there was an error generating your weekly recap. ";
          u "Please try again later." ].

Definition THANKS_WEEKLY : str :=
  concat [u "Thanks for your weekly reflection! Your response has been ";
          u "saved. Looking forward to supporting you in the coming ";
          u "week! "; [127775]%N ].

Definition SORRY_WEEKLY : str :=
  concat [u "Sorry, there was an error saving your weekly response. ";
          u "Please try again later." ].

Definition GREAT_JOB : str :=
  concat [u "Great job! "; [127881]%N;
          u " I've recorded that you stretched today. Keep up the ";
          u "excellent work with your flexibility routine! "; [128170]%N ].

Definition THANKS_UPDATE : str :=
  concat [u "Thanks for the update! "; [128221]%N;
          u " I've recorded your response. Remember, even a few minutes ";
          u "of stretching can help prevent stiffness and improve your ";
          u "mobility. Consider adding it to your routine tomorrow! ";
          [129496]%N; [8205]%N; [9794]%N; [65039]%N ].

Definition SORRY_STRETCH : str :=
  concat [u "Sorry, there was an error saving your stretch response. ";
          u "Please try again later." ].

(** *** [send_daily_prompt] *)

(** [summary.get('date') == yesterday_str] *)
Definition dated (yesterday : str) (summary : dict) : bool :=
  match dict_lookup K_DATE summary with
  | Some (VStr d) => eqb d yesterday
  | _ => false
  end.

(** The loop over the summaries: the goals of the first summary dated
    yesterday, the empty list when there is none. *)
Fixpoint yesterday_goals_in (yesterday : str) (daily_summaries : list dict)
  : pyval :=
  match daily_summaries with
  | [] => VList []
  | summary :: rest =>
      if dated yesterday summary
      then dict_get K_GOALS (VList []) summary
      else yesterday_goals_in yesterday rest
  end.

(** The text of the daily prompt. *)
Definition daily_prompt_text (env : Services) (yesterday_goals : pyval)
  : result str :=
  if truthy env yesterday_goals then
    match join_value (u ", ") yesterday_goals with
    | Raise e => Raise e
    | Ok goals_text =>
        Ok (GOOD_EVENING
            ++ (u "Yesterday you planned: " ++ goals_text
                ++ u ". How did it go?" ++ [NL; NL])
            ++ TELL_ME)
    end
  else Ok (GOOD_EVENING ++ TELL_ME).

Definition send_daily_prompt (env : Services) : handler unit :=
  try_except
    (let yesterday_goals :=
       yesterday_goals_in (yesterday_str env)
         (get_daily_summaries_from_doc (document env) 2) in
     prompt <- lift (daily_prompt_text env yesterday_goals) ;;
     act env (SendMessage prompt) ;;
     assign (set_awaiting_daily true))
    (fun _ => ret tt).

(** *** [send_stretch_check] *)

Definition stretch_prompt (opening : str) : str :=
  STRETCH_REMINDER ++ opening ++ HAVE_YOU_STRETCHED.

(** The two lookups are made in order, the second one only when the first
    did not end the check. *)
Definition send_stretch_check (env : Services) : handler unit :=
  try_except
    (yesterday_entry <- lift (stretch_entry_on env (yesterday_str env)) ;;
     if match yesterday_entry with
        | Some e => stretched e
        | None => false
        end
     then ret tt
     else
       today_entry <- lift (stretch_entry_on env (today_str env)) ;;
       match Bot.send_stretch_check yesterday_entry today_entry with
       | Reminder opening =>
           act env (SendMessage (stretch_prompt opening)) ;;
           assign (set_awaiting_stretch true) ;;
           assign (set_pending_stretch [(K_DATE, VStr (today_str env))])
       | _ => ret tt
       end)
    (fun _ => ret tt).

(** *** [process_daily_response] *)

(** The [response_text] f-string, with the three fields formatted. *)
Definition daily_confirmation_text (workout eating_feelings goals : str)
  : str :=
  (concat [u "Got it! Here's your summary:"; [NL]; [NL]; [127947]%N;
          [65039]%N; u " Workout: " ]) ++ workout
  ++ (concat [[NL]; [127822]%N; u " Eating: " ]) ++ eating_feelings
  ++ (concat [[NL]; [127919]%N; u " Goals: " ]) ++ goals
  ++ (concat [[NL]; [NL];
             u "Everything has been saved to your fitness log. Keep up the ";
             u "great work! "; [128170]%N ]).

(** The [response_text] f-string on the summary. *)
Definition daily_confirmation (env : Services) (summary : pyval)
  : result str :=
  match summary_get (u "workout") (VStr (u "Not specified")) summary with
  | Raise e => Raise e
  | Ok workout =>
  match summary_get (u "eating_feelings") (VStr (u "Not specified")) summary with
  | Raise e => Raise e
  | Ok eating =>
  match summary_get (u "short_term_goals") (VList []) summary with
  | Raise e => Raise e
  | Ok goals_value =>
  match join_value (u ", ") goals_value with
  | Raise e => Raise e
  | Ok goals =>
      Ok (daily_confirmation_text
            (format_value (fmt env) workout) (format_value (fmt env) eating)
            goals)
  end end end end.

(** [self._get_recent_history(days)] on the fetched document. *)
Definition recent_history (env : Services) (days : Z) : str :=
  _get_recent_history (search_recent_entries (document env) days).

Definition process_daily_response (env : Services) (user_text : str)
  : handler unit :=
  try_except
    (assign (set_awaiting_daily false) ;;
     let history := recent_history env 3 in
     act env (SendMessage PROCESSING) ;;
     summary <- lift (daily_summary_of env history user_text) ;;
     doc_content <-
       lift (render_daily (fmt env) (today_str env) user_text summary) ;;
     act env (AppendToDoc (daily_heading (today_str env)) doc_content) ;;
     response_text <- lift (daily_confirmation env summary) ;;
     act env (SendMessage response_text))
    (fun _ => act env (SendMessage SORRY_DAILY)).

(** *** [send_weekly_recap] *)

(** [recap.get(key, default)]: only a dict has [get]. *)
Definition recap_get := summary_get.

(** The [recap_text] f-string. *)
Definition recap_text_of (env : Services) (recap : pyval) : result str :=
  match recap_get (u "workout_count") (VInt 0) recap with
  | Raise e => Raise e
  | Ok count =>
  match recap_get (u "general_eating_feeling") (VStr (u "Not specified")) recap with
  | Raise e => Raise e
  | Ok feeling =>
  match recap_get (u "slip_ups") (VStr (u "None reported")) recap with
  | Raise e => Raise e
  | Ok slips =>
  match recap_get (u "suggested_reflection")
          (VStr (u "Keep up the good work!")) recap with
  | Raise e => Raise e
  | Ok reflection =>
      Ok ((concat [[NL]; [128467]%N; [65039]%N; u " Weekly Recap: Week of " ]) ++ week_start_str env
          ++ (concat [[NL]; [NL]; [128200]%N; u " Workout Count: " ]) ++ format_value (fmt env) count
          ++ (concat [[NL]; [127869]%N; [65039]%N;
                     u " General Eating Feeling: " ]) ++ format_value (fmt env) feeling
          ++ (concat [[NL]; [128517]%N; u " Slip-ups: " ]) ++ format_value (fmt env) slips
          ++ (concat [[NL]; [NL]; [128173]%N; u " Reflection: " ]) ++ format_value (fmt env) reflection
          ++ (concat [[NL]; [NL];
                     u "How would you rate this week? What are your goals for next ";
                     u "week?"; [NL]; u "            " ]))
  end end end end.

(** [_get_recent_summaries]: what the daily reader returns. *)
Definition _get_recent_summaries (env : Services) (days : Z) : list dict :=
  match get_daily_summaries_from_doc (document env) days with
  | [] => []
  | summaries => summaries
  end.

Definition send_weekly_recap (env : Services) : handler unit :=
  try_except
    (let daily_summaries := _get_recent_summaries env 7 in
     match daily_summaries with
     | [] => act env (SendMessage NO_SUMMARIES)
     | _ :: _ =>
         act env (SendMessage PREPARING) ;;
         recap <- lift (weekly_recap_of env daily_summaries) ;;
         recap_text <- lift (recap_text_of env recap) ;;
         act env (SendMessage recap_text) ;;
         act env (AppendToDoc (u "Week of " ++ week_start_str env) recap_text) ;;
         assign (set_awaiting_weekly true) ;;
         assign (set_pending_weekly recap)
     end)
    (fun _ => act env (SendMessage SORRY_RECAP)).

(** *** [process_weekly_response] *)

Definition weekly_response_content (week_start user_text : str) : str :=
  (concat [[NL]; u "Weekly Response: " ]) ++ week_start
  ++ (concat [[NL]; [NL]; u "User Rating & Goals:"; [NL] ]) ++ user_text
  ++ (concat [[NL]; [NL]; u "---"; [NL]; u "            " ]).

Definition process_weekly_response (env : Services) (user_text : str)
  : handler unit :=
  try_except
    (assign (set_awaiting_weekly false) ;;
     act env (AppendToDoc (u "Weekly Response: " ++ week_start_str env)
                (weekly_response_content (week_start_str env) user_text)) ;;
     act env (SendMessage THANKS_WEEKLY))
    (fun _ => act env (SendMessage SORRY_WEEKLY)).

(** *** [process_stretch_response] *)

Definition process_stretch_response (env : Services) (user_text : str)
  : handler unit :=
  try_except
    (assign (set_awaiting_stretch false) ;;
     let stretched := stretched_of_reply user_text in
     today <- (fun bot log =>
                 (Ok (dict_get K_DATE (VStr (today_str env))
                        (pending_stretch_data bot)), bot, log)) ;;
     act env (SaveStretchEntry today user_text stretched) ;;
     act env (SendMessage (if stretched then GREAT_JOB else THANKS_UPDATE)) ;;
     assign (set_pending_stretch []))
    (fun _ => act env (SendMessage SORRY_STRETCH)).

(** *** [handle_message] *)

(** What a handler sees of an update: the id of the chat, when there is
    one, and the message with its text, when there are any. *)
Record Message := { text : option str }.

Record Update := {
  effective_chat : option Z;
  message : option Message
}.

(** [update.effective_chat and update.effective_chat.id != USER_CHAT_ID] *)
Definition other_chat (env : Services) (update : Update) : bool :=
  match effective_chat update with
  | Some id => negb (id =? USER_CHAT_ID env)
  | None => false
  end.

(** The text of the message, when [update.message] and its text are there
    and the text is not empty. *)
Definition text_of (update : Update) : option str :=
  match message update with
  | Some {| text := Some (c :: s) |} => Some (c :: s)
  | _ => None
  end.

Definition handle_message (env : Services) (update : Update) : handler unit :=
  fun bot log =>
    if other_chat env update then (Ok tt, bot, log)
    else
      match text_of update with
      | None => (Ok tt, bot, log)
      | Some user_text =>
          if awaiting_daily_response bot then
            process_daily_response env user_text bot log
          else if awaiting_weekly_response bot then
            process_weekly_response env user_text bot log
          else if awaiting_stretch_response bot then
            process_stretch_response env user_text bot log
          else act env (ReplyText NOT_EXPECTING) bot log
      end.

(** The last action of a handler of [handle_message] that did not end
    well, or that had nothing to process: an apology or the hint. *)
Definition closing_actions : list action :=
  [ SendMessage SORRY_DAILY; SendMessage SORRY_WEEKLY;
    SendMessage SORRY_STRETCH; ReplyText NOT_EXPECTING ].

End BotFlow.

(** ** config.py *)

Module Settings.

(** The module-level constants read from the environment; the three retry
    settings are the [Config] of the retry wrappers. *)
Record Settings := {
  TELEGRAM_TOKEN : str;
  USER_CHAT_ID : Z;
  CLAUDE_API_KEY : str;
  CLAUDE_MODEL : str;
  DOC_ID : str;
  STRETCH_DOC_ID : str;
  GOOGLE_CREDENTIALS_PATH : str;
  TZ : str;
  retry : Config;
  LOG_LEVEL : str
}.

(** A required value: a string or, for the chat id, an integer. *)
Inductive setting :=
| SStr (s : str)
| SInt (z : Z).

(** [not value] *)
Definition not_value (value : setting) : bool :=
  match value with
  | SStr s => bool_decide (s = [])
  | SInt z => z =? 0
  end.

(** [value == 0] *)
Definition is_zero (value : setting) : bool :=
  match value with
  | SStr _ => false
  | SInt z => z =? 0
  end.

(** The dictionary [required_configs], in the order it is written. *)
Definition required_configs (s : Settings) : list (str * setting) :=
  [ (u "TELEGRAM_TOKEN", SStr (TELEGRAM_TOKEN s));
    (u "USER_CHAT_ID", SInt (USER_CHAT_ID s));
    (u "CLAUDE_API_KEY", SStr (CLAUDE_API_KEY s));
    (u "GOOGLE_DOC_ID", SStr (DOC_ID s));
    (u "STRETCH_DOC_ID", SStr (STRETCH_DOC_ID s)) ].

(** The list comprehension [missing_configs]. *)
Definition missing_configs (s : Settings) : list str :=
  map fst
    (List.filter
       (fun '(name, value) =>
          not_value value || (eqb name (u "USER_CHAT_ID") && is_zero value))
       (required_configs s)).

(** [validate_config]: it returns, or raises a [ValueError] whose message
    is given on the left. *)
Definition validate_config (s : Settings) : str + unit :=
  match missing_configs s with
  | [] => inr tt
  | _ :: _ =>
      inl (u "Missing required configuration: "
           ++ join (u ", ") (missing_configs s)
           ++ u ". Please set the corresponding environment variables.")
  end.

(** [str(n)] for an integer. *)
Definition int_str (z : Z) : str :=
  if z <? 0 then u "-" ++ decimal (Z.to_nat (- z)) else decimal (Z.to_nat z).

(** [get_config_summary]; [float_str] is [str] on a float. *)
Definition get_config_summary (float_str : float -> str) (s : Settings)
  : dict :=
  [ (u "telegram_token_set", VBool (negb (bool_decide (TELEGRAM_TOKEN s = []))));
    (u "user_chat_id",
     VStr (if negb (USER_CHAT_ID s =? 0) then int_str (USER_CHAT_ID s)
           else u "Not set"));
    (u "claude_api_key_set", VBool (negb (bool_decide (CLAUDE_API_KEY s = []))));
    (u "claude_model", VStr (CLAUDE_MODEL s));
    (u "google_doc_id_set", VBool (negb (bool_decide (DOC_ID s = []))));
    (u "stretch_doc_id_set", VBool (negb (bool_decide (STRETCH_DOC_ID s = []))));
    (u "timezone", VStr (TZ s));
    (u "max_retries", VStr (int_str (MAX_RETRIES (retry s))));
    (u "retry_delay", VStr (float_str (RETRY_DELAY (retry s))));
    (u "log_level", VStr (LOG_LEVEL s)) ].

(** The secrets of the settings are replaced: two settings with the same
    public part, whose secrets are set or unset alike. *)
Definition same_public (s1 s2 : Settings) : Prop :=
  (TELEGRAM_TOKEN s1 = [] <-> TELEGRAM_TOKEN s2 = []) /\
  (CLAUDE_API_KEY s1 = [] <-> CLAUDE_API_KEY s2 = []) /\
  (DOC_ID s1 = [] <-> DOC_ID s2 = []) /\
  (STRETCH_DOC_ID s1 = [] <-> STRETCH_DOC_ID s2 = []) /\
  USER_CHAT_ID s1 = USER_CHAT_ID s2 /\
  CLAUDE_MODEL s1 = CLAUDE_MODEL s2 /\
  TZ s1 = TZ s2 /\
  MAX_RETRIES (retry s1) = MAX_RETRIES (retry s2) /\
  RETRY_DELAY (retry s1) = RETRY_DELAY (retry s2) /\
  LOG_LEVEL s1 = LOG_LEVEL s2.

(** The summary shows a required setting as set. *)
Definition shown_set (summary : dict) (key : str) : bool :=
  match dict_lookup key summary with
  | Some (VBool b) => b
  | Some (VStr s) => negb (eqb s (u "Not set"))
  | _ => false
  end.

(** The required settings with the key under which the summary shows
    them. *)
Definition shown_as : list (str * str) :=
  [ (u "TELEGRAM_TOKEN", u "telegram_token_set");
    (u "USER_CHAT_ID", u "user_chat_id");
    (u "CLAUDE_API_KEY", u "claude_api_key_set");
    (u "GOOGLE_DOC_ID", u "google_doc_id_set");
    (u "STRETCH_DOC_ID", u "stretch_doc_id_set") ].

End Settings.

(** ** Operations and configurations used as examples *)

(** An operation that fails twice and then returns [v]. *)
Definition fails_twice_then {A} (e0 e1 : exception) (v : A) : operation A :=
  fun k => match k with
           | O => Raise e0
           | S O => Raise e1
           | _ => Ok v
           end.

(** An operation that fails with [e] at every call. *)
Definition always_fails {A} (e : exception) : operation A := fun _ => Raise e.

(** Three attempts, base delay -1.0, backoff factor 2.0. *)
Definition negative_delay_config : Config :=
  {| MAX_RETRIES := 3; RETRY_DELAY := (-1)%float; RETRY_BACKOFF := 2%float |}.



(** [x ** n] by repeated multiplication. *)
Fixpoint pow_by_mul (x : float) (n : nat) : float :=
  match n with
  | O => 1%float
  | S n' => (x * pow_by_mul x n')%float
  end.

(** A runtime for the examples. For the exponents 0, 1, 2, ... the power
    is computed by repeated multiplication, which is the value of [**] for
    the small powers of 1.0, 2.0 and 1e200 that the examples use, and a
    finite base whose power is out of range raises [OverflowError].
    [time.sleep] is that of CPython with a 64-bit clock in nanoseconds: it
    raises [ValueError] for a NaN, [OverflowError] for a length whose
    nanoseconds are outside the range of the clock, and [ValueError] for
    any other negative length. *)
Definition example_runtime : Runtime :=
  {| float_pow := fun x n =>
       let power := pow_by_mul x (Z.to_nat n) in
       if is_infinity power && negb (is_infinity x)
       then Raise OverflowError else Ok power;
     sleep_check := fun d =>
       let nanoseconds := (d * 1e9)%float in
       if is_nan d then Raise ValueError
       else if (nanoseconds <? -9223372036854775808)%float
               || (9223372036854775808 <=? nanoseconds)%float
       then Raise OverflowError
       else if (d <? 0)%float then Raise ValueError
       else Ok tt |}.

(** The record of the specification's scenario. *)
Definition scenario_record : DailyRecord :=
  {| date := u "2024-01-01"; workout := u "5k run";
     eating_feelings := NOT_SPECIFIED;
     short_term_goals := [u "sleep earlier"] |}.

(** The reply of the same scenario. *)
Definition scenario_reply : str :=
  u "Ran 5k, felt proud, want to sleep earlier this week".

(** An empty document body: a single newline. *)
Definition empty_body : str := [NL].

(** A decoder for one text: the empty JSON object, which [json.loads]
    decodes to the empty dict. *)
Definition loads_empty_object : ClaudeApi.Decoder :=
  fun text => if eqb text (u "{}") then Ok (VDict []) else Raise JSONDecodeError.




(** An oracle that answers every call with [text]. *)
Definition replies (text : str) : ClaudeApi.Oracle := fun _ _ => Ok text.

(** An oracle that fails at every call. *)
Definition oracle_down : ClaudeApi.Oracle := fun _ _ => Raise APIConnectionError.


(** A document with two entries; the goals bullet of the first reads
    "Not specified". *)
Definition two_entry_text : str :=
  concat
    [ u "Daily Check-in: 2024-01-02"; [NL];
      GoogleDocs.P_WORKOUT; u "  rest day "; [NL];
      GoogleDocs.P_GOALS; u " Not specified"; [NL];
      u "---"; [NL];
      u "Daily Check-in: 2024-01-01"; [NL];
      GoogleDocs.P_GOALS; u " stretch, , sleep early "; [NL];
      u "---" ].

Definition two_entry_doc : list GoogleDocs.structural_element :=
  [ GoogleDocs.Paragraph (Some [GoogleDocs.TextRun (Some two_entry_text)]) ].

(** A stretch log, newest first, with two entries for one date. *)
Definition stretch_log : list GoogleDocs.StretchEntry :=
  [ {| GoogleDocs.entry_date := u "2024-01-03"; GoogleDocs.stretched := true;
       GoogleDocs.raw_text := u "yes" |};
    {| GoogleDocs.entry_date := u "2024-01-02"; GoogleDocs.stretched := false;
       GoogleDocs.raw_text := u "no" |};
    {| GoogleDocs.entry_date := u "2024-01-02"; GoogleDocs.stretched := true;
       GoogleDocs.raw_text := u "yep" |} ].

(** A document fetch that fails once with status 503 and then returns the
    document with two entries. *)
Definition flaky_fetch : operation (list GoogleDocs.structural_element) :=
  fun k => match k with
           | O => Raise (HttpError 503)
           | _ => Ok two_entry_doc
           end.

(** A document fetch that is refused with status 403. *)
Definition refused_fetch : operation (list GoogleDocs.structural_element) :=
  always_fails (HttpError 403).


(** The document body after the check-in of the scenario was stored in an
    empty document. *)
Definition stored_scenario_doc : list GoogleDocs.structural_element :=
  [ GoogleDocs.Paragraph (Some [GoogleDocs.TextRun (Some
      (Bot.append_to_doc (Bot.daily_heading (date scenario_record))
         (Bot.daily_doc_content (date scenario_record) scenario_reply
            (workout scenario_record) (eating_feelings scenario_record)
            (join (u ", ") (short_term_goals scenario_record)))
         empty_body))]) ].

(** Services in which every action succeeds, the log is the stored
    scenario, the extractor is down and no stretch entry exists. *)
Definition quiet_services : BotFlow.Services :=
  {| BotFlow.USER_CHAT_ID := 42;
     BotFlow.perform := fun _ _ => Ok tt;
     BotFlow.document := Ok stored_scenario_doc;
     BotFlow.daily_summary_of := fun history reply =>
       fst (ClaudeApi.get_daily_summary example_runtime default_config
              loads_empty_object oracle_down history reply world0);
     BotFlow.weekly_recap_of := fun daily_summaries =>
       fst (ClaudeApi.get_weekly_recap example_runtime default_config
              loads_empty_object (fun _ => u "?") oracle_down daily_summaries
              world0);
     BotFlow.stretch_entry_on := fun _ => Ok None;
     BotFlow.today_str := u "2024-01-02";
     BotFlow.yesterday_str := u "2024-01-01";
     BotFlow.week_start_str := u "2023-12-26";
     BotFlow.fmt := fun _ => u "?";
     BotFlow.float_truth := fun _ => true |}.

(** The same services a day later. *)
Definition next_day_services : BotFlow.Services :=
  {| BotFlow.USER_CHAT_ID := 42;
     BotFlow.perform := fun _ _ => Ok tt;
     BotFlow.document := Ok stored_scenario_doc;
     BotFlow.daily_summary_of := BotFlow.daily_summary_of quiet_services;
     BotFlow.weekly_recap_of := BotFlow.weekly_recap_of quiet_services;
     BotFlow.stretch_entry_on := fun _ => Ok None;
     BotFlow.today_str := u "2024-01-03";
     BotFlow.yesterday_str := u "2024-01-02";
     BotFlow.week_start_str := u "2023-12-27";
     BotFlow.fmt := fun _ => u "?";
     BotFlow.float_truth := fun _ => true |}.

(** Two settings that differ in their secrets only. *)
Definition some_settings : Settings.Settings :=
  {| Settings.TELEGRAM_TOKEN := u "123:abc";
     Settings.USER_CHAT_ID := 42;
     Settings.CLAUDE_API_KEY := u "sk-one";
     Settings.CLAUDE_MODEL := u "claude-3-7-sonnet-20250219";
     Settings.DOC_ID := u "doc-one";
     Settings.STRETCH_DOC_ID := [];
     Settings.GOOGLE_CREDENTIALS_PATH := u "credentials.json";
     Settings.TZ := u "Europe/London";
     Settings.retry := default_config;
     Settings.LOG_LEVEL := u "INFO" |}.

Definition other_secrets : Settings.Settings :=
  {| Settings.TELEGRAM_TOKEN := u "456:def";
     Settings.USER_CHAT_ID := 42;
     Settings.CLAUDE_API_KEY := u "sk-two";
     Settings.CLAUDE_MODEL := u "claude-3-7-sonnet-20250219";
     Settings.DOC_ID := u "doc-two";
     Settings.STRETCH_DOC_ID := [];
     Settings.GOOGLE_CREDENTIALS_PATH := u "other.json";
     Settings.TZ := u "Europe/London";
     Settings.retry := default_config;
     Settings.LOG_LEVEL := u "INFO" |}.

(** The empty JSON object inside a code fence. *)
Definition fenced_empty_object : str :=
  u "```json" ++ [NL] ++ u "{}" ++ [NL] ++ u "```".

(** An oracle that is unreachable twice and then replies with the fenced
    empty object. *)
Definition flaky_oracle : ClaudeApi.Oracle :=
  fun _ k => match k with
             | O | S O => Raise APIConnectionError
             | _ => Ok fenced_empty_object
             end.

(** * Properties

    ** Facts about the string operations *)

Section Strings.

Implicit Types (s t p : str) (c : N).

Lemma lstrip_idem s : lstrip (lstrip s) = lstrip s.
Proof.
  induction s as [|c s IH]; simpl; [done|].
  destruct (isspace c) eqn:E; [done|]. simpl. by rewrite E.
Qed.

Lemma lstrip_snoc s c : isspace c = false -> lstrip (s ++ [c]) = lstrip s ++ [c].
Proof.
  intros Hc. induction s as [|a s IH]; simpl.
  - by rewrite Hc.
  - destruct (isspace a); [exact IH|done].
Qed.

Lemma rstrip_cons c s : isspace c = false -> rstrip (c :: s) = c :: rstrip s.
Proof.
  intros Hc. unfold rstrip. simpl.
  rewrite lstrip_snoc by done. by rewrite rev_app_distr.
Qed.

Lemma rstrip_idem s : rstrip (rstrip s) = rstrip s.
Proof. unfold rstrip. by rewrite rev_involutive, lstrip_idem. Qed.

Lemma lstrip_nil_or_head s :
  lstrip s = [] \/ exists c t, lstrip s = c :: t /\ isspace c = false.
Proof.
  induction s as [|c s IH]; simpl; [by left|].
  destruct (isspace c) eqn:E; [done|]. right. by exists c, s.
Qed.

Lemma strip_shape s :
  strip s = [] \/ exists c t, strip s = c :: t /\ isspace c = false.
Proof.
  unfold strip. destruct (lstrip_nil_or_head s) as [->|(c & t & -> & Hc)].
  - by left.
  - right. exists c, (rstrip t). by rewrite rstrip_cons.
Qed.

Lemma lstrip_strip s : lstrip (strip s) = strip s.
Proof.
  destruct (strip_shape s) as [->|(c & t & -> & Hc)]; [done|].
  simpl. by rewrite Hc.
Qed.

Lemma strip_idem s : strip (strip s) = strip s.
Proof.
  unfold strip at 1. rewrite lstrip_strip. unfold strip. apply rstrip_idem.
Qed.

Lemma lstrip_space_only s : lstrip s = [] <-> forallb isspace s = true.
Proof.
  induction s as [|c s IH]; simpl; [done|].
  destruct (isspace c); simpl; [exact IH|]. split; discriminate.
Qed.

Lemma strip_space_only s : strip s = [] <-> forallb isspace s = true.
Proof.
  rewrite <- lstrip_space_only. unfold strip, rstrip. split.
  - intros H. destruct (lstrip_nil_or_head s) as [E|(c & t & E & Hc)]; [done|].
    rewrite E in H. fold (rstrip (c :: t)) in H. by rewrite rstrip_cons in H.
  - by intros ->.
Qed.

Lemma startswith_spec p s : startswith p s = true <-> exists t, s = p ++ t.
Proof.
  revert s. induction p as [|a p IH]; intros s; simpl.
  - split; [by exists s|done].
  - destruct s as [|b s]; [split; [done|by intros [t Ht]]|].
    rewrite andb_true_iff, N.eqb_eq, IH. split.
    + intros [-> [t ->]]. by exists t.
    + intros [t Ht]. injection Ht as -> ->. split; [done|by exists t].
Qed.


End Strings.

(** ** The re-parser of daily entries *)

Import GoogleDocs.

Section Parser.

Implicit Types (l line : str) (lines rest ls body : list str)
  (s summaries : list dict) (d data : dict) (r : DailyRecord) (days : Z).

Lemma scan_lines_full days lines s :
  days <= Z.of_nat (length s) -> scan_lines days lines s = s.
Proof.
  intros H. destruct lines; simpl;
    destruct (Z.ltb_spec (Z.of_nat (length s)) days); simpl; done || lia.
Qed.

Lemma scan_lines_nil days s : scan_lines days [] s = s.
Proof. simpl. by destruct (negb _). Qed.

Lemma scan_lines_cons days l rest s :
  scan_lines days (l :: rest) s =
    if negb (Z.of_nat (length s) <? days) then s else
    match heading_date l with
    | Some date_str =>
        let '(d, rest') := scan_entry rest (new_summary date_str) in
        scan_lines days rest' (s ++ [d])
    | None => scan_lines days rest s
    end.
Proof.
  cbn [scan_lines]. destruct (negb _); [done|].
  unfold heading_date. destruct (startswith DAILY_HEADING (strip l)); [|done].
  generalize (new_summary (strip (replace DAILY_HEADING [] (strip l)))).
  induction rest as [|l' ls' IH]; intros data.
  - cbn [scan_entry]. by rewrite scan_lines_nil.
  - cbn [scan_entry]. destruct (startswith SEPARATOR (strip l')); [done|].
    apply IH.
Qed.

(** The inner loop folds [update_summary] over the body of the entry and
    stops at the first separator line. *)
Lemma scan_entry_spec ls data d rest' :
  scan_entry ls data = (d, rest') ->
  exists body,
    ls = body ++ rest' /\
    Forall (fun l => is_separator l = false) body /\
    d = fold_left (fun acc l => update_summary (strip l) acc) body data /\
    (rest' = [] \/ exists l0 tl, rest' = l0 :: tl /\ is_separator l0 = true).
Proof.
  revert data. induction ls as [|l' ls' IH]; intros data; cbn [scan_entry].
  - intros [= <- <-]. exists []. repeat split; [constructor|by left].
  - destruct (startswith SEPARATOR (strip l')) eqn:E.
    + intros [= <- <-]. exists []. repeat split; [constructor|].
      right. by exists l', ls'.
    + intros H. destruct (IH _ H) as (body & -> & Hb & -> & Hr).
      exists (l' :: body). repeat split; [by constructor|done].
Qed.

Lemma scan_lines_elim days (Q : list str -> list dict -> list dict -> Prop) :
  (forall lines s, days <= Z.of_nat (length s) -> Q lines s s) ->
  (forall s, Z.of_nat (length s) < days -> Q [] s s) ->
  (forall l rest s date_str d rest',
      Z.of_nat (length s) < days ->
      heading_date l = Some date_str ->
      scan_entry rest (new_summary date_str) = (d, rest') ->
      Q rest' (s ++ [d]) (scan_lines days rest' (s ++ [d])) ->
      Q (l :: rest) s (scan_lines days rest' (s ++ [d]))) ->
  (forall l rest s,
      Z.of_nat (length s) < days ->
      heading_date l = None ->
      Q rest s (scan_lines days rest s) ->
      Q (l :: rest) s (scan_lines days rest s)) ->
  forall lines s, Q lines s (scan_lines days lines s).
Proof.
  intros Hfull Hnil Hhead Hskip lines.
  remember (length lines) as n eqn:Hn. revert lines Hn.
  induction n as [n IH] using lt_wf_ind. intros lines -> s.
  destruct (Z.le_gt_cases days (Z.of_nat (length s))) as [Hle|Hlt].
  { rewrite scan_lines_full by done. by apply Hfull. }
  destruct lines as [|l rest].
  { rewrite scan_lines_nil. by apply Hnil. }
  rewrite scan_lines_cons.
  destruct (Z.ltb_spec (Z.of_nat (length s)) days) as [_|?]; [|lia].
  cbn [negb]. destruct (heading_date l) as [date_str|] eqn:Hd.
  - destruct (scan_entry rest (new_summary date_str)) as [d rest'] eqn:He.
    eapply Hhead; [done..|].
    destruct (scan_entry_spec _ _ _ _ He) as (body & Hrest & _).
    eapply (IH (length rest')); [|done].
    rewrite Hrest. cbn [length]. rewrite length_app. lia.
  - apply Hskip; [done..|]. eapply (IH (length rest)); [simpl; lia|done].
Qed.

Lemma scan_lines_extends days lines s :
  exists new, scan_lines days lines s = s ++ new.
Proof.
  revert lines s.
  apply (scan_lines_elim days (fun _ s out => exists new, out = s ++ new)).
  - intros _ s _. exists []. by rewrite app_nil_r.
  - intros s _. exists []. by rewrite app_nil_r.
  - intros l rest s date_str d rest' _ _ _ [new ->].
    exists (d :: new). by rewrite <- app_assoc.
  - done.
Qed.

Lemma scan_lines_length days lines s :
  Z.of_nat (length (scan_lines days lines s)) <= Z.max days (Z.of_nat (length s)).
Proof.
  revert lines s.
  apply (scan_lines_elim days (fun _ s out =>
    Z.of_nat (length out) <= Z.max days (Z.of_nat (length s)))).
  - intros; lia.
  - intros; lia.
  - intros l rest s date_str d rest' Hlt _ _ IH.
    rewrite length_app in IH. simpl in IH. lia.
  - intros; lia.
Qed.

Lemma scan_lines_take N M lines s :
  N <= M -> Z.of_nat (length s) <= N ->
  scan_lines N lines s = take (Z.to_nat N) (scan_lines M lines s).
Proof.
  intros HNM. revert lines s. apply (scan_lines_elim M (fun lines s out =>
    Z.of_nat (length s) <= N -> scan_lines N lines s = take (Z.to_nat N) out)).
  - intros lines s HM HN. rewrite scan_lines_full by lia.
    rewrite take_ge; [done|lia].
  - intros s _ HN. rewrite scan_lines_nil, take_ge; [done|lia].
  - intros l rest s date_str d rest' HM Hd He IH HN.
    destruct (Z.eq_dec (Z.of_nat (length s)) N) as [Heq|Hne].
    + rewrite scan_lines_full by lia.
      destruct (scan_lines_extends M rest' (s ++ [d])) as [new ->].
      rewrite <- !app_assoc. rewrite take_app_le by lia.
      rewrite take_ge; [done|lia].
    + rewrite scan_lines_cons, Hd, He.
      destruct (Z.ltb_spec (Z.of_nat (length s)) N) as [_|?]; [|lia].
      cbn [negb]. apply IH. rewrite length_app. simpl. lia.
  - intros l rest s HM Hd IH HN.
    destruct (Z.eq_dec (Z.of_nat (length s)) N) as [Heq|Hne].
    + rewrite scan_lines_full by lia.
      destruct (scan_lines_extends M rest s) as [new ->].
      rewrite take_app_le by lia. rewrite take_ge; [done|lia].
    + rewrite scan_lines_cons, Hd.
      destruct (Z.ltb_spec (Z.of_nat (length s)) N) as [_|?]; [|lia].
      cbn [negb]. by apply IH.
Qed.

End Parser.

Section ParserInvariants.

Implicit Types (l line : str) (lines rest ls body : list str)
  (s summaries : list dict) (d data : dict) (r : DailyRecord) (days : Z).

Lemma parse_goals_ok t : Forall goal_ok (parse_goals t).
Proof.
  unfold parse_goals. apply Forall_forall. intros g Hg.
  apply list_elem_of_In, in_map_iff in Hg as (g0 & <- & Hin).
  apply list_elem_of_In, list_elem_of_filter in Hin as [Hne _].
  repeat split; [done| |apply strip_idem].
  destruct (forallb isspace (strip g0)) eqn:E; [|done].
  apply strip_space_only in E. by rewrite strip_idem in E.
Qed.

Lemma not_specified_stripped : strip NOT_SPECIFIED = NOT_SPECIFIED.
Proof. reflexivity. Qed.

(** One turn of the inner loop keeps the summary a well-formed record and
    changes at most the field whose bullet the line carries. *)
Lemma update_summary_record line r :
  exists r',
    update_summary line (record_dict r) = record_dict r' /\
    date r' = date r /\
    (workout r' = workout r \/
     startswith P_WORKOUT line = true /\
     workout r' = strip (replace P_WORKOUT [] line)) /\
    (eating_feelings r' = eating_feelings r \/
     startswith P_EATING line = true /\
     eating_feelings r' = strip (replace P_EATING [] line)) /\
    (short_term_goals r' = short_term_goals r \/
     startswith P_GOALS line = true /\
     strip (replace P_GOALS [] line) <> [] /\
     strip (replace P_GOALS [] line) <> NOT_SPECIFIED /\
     short_term_goals r' = parse_goals (strip (replace P_GOALS [] line))).
Proof.
  unfold update_summary.
  destruct (startswith P_WORKOUT line) eqn:Hw.
  { exists {| date := date r; workout := strip (replace P_WORKOUT [] line);
              eating_feelings := eating_feelings r;
              short_term_goals := short_term_goals r |}.
    repeat split; auto. }
  destruct (startswith P_EATING line) eqn:He.
  { exists {| date := date r; workout := workout r;
              eating_feelings := strip (replace P_EATING [] line);
              short_term_goals := short_term_goals r |}.
    repeat split; auto. }
  destruct (startswith P_GOALS line) eqn:Hg; [|exists r; by auto 6].
  cbv zeta. destruct (_ && _) eqn:Hc; [|exists r; by auto 6].
  apply andb_true_iff in Hc as [Hc1 Hc2].
  apply negb_true_iff, bool_decide_eq_false in Hc1, Hc2.
  exists {| date := date r; workout := workout r;
            eating_feelings := eating_feelings r;
            short_term_goals := parse_goals (strip (replace P_GOALS [] line)) |}.
  split; [reflexivity|]. split; [reflexivity|].
  split; [by left|]. split; [by left|]. by right.
Qed.

Lemma update_summary_inv lines l r :
  l ∈ lines -> entry_inv lines r ->
  exists r', update_summary (strip l) (record_dict r) = record_dict r' /\
             date r' = date r /\ entry_inv lines r'.
Proof.
  intros Hl ((Hd & Hw & He & Hg) & Pw & Pe & Pg).
  destruct (update_summary_record (strip l) r)
    as (r' & Heq & Hdate & Hw' & He' & Hg').
  exists r'. split; [done|]. split; [done|].
  split; [repeat split|repeat split].
  - by rewrite Hdate.
  - destruct Hw' as [->|[_ ->]]; [done|apply strip_idem].
  - destruct He' as [->|[_ ->]]; [done|apply strip_idem].
  - destruct Hg' as [->|(_ & _ & _ & ->)]; [done|apply parse_goals_ok].
  - destruct Hw' as [->|[Hs ->]]; [done|]. right. by exists l.
  - destruct He' as [->|[Hs ->]]; [done|]. right. by exists l.
  - destruct Hg' as [->|(Hs & Hne & Hns & ->)]; [done|]. right.
    eexists. split; [by exists l|done].
Qed.

Lemma fold_update_inv lines body r :
  (forall l, l ∈ body -> l ∈ lines) -> entry_inv lines r ->
  exists r',
    fold_left (fun acc l => update_summary (strip l) acc) body (record_dict r)
    = record_dict r' /\
    date r' = date r /\ entry_inv lines r'.
Proof.
  revert r. induction body as [|l body IH]; intros r Hsub Hinv.
  - by exists r.
  - cbn [fold_left].
    destruct (update_summary_inv lines l r) as (r1 & -> & Hd1 & Hinv1);
      [apply Hsub; left|done|].
    destruct (IH r1) as (r' & -> & Hd' & Hinv');
      [intros l' Hl'; apply Hsub; by right|done|].
    exists r'. by rewrite Hd', Hd1.
Qed.

Lemma heading_date_stripped l date_str :
  heading_date l = Some date_str -> strip date_str = date_str.
Proof.
  unfold heading_date. destruct (startswith _ _); [|done].
  intros [= <-]. apply strip_idem.
Qed.

Lemma fresh_record_inv lines l date_str :
  heading_date l = Some date_str -> entry_inv lines (fresh_record date_str).
Proof.
  intros Hd. repeat split; try (by left); try (by constructor).
  by apply heading_date_stripped in Hd.
Qed.

Lemma scan_lines_from all_lines days lines s :
  (forall l, l ∈ lines -> l ∈ all_lines) ->
  Forall (summary_from all_lines) s ->
  Forall (summary_from all_lines) (scan_lines days lines s).
Proof.
  revert lines s.
  apply (scan_lines_elim days (fun lines s out =>
    (forall l, l ∈ lines -> l ∈ all_lines) ->
    Forall (summary_from all_lines) s ->
    Forall (summary_from all_lines) out)); try done.
  - intros l rest s date_str d rest' _ Hd He IH Hsub Hs.
    destruct (scan_entry_spec _ _ _ _ He) as (body & Hrest & _ & Hfold & _).
    apply IH.
    + intros l' Hl'. apply Hsub. right. rewrite Hrest.
      apply elem_of_app. by right.
    + apply Forall_app. split; [done|]. constructor; [|constructor].
      destruct (fold_update_inv all_lines body (fresh_record date_str))
        as (r' & Hr' & Hdate & Hst & Hw & Hea & Hg).
      * intros l' Hl'. apply Hsub. right. rewrite Hrest.
        apply elem_of_app. by left.
      * by eapply fresh_record_inv.
      * exists r'. split; [by rewrite Hfold|]. split; [done|].
        repeat split; try done. exists l. split; [apply Hsub; left|].
        by rewrite Hdate.
  - intros l rest s _ _ IH Hsub Hs. apply IH; [|done].
    intros l' Hl'. apply Hsub. by right.
Qed.

End ParserInvariants.

Section DailyReader.

Implicit Types (l line : str) (lines rest ls body : list str)
  (s summaries : list dict) (d data : dict) (r : DailyRecord) (days : Z).

Lemma fold_update_date body r :
  exists r',
    fold_left (fun acc l => update_summary (strip l) acc) body (record_dict r)
    = record_dict r' /\ date r' = date r.
Proof.
  revert r. induction body as [|l body IH]; intros r; [by exists r|].
  cbn [fold_left].
  destruct (update_summary_record (strip l) r) as (r1 & -> & Hd & _).
  destruct (IH r1) as (r' & -> & Hd'). exists r'. by rewrite Hd', Hd.
Qed.

Lemma scan_entry_date ls date_str d rest' :
  scan_entry ls (new_summary date_str) = (d, rest') ->
  dict_lookup K_DATE d = Some (VStr date_str).
Proof.
  intros He. destruct (scan_entry_spec _ _ _ _ He) as (body & _ & _ & -> & _).
  destruct (fold_update_date body (fresh_record date_str)) as (r' & Hr' & Hd).
  change (record_dict (fresh_record date_str)) with (new_summary date_str) in Hr'.
  rewrite Hr'. cbn in Hd. by rewrite <- Hd.
Qed.

Lemma heading_dates_cons l lines :
  heading_dates (l :: lines) =
    match heading_date l with
    | Some x => x :: heading_dates lines
    | None => heading_dates lines
    end.
Proof. reflexivity. Qed.

Lemma heading_dates_app lines1 lines2 :
  heading_dates (lines1 ++ lines2) = heading_dates lines1 ++ heading_dates lines2.
Proof. apply omap_app. Qed.

(** The summaries added by the scan carry the dates of heading lines, in
    the order of these lines. *)
Lemma scan_lines_dates days lines s :
  exists new,
    scan_lines days lines s = s ++ new /\
    sublist (map (dict_lookup K_DATE) new)
            (map (fun x => Some (VStr x)) (heading_dates lines)).
Proof.
  revert lines s.
  apply (scan_lines_elim days (fun lines s out =>
    exists new, out = s ++ new /\
      sublist (map (dict_lookup K_DATE) new)
              (map (fun x => Some (VStr x)) (heading_dates lines)))).
  - intros lines s _. exists []. rewrite app_nil_r. split; [done|].
    apply sublist_nil_l.
  - intros s _. exists []. rewrite app_nil_r. split; [done|constructor].
  - intros l rest s date_str d rest' _ Hd He (new & -> & Hsub).
    exists (d :: new). split; [by rewrite <- app_assoc|].
    destruct (scan_entry_spec _ _ _ _ He) as (body & -> & _).
    rewrite heading_dates_cons, Hd. cbn [map].
    rewrite (scan_entry_date _ _ _ _ He). apply sublist_skip.
    rewrite heading_dates_app, map_app. by apply sublist_inserts_l.
  - intros l rest s _ Hd (new & -> & Hsub). exists new. split; [done|].
    rewrite heading_dates_cons, Hd. done.
Qed.

End DailyReader.

(** C8. For every document and every limit [N >= 0], the daily re-parser
    returns at most [N] records; a smaller limit returns the first records
    of what a larger limit returns, so the limit only cuts the list short;
    and the dates of the records follow the heading lines of the document
    from top to bottom, whatever the length of the document. *)
Theorem daily_reader_limit_and_order
  (fetched : result (list structural_element)) (N : Z) (HN : 0 <= N) :
  Z.of_nat (length (get_daily_summaries_from_doc fetched N)) <= N /\
  (forall M, N <= M ->
     get_daily_summaries_from_doc fetched N
     = take (Z.to_nat N) (get_daily_summaries_from_doc fetched M)) /\
  (forall content, fetched = Ok content ->
     sublist (map (dict_lookup K_DATE) (get_daily_summaries_from_doc fetched N))
             (map (fun x => Some (VStr x))
                  (heading_dates (split NL (full_text content))))).
Proof.
  destruct fetched as [content|e]; cbn [get_daily_summaries_from_doc].
  - unfold daily_summaries_of_text. repeat split.
    + pose proof (scan_lines_length N (split NL (full_text content)) []) as H.
      cbn [length] in H. lia.
    + intros M HM. apply scan_lines_take; [done|]. cbn [length]. lia.
    + intros content' [= <-].
      destruct (scan_lines_dates N (split NL (full_text content)) [])
        as (new & -> & Hsub). done.
  - repeat split; [cbn [length]; lia| |done].
    intros M _. by rewrite take_nil.
Qed.

Lemma daily_summaries_from_lines text days d :
  d ∈ daily_summaries_of_text text days -> summary_from (split NL text) d.
Proof.
  intros Hd. unfold daily_summaries_of_text in Hd.
  pose proof (scan_lines_from (split NL text) days (split NL text) []) as H.
  eapply Forall_forall in H; [exact H|done|constructor|exact Hd].
Qed.

Lemma scan_entry_app body rest data :
  Forall (fun l => is_separator l = false) body ->
  (rest = [] \/ exists l0 tl, rest = l0 :: tl /\ is_separator l0 = true) ->
  scan_entry (body ++ rest) data
  = (fold_left (fun acc l => update_summary (strip l) acc) body data, rest).
Proof.
  intros Hb Hr. revert data.
  induction Hb as [|l body Hl Hb IH]; intros data.
  - destruct Hr as [->|(l0 & tl & -> & Hsep)]; [done|].
    cbn [app scan_entry fold_left]. unfold is_separator in Hsep. by rewrite Hsep.
  - cbn [app scan_entry fold_left]. unfold is_separator in Hl. rewrite Hl.
    apply IH.
Qed.

Section Entries.

Implicit Types (l line : str) (lines rest ls body : list str)
  (s summaries : list dict) (d data : dict) (r : DailyRecord) (days : Z).








End Entries.



(** ** The retry policy *)

Import GoogleDocsLog.

Section RetryPolicy.

Variables (rt : Runtime) (cfg : Config).

Lemma advance_0 w : advance w 0 [] = w.
Proof. destruct w. unfold advance. cbn. by rewrite Nat.add_0_r, app_nil_r. Qed.

Lemma advance_advance w k1 ds1 k2 ds2 :
  advance (advance w k1 ds1) k2 ds2 = advance w (k1 + k2) (ds1 ++ ds2).
Proof. unfold advance. cbn. by rewrite Nat.add_assoc, app_assoc. Qed.

Lemma invoke_advance {A} (func : operation A) w :
  invoke func w = (func (calls w), advance w 1 []).
Proof. unfold invoke, advance. by rewrite app_nil_r, Nat.add_1_r. Qed.

(** The backoff after an attempt either sleeps its delay or raises and
    leaves the world as it is. *)
Lemma backoff_sleep_outcome attempt w :
  backoff_sleep rt cfg attempt w
  = match backoff_outcome rt cfg attempt with
    | Ok d => (Ok tt, advance w 0 [d])
    | Raise e => (Raise e, w)
    end.
Proof.
  unfold backoff_sleep, backoff_outcome, time_sleep, advance.
  destruct (backoff_delay rt cfg attempt) as [d|e]; [|done].
  destruct (sleep_check rt d) as [[]|e]; [|done].
  by rewrite Nat.add_0_r.
Qed.

Lemma sleeps_through_cons a k d ds :
  sleeps_through rt cfg a (S k) (d :: ds) <->
  backoff_outcome rt cfg (Z.of_nat a) = Ok d /\ sleeps_through rt cfg (S a) k ds.
Proof.
  unfold sleeps_through. cbn [seq]. split.
  - intros H. by inversion H.
  - intros [H1 H2]. by constructor.
Qed.

Lemma sleeps_through_nil a : sleeps_through rt cfg a 0 [].
Proof. constructor. Qed.

Lemma sleeps_through_inv a k ds :
  sleeps_through rt cfg a k ds ->
  match k with
  | O => ds = []
  | S k' =>
      exists d ds', ds = d :: ds' /\
        backoff_outcome rt cfg (Z.of_nat a) = Ok d /\
        sleeps_through rt cfg (S a) k' ds'
  end.
Proof.
  unfold sleeps_through. destruct k as [|k]; cbn [seq]; intros H.
  - by apply Forall2_nil_inv_l in H.
  - apply Forall2_cons_inv_l in H as (d & ds' & Hd & Hds & ->). by exists d, ds'.
Qed.

(** The two loops differ in the failures they retry only; what follows
    holds of any loop with their common shape. *)
Section AnyLoop.

Context {A : Type} (func : operation A) (retried : exception -> bool)
  (loop : list Z -> option exception -> World -> result A * World).

Hypothesis loop_nil : forall last w, loop [] last w = (raise_last last, w).

Hypothesis loop_cons : forall a later last w,
  loop (a :: later) last w =
  match func (calls w) with
  | Ok v => (Ok v, advance w 1 [])
  | Raise e =>
      if retried e then
        if a <? MAX_RETRIES cfg - 1 then
          match backoff_sleep rt cfg a (advance w 1 []) with
          | (Ok _, w2) => loop later (Some e) w2
          | (Raise e', w2) => (Raise e', w2)
          end
        else loop later (Some e) (advance w 1 [])
      else (Raise e, advance w 1 [])
  end.

(** The shape of every run from attempt [a] on, with [m] attempts left. *)
Lemma loop_run m : forall a last w,
  MAX_RETRIES cfg = Z.of_nat (a + m) ->
  exists n ds,
    (n <= m)%nat /\ (1 <= m -> 1 <= n)%nat /\
    snd (loop (map Z.of_nat (seq a m)) last w) = advance w n ds /\
    sleeps_through rt cfg a (n - 1) ds /\
    (forall i, (S i < n)%nat ->
       exists e, func (calls w + i)%nat = Raise e /\ retried e = true) /\
    ((fst (loop (map Z.of_nat (seq a m)) last w)
      = match n with
        | O => raise_last last
        | S n' => func (calls w + n')%nat
        end /\
      ((n < m)%nat ->
       match fst (loop (map Z.of_nat (seq a m)) last w) with
       | Ok _ => True
       | Raise e => retried e = false
       end)) \/
     ((1 <= n < m)%nat /\
      exists e e',
        func (calls w + (n - 1))%nat = Raise e /\ retried e = true /\
        backoff_outcome rt cfg (Z.of_nat (a + (n - 1))) = Raise e' /\
        fst (loop (map Z.of_nat (seq a m)) last w) = Raise e')).
Proof.
  induction m as [|m IH]; intros a last w Hmax.
  - exists 0%nat, []. cbn [seq map]. rewrite loop_nil, advance_0.
    repeat split; try done; try lia; try apply sleeps_through_nil.
    left. split; [done|lia].
  - cbn [seq map]. rewrite loop_cons.
    destruct (func (calls w)) as [v|e] eqn:Hf.
    { exists 1%nat, []. cbn [fst snd]. rewrite Nat.add_0_r, Hf.
      repeat split; try done; try lia; try apply sleeps_through_nil.
      by left. }
    destruct (retried e) eqn:Hr.
    2:{ exists 1%nat, []. cbn [fst snd]. rewrite Nat.add_0_r, Hf.
        repeat split; try done; try lia; try apply sleeps_through_nil.
        by left. }
    destruct (Z.ltb_spec (Z.of_nat a) (MAX_RETRIES cfg - 1)) as [Hlt|Hge].
    + rewrite backoff_sleep_outcome.
      destruct (backoff_outcome rt cfg (Z.of_nat a)) as [d|e'] eqn:Hd.
      * rewrite advance_advance.
        destruct (IH (S a) (Some e) (advance w (1 + 0) ([] ++ [d]))
                    ltac:(lia))
          as (n & ds & Hn & Hpos & Hw & Hds & Hfail & Hend).
        destruct n as [|n]; [lia|].
        exists (S (S n)), (d :: ds). rewrite Hw.
        split; [lia|]. split; [lia|]. split.
        { rewrite advance_advance. f_equal; lia. }
        split.
        { cbn [Nat.sub] in Hds |- *. rewrite Nat.sub_0_r in Hds.
          by apply sleeps_through_cons. }
        split.
        { intros i Hi. destruct i as [|i]; [exists e; by rewrite Nat.add_0_r|].
          destruct (Hfail i) as (e1 & He1 & Hr1); [lia|]. exists e1.
          split; [|done]. rewrite <- He1. f_equal. cbn. lia. }
        destruct Hend as [[Hout Hearly]|(Hrange & e1 & e2 & He1 & Hr1 & Hb & Hout)].
        -- left. rewrite Hout. split.
           ++ f_equal. cbn. lia.
           ++ intros Hlt'. rewrite <- Hout. apply Hearly. lia.
        -- right. split; [lia|]. exists e1, e2. rewrite Hout.
           repeat split; try done.
           ++ rewrite <- He1. f_equal. cbn. lia.
           ++ rewrite <- Hb. do 2 f_equal. lia.
      * exists 1%nat, []. cbn [fst snd]. rewrite Nat.add_0_r.
        repeat split; try done; try lia; try apply sleeps_through_nil.
        right. split; [lia|]. exists e, e'. cbn [Nat.sub].
        rewrite !Nat.add_0_r. by repeat split.
    + assert (m = 0%nat) as -> by lia. cbn [seq map]. rewrite loop_nil.
      exists 1%nat, []. cbn [fst snd raise_last]. rewrite Nat.add_0_r, Hf.
      repeat split; try done; try lia; try apply sleeps_through_nil.
      left. split; [done|lia].
Qed.

(** [k] retried failures and then a success, all within the attempts, the
    backoffs in between going through. *)
Lemma loop_succeeds k : forall a m last w v ds,
  MAX_RETRIES cfg = Z.of_nat (a + m) -> (k < m)%nat ->
  (forall i, (i < k)%nat ->
     exists e, func (calls w + i)%nat = Raise e /\ retried e = true) ->
  func (calls w + k)%nat = Ok v ->
  sleeps_through rt cfg a k ds ->
  loop (map Z.of_nat (seq a m)) last w = (Ok v, advance w (S k) ds).
Proof.
  induction k as [|k IH]; intros a m last w v ds Hmax Hk Hfail Hok Hds.
  - destruct m as [|m]; [lia|]. cbn [seq map]. rewrite loop_cons.
    apply sleeps_through_inv in Hds as ->.
    rewrite Nat.add_0_r in Hok. by rewrite Hok.
  - destruct m as [|m]; [lia|]. cbn [seq map]. rewrite loop_cons.
    apply sleeps_through_inv in Hds as (d & ds' & -> & Hd & Hds).
    destruct (Hfail 0%nat) as (e & He & Hr); [lia|].
    rewrite Nat.add_0_r in He. rewrite He, Hr.
    destruct (Z.ltb_spec (Z.of_nat a) (MAX_RETRIES cfg - 1)) as [_|?]; [|lia].
    rewrite backoff_sleep_outcome, Hd, advance_advance.
    rewrite (IH (S a) m (Some e) _ v ds'); [|lia|lia| | |done].
    + by rewrite advance_advance.
    + intros i Hi. destruct (Hfail (S i)) as (e' & He' & Hr'); [lia|].
      exists e'. split; [|done]. rewrite <- He'. f_equal. cbn. lia.
    + rewrite <- Hok. f_equal. cbn. lia.
Qed.

(** Every attempt left fails with a retried failure, the backoffs in
    between going through. *)
Lemma loop_exhausted m : forall a e0 w ds,
  MAX_RETRIES cfg = Z.of_nat (a + m) ->
  (forall i, (i < m)%nat ->
     exists e, func (calls w + i)%nat = Raise e /\ retried e = true) ->
  sleeps_through rt cfg a (m - 1) ds ->
  exists e,
    (match m with
     | O => e = e0
     | S m' => func (calls w + m')%nat = Raise e
     end) /\
    loop (map Z.of_nat (seq a m)) (Some e0) w = (Raise e, advance w m ds).
Proof.
  induction m as [|m IH]; intros a e0 w ds Hmax Hfail Hds.
  - apply sleeps_through_inv in Hds as ->.
    exists e0. cbn [seq map]. by rewrite loop_nil, advance_0.
  - cbn [seq map]. rewrite loop_cons.
    destruct (Hfail 0%nat) as (e & He & Hr); [lia|]. rewrite Nat.add_0_r in He.
    rewrite He, Hr. destruct m as [|m].
    + apply sleeps_through_inv in Hds as ->.
      destruct (Z.ltb_spec (Z.of_nat a) (MAX_RETRIES cfg - 1)) as [?|_]; [lia|].
      exists e. cbn [seq map]. rewrite loop_nil. cbn [raise_last].
      by rewrite Nat.add_0_r, He.
    + destruct (Z.ltb_spec (Z.of_nat a) (MAX_RETRIES cfg - 1)) as [_|?]; [|lia].
      cbn [Nat.sub] in Hds.
      apply sleeps_through_inv in Hds as (d & ds' & -> & Hd & Hds).
      rewrite backoff_sleep_outcome, Hd, advance_advance.
      destruct (IH (S a) e (advance w (1 + 0) ([] ++ [d])) ds')
        as (e' & He' & ->); [lia| |by cbn [Nat.sub]; rewrite Nat.sub_0_r|].
      * intros i Hi. destruct (Hfail (S i)) as (e' & He' & Hr'); [lia|].
        exists e'. split; [|done]. rewrite <- He'. f_equal. cbn. lia.
      * exists e'. split.
        -- rewrite <- He'. f_equal. cbn. lia.
        -- rewrite advance_advance. f_equal.
Qed.

(** A value returned by the loop is the value of the first call that did
    not fail, one of the attempts left. *)
Lemma loop_ok m a last w v w' :
  MAX_RETRIES cfg = Z.of_nat (a + m) ->
  loop (map Z.of_nat (seq a m)) last w = (Ok v, w') ->
  exists k, (k < m)%nat /\ first_success func (calls w) k v.
Proof.
  intros Hmax Hrun.
  destruct (loop_run m a last w Hmax)
    as (n & ds & Hn & _ & _ & _ & Hfail & Hend).
  rewrite Hrun in Hend. cbn [fst] in Hend.
  destruct Hend as [[Hout _]|(_ & e & e' & _ & _ & _ & Hout)]; [|done].
  destruct n as [|n]; [by destruct last|].
  exists n. split; [lia|]. split; [done|].
  intros i Hi. destruct (Hfail i) as (e & He & _); [lia|]. by exists e.
Qed.

End AnyLoop.

(** One turn of the loop of [claude_api._retry_with_backoff], which
    retries every failure. *)
Lemma claude_loop_cons {A} (func : operation A) a later last w :
  ClaudeApi.retry_loop rt cfg func (a :: later) last w =
  match func (calls w) with
  | Ok v => (Ok v, advance w 1 [])
  | Raise e =>
      if (fun _ : exception => true) e then
        if a <? MAX_RETRIES cfg - 1 then
          match backoff_sleep rt cfg a (advance w 1 []) with
          | (Ok _, w2) => ClaudeApi.retry_loop rt cfg func later (Some e) w2
          | (Raise e', w2) => (Raise e', w2)
          end
        else ClaudeApi.retry_loop rt cfg func later (Some e) (advance w 1 [])
      else (Raise e, advance w 1 [])
  end.
Proof.
  cbn [ClaudeApi.retry_loop]. rewrite invoke_advance.
  by destruct (func (calls w)).
Qed.

(** One turn of the loop of [google_docs._retry_with_backoff]. *)
Lemma google_loop_cons {A} (func : operation A) a later last w :
  GoogleDocs.retry_loop rt cfg func (a :: later) last w =
  match func (calls w) with
  | Ok v => (Ok v, advance w 1 [])
  | Raise e =>
      if retryable e then
        if a <? MAX_RETRIES cfg - 1 then
          match backoff_sleep rt cfg a (advance w 1 []) with
          | (Ok _, w2) => GoogleDocs.retry_loop rt cfg func later (Some e) w2
          | (Raise e', w2) => (Raise e', w2)
          end
        else GoogleDocs.retry_loop rt cfg func later (Some e) (advance w 1 [])
      else (Raise e, advance w 1 [])
  end.
Proof.
  cbn [GoogleDocs.retry_loop]. rewrite invoke_advance.
  destruct (func (calls w)) as [v|e]; [done|].
  by destruct e.
Qed.

End RetryPolicy.

(** [k] failures and then a success within the attempts of the wrapper of
    [claude_api.py], the backoffs in between going through. *)
Lemma claude_retry_recovers (rt : Runtime) (cfg : Config)
  {A} (func : operation A) (w : World) (k : nat) (v : A) (ds : list float) :
  Z.of_nat k < MAX_RETRIES cfg ->
  fails_for func (calls w) k ->
  func (calls w + k)%nat = Ok v ->
  sleeps_through rt cfg 0 k ds ->
  ClaudeApi._retry_with_backoff rt cfg func w = (Ok v, advance w (S k) ds).
Proof.
  intros Hk Hfail Hok Hds.
  unfold ClaudeApi._retry_with_backoff, range.
  apply (loop_succeeds rt cfg func (fun _ => true)
           (ClaudeApi.retry_loop rt cfg func)
           (fun a later last w => claude_loop_cons rt cfg func a later last w));
    [lia|lia| |done|done].
  intros i Hi. destruct (Hfail i Hi) as [e He]. by exists e.
Qed.

(** The same for the wrapper of [google_docs.py], when the failures are
    ones it retries. *)
Lemma google_retry_recovers (rt : Runtime) (cfg : Config)
  {A} (func : operation A) (w : World) (k : nat) (v : A) (ds : list float) :
  Z.of_nat k < MAX_RETRIES cfg ->
  fails_retryably func (calls w) k ->
  func (calls w + k)%nat = Ok v ->
  sleeps_through rt cfg 0 k ds ->
  GoogleDocs._retry_with_backoff rt cfg func w = (Ok v, advance w (S k) ds).
Proof.
  intros Hk Hfail Hok Hds.
  unfold GoogleDocs._retry_with_backoff, range.
  apply (loop_succeeds rt cfg func retryable
           (GoogleDocs.retry_loop rt cfg func)
           (fun a later last w => google_loop_cons rt cfg func a later last w));
    [lia|lia|done|done|done].
Qed.

(** When every one of the [MAX_RETRIES >= 1] attempts fails and every
    backoff in between goes through, the wrapper of [claude_api.py] has
    called the operation [MAX_RETRIES] times, slept after each attempt but
    the last, and raises the last failure. *)
Lemma claude_retry_exhausted (rt : Runtime) (cfg : Config)
  {A} (func : operation A) (w : World) (n : nat) (ds : list float) :
  MAX_RETRIES cfg = Z.of_nat (S n) ->
  fails_for func (calls w) (S n) ->
  sleeps_through rt cfg 0 n ds ->
  exists e,
    func (calls w + n)%nat = Raise e /\
    ClaudeApi._retry_with_backoff rt cfg func w
    = (Raise e, advance w (S n) ds).
Proof.
  intros Hmax Hfail Hds.
  unfold ClaudeApi._retry_with_backoff, range. rewrite Hmax, Nat2Z.id.
  cbn [seq map]. rewrite claude_loop_cons.
  destruct (Hfail 0%nat) as [e0 He0]; [lia|]. rewrite Nat.add_0_r in He0.
  rewrite He0. destruct n as [|n].
  - apply sleeps_through_inv in Hds as ->.
    destruct (Z.ltb_spec (Z.of_nat 0) (MAX_RETRIES cfg - 1)) as [?|_]; [lia|].
    exists e0. cbn. by rewrite Nat.add_0_r, He0.
  - destruct (Z.ltb_spec (Z.of_nat 0) (MAX_RETRIES cfg - 1)) as [_|?]; [|lia].
    apply sleeps_through_inv in Hds as (d & ds' & -> & Hd & Hds).
    rewrite backoff_sleep_outcome, Hd, advance_advance.
    destruct (loop_exhausted rt cfg func (fun _ => true)
                (ClaudeApi.retry_loop rt cfg func) (fun _ _ => eq_refl)
                (fun a later last w =>
                   claude_loop_cons rt cfg func a later last w)
                (S n) 1 e0 (advance w (1 + 0) ([] ++ [d])) ds')
      as (e & He & Hrun); [lia| |by cbn [Nat.sub]; rewrite Nat.sub_0_r|].
    + intros i Hi. destruct (Hfail (S i)) as [e' He']; [lia|].
      exists e'. split; [|done]. rewrite <- He'. f_equal. cbn. lia.
    + exists e. split.
      * rewrite <- He. f_equal. cbn. lia.
      * rewrite Hrun, advance_advance. f_equal.
Qed.

(** A value returned by the wrapper of [claude_api.py] is the value of the
    first call that did not fail, one of its [MAX_RETRIES] calls. *)
Lemma claude_retry_ok (rt : Runtime) (cfg : Config)
  {A} (func : operation A) (w w' : World) (v : A) :
  ClaudeApi._retry_with_backoff rt cfg func w = (Ok v, w') ->
  exists k, Z.of_nat k < MAX_RETRIES cfg /\ first_success func (calls w) k v.
Proof.
  unfold ClaudeApi._retry_with_backoff, range. intros Hrun.
  destruct (Z.le_gt_cases (MAX_RETRIES cfg) 0) as [Hle|Hgt].
  - replace (Z.to_nat (MAX_RETRIES cfg)) with 0%nat in Hrun by lia.
    discriminate Hrun.
  - destruct (loop_ok rt cfg func (fun _ => true)
                (ClaudeApi.retry_loop rt cfg func) (fun _ _ => eq_refl)
                (fun a later last w =>
                   claude_loop_cons rt cfg func a later last w)
                (Z.to_nat (MAX_RETRIES cfg)) 0 None w v w' ltac:(lia) Hrun)
      as (k & Hk & Hfirst).
    exists k. split; [lia|done].
Qed.

(** A first failure that the wrapper of [google_docs.py] does not retry
    ends the run. *)
Lemma google_retry_gives_up (rt : Runtime) (cfg : Config)
  {A} (func : operation A) (w : World) (e : exception) :
  1 <= MAX_RETRIES cfg ->
  func (calls w) = Raise e -> retryable e = false ->
  GoogleDocs._retry_with_backoff rt cfg func w = (Raise e, advance w 1 []).
Proof.
  intros Hmax Hfail Hno.
  unfold GoogleDocs._retry_with_backoff, range.
  destruct (Z.to_nat (MAX_RETRIES cfg)) as [|m] eqn:Hm; [lia|].
  cbn [seq map]. by rewrite google_loop_cons, Hfail, Hno.
Qed.



(** C2, as stated, fails for the wrapper of [claude_api.py]: with the
    default configuration an operation that always fails with status 400,
    which is not a retryable status, is called three times with two sleeps
    in between, not once with none. *)
Lemma claude_retry_repeats_non_retryable :
  let out := ClaudeApi._retry_with_backoff example_runtime default_config
               (always_fails (A := pyval) (APIStatusError 400)) world0 in
  GoogleDocs.retryable_status 400 = false /\
  fst out = Raise (APIStatusError 400) /\
  calls (snd out) = 3%nat /\
  sleeps (snd out) = [1%float; 2%float] /\
  snd out <> advance world0 1 [].
Proof. vm_compute. repeat split; discriminate. Qed.

(** C2 (amended). The wrapper of [google_docs.py], run with at least one
    attempt on an operation whose first call fails with an [HttpError] whose
    status is none of 429, 500, 502, 503, 504, raises that failure after this
    one call, without a sleep and without a second call. The wrapper of
    [claude_api.py] classifies nothing: with [MAX_RETRIES >= 1], an
    operation that fails at each of the [MAX_RETRIES] calls, whatever the
    exceptions, is called [MAX_RETRIES] times, with a sleep after every
    attempt but the last, before its last failure is raised, provided that
    every backoff goes through (each delay is computed and taken by
    [time.sleep]). *)
Theorem non_retryable_short_circuit (rt : Runtime) (cfg : Config) :
  (forall A (func : operation A) (w : World) (status : Z),
     1 <= MAX_RETRIES cfg ->
     func (calls w) = Raise (HttpError status) ->
     status ∉ [429; 500; 502; 503; 504] ->
     GoogleDocs._retry_with_backoff rt cfg func w
     = (Raise (HttpError status), advance w 1 [])) /\
  (forall A (func : operation A) (w : World) (n : nat) (ds : list float),
     MAX_RETRIES cfg = Z.of_nat (S n) ->
     fails_for func (calls w) (S n) ->
     sleeps_through rt cfg 0 n ds ->
     exists e,
       func (calls w + n)%nat = Raise e /\
       ClaudeApi._retry_with_backoff rt cfg func w
       = (Raise e, advance w (S n) ds)).
Proof.
  split.
  - intros A func w status Hmax Hfail Hstatus.
    apply google_retry_gives_up; [done|done|].
    cbn [retryable]. unfold retryable_status.
    by rewrite bool_decide_eq_false_2.
  - intros A func w n ds. apply claude_retry_exhausted.
Qed.

(** ** The extractor *)

Section Extractor.

Import ClaudeApi.

Variables (rt : Runtime) (cfg : Config) (json_loads : Decoder)
  (oracle : Oracle).

Lemma first_success_unique {A} (func : operation A) start k1 k2 v1 v2 :
  first_success func start k1 v1 -> first_success func start k2 v2 ->
  k1 = k2 /\ v1 = v2.
Proof.
  intros [H1 F1] [H2 F2].
  destruct (lt_eq_lt_dec k1 k2) as [[Hlt| ->]|Hlt].
  - destruct (F2 k1 Hlt) as [e He]. congruence.
  - split; congruence.
  - destruct (F1 k2 Hlt) as [e He]. congruence.
Qed.

(** A daily request fails exactly when the attempt does. *)
Lemma daily_request_fails prompt k :
  (exists e, daily_request json_loads oracle prompt k = Raise e) <->
  attempt_fails json_loads oracle prompt k.
Proof.
  unfold daily_request, attempt_fails.
  destruct (oracle prompt k) as [text|e0]; [|split; [left|]; by eexists].
  destruct (json_loads (_clean_json_response (strip text))) as [v|e1] eqn:Hj.
  - split; [by intros [e He]|].
    intros [[e He]|(t & e & [= <-] & Hl & _)]; [done|congruence].
  - split.
    + intros [e He]. right. exists text, e1. repeat split; [done|].
      intros ->. discriminate He.
    + intros [[e He]|(t & e & [= <-] & Hl & Hne)]; [done|].
      rewrite Hj in Hl. injection Hl as <-. exists e1. by destruct e1.
Qed.


(** A first reply that is not JSON makes the request return the fallback
    at that call. *)
Lemma daily_request_malformed prompt start :
  first_reply_malformed json_loads oracle prompt start ->
  exists k, first_success (daily_request json_loads oracle prompt) start k
              DAILY_FALLBACK.
Proof.
  intros (k & text & [Hok Hfail] & Hbad). exists k. split.
  - unfold daily_request. by rewrite Hok, Hbad.
  - intros i Hi. destruct (Hfail i Hi) as [e He]. exists e.
    unfold daily_request. by rewrite He.
Qed.


(** The fallback of [get_daily_summary]: after a first reply that is not
    JSON, and after [MAX_RETRIES] failed attempts. *)
Lemma daily_summary_when_down history user_reply w :
  first_reply_malformed json_loads oracle (daily_prompt history user_reply)
    (calls w) \/
  (forall i, (i < Z.to_nat (MAX_RETRIES cfg))%nat ->
     attempt_fails json_loads oracle (daily_prompt history user_reply)
       (calls w + i)%nat) ->
  fst (get_daily_summary rt cfg json_loads oracle history user_reply w)
  = Ok DAILY_FALLBACK.
Proof.
  intros Hdown. unfold get_daily_summary.
  destruct (_retry_with_backoff _ _ _ _) as [[v|e] w'] eqn:Hrun; [|done].
  cbn [fst]. f_equal.
  apply claude_retry_ok in Hrun as (k & Hk & Hfirst).
  destruct Hdown as [Hbad|Hfail].
  - apply daily_request_malformed in Hbad as [k' Hfirst'].
    by destruct (first_success_unique _ _ _ _ _ _ Hfirst Hfirst') as [_ ->].
  - destruct Hfirst as [Hok _].
    destruct (proj2 (daily_request_fails _ _) (Hfail k ltac:(lia))) as [e He].
    congruence.
Qed.


Lemma str_items_strings (gs : list str) : str_items (map VStr gs) = Ok gs.
Proof. induction gs as [|g gs IH]; [done|]. cbn. by rewrite IH. Qed.

(** Building the weekly prompt from typed summaries does not raise. *)
Lemma summaries_text_typed (fmt : pyval -> str) (daily_summaries : list dict) :
  Forall typed_summary daily_summaries ->
  forall i acc, exists text,
    summaries_text_from fmt i daily_summaries acc = Ok text.
Proof.
  induction 1 as [|s rest [_ [goals Hg]] _ IH]; intros i acc; [by exists acc|].
  cbn [summaries_text_from]. rewrite Hg. cbn [join_value].
  rewrite str_items_strings. apply IH.
Qed.

(** The workouts the local fallback counts. *)
Lemma workout_count_typed (daily_summaries : list dict) :
  Forall typed_summary daily_summaries ->
  workout_count daily_summaries
  = Ok (Z.of_nat (length (filter
         (fun s => lower (workout_text s) ∉ [u "not specified"; u "none"; []])
         daily_summaries))).
Proof.
  induction 1 as [|s rest [[workout Hw] _] _ IH]; [done|].
  cbn [workout_count]. rewrite IH. rewrite filter_cons.
  unfold counts_as_workout, workout_text. rewrite Hw.
  destruct (decide (lower workout ∉ _)) as [Hn|Hy].
  - rewrite bool_decide_eq_false_2 by done. cbn [negb length]. f_equal. lia.
  - rewrite bool_decide_eq_true_2; [done|].
    by destruct (decide (lower workout ∈ [u "not specified"; u "none"; []])).
Qed.

Lemma weekly_fallback_typed (daily_summaries : list dict) :
  Forall typed_summary daily_summaries ->
  weekly_fallback daily_summaries = Ok (local_recap daily_summaries).
Proof. intros H. unfold weekly_fallback. by rewrite workout_count_typed. Qed.

(** A weekly request on typed summaries fails exactly when the attempt
    does. *)
Lemma weekly_request_fails (daily_summaries : list dict) prompt k :
  Forall typed_summary daily_summaries ->
  (exists e, weekly_request json_loads oracle daily_summaries prompt k
             = Raise e) <->
  attempt_fails json_loads oracle prompt k.
Proof.
  intros Htyped. unfold weekly_request, attempt_fails.
  rewrite weekly_fallback_typed by done.
  destruct (oracle prompt k) as [text|e0]; [|split; [left|]; by eexists].
  destruct (json_loads (_clean_json_response (strip text))) as [v|e1] eqn:Hj.
  - split; [by intros [e He]|].
    intros [[e He]|(t & e & [= <-] & Hl & _)]; [done|congruence].
  - split.
    + intros [e He]. right. exists text, e1. repeat split; [done|].
      intros ->. discriminate He.
    + intros [[e He]|(t & e & [= <-] & Hl & Hne)]; [done|].
      rewrite Hj in Hl. injection Hl as <-. exists e1. by destruct e1.
Qed.

(** What a weekly request on typed summaries returns when it returns. *)
Lemma weekly_request_ok (daily_summaries : list dict) prompt k v :
  Forall typed_summary daily_summaries ->
  weekly_request json_loads oracle daily_summaries prompt k = Ok v ->
  exists text,
    oracle prompt k = Ok text /\
    (json_loads (_clean_json_response (strip text)) = Ok v \/
     json_loads (_clean_json_response (strip text)) = Raise JSONDecodeError /\
     v = local_recap daily_summaries).
Proof.
  intros Htyped. unfold weekly_request. rewrite weekly_fallback_typed by done.
  destruct (oracle prompt k) as [text|e0]; [|done].
  intros H. exists text. split; [done|].
  destruct (json_loads (_clean_json_response (strip text))) as [v'|e1];
    [left; congruence|].
  destruct e1; try done. right. split; [done|congruence].
Qed.




End Extractor.

Import ClaudeApi.




Lemma one_default_sleep :
  sleeps_through example_runtime default_config 0 1 [1%float].
Proof.
  unfold sleeps_through. cbn [seq].
  constructor; [by vm_compute|constructor].
Qed.



(** C5 fails for [get_daily_summary]: when the oracle replies with the
    empty JSON object, the returned dictionary is empty, with none of the
    three fields. *)
Theorem daily_summary_omits_fields :
  fst (get_daily_summary example_runtime default_config loads_empty_object
         (replies (u "{}")) (u "No recent history available.") scenario_reply
         world0)
  = Ok (VDict []) /\
  dict_lookup K_WORKOUT [] = None /\
  dict_lookup K_EATING [] = None /\
  dict_lookup K_GOALS [] = None.
Proof. by vm_compute. Qed.

(** ** Storing a daily record and reading it back *)

Import Bot ClaudeApi.

(** C1. The round trip fails on the scenario of the specification. The
    record with workout "5k run" and the goal "sleep earlier", rendered by
    [process_daily_response] into an empty document and read back by the
    daily re-parser, comes back with the workout "Not specified" and no
    goals: the bullet lines are written with U+2022 and looked for with
    another prefix, so none of them is recognised. *)
Theorem daily_round_trip_scenario (fmt : pyval -> str) :
  exists body,
    store_daily fmt (date scenario_record) scenario_reply
      (VDict (summary_dict scenario_record)) empty_body = Ok body /\
    daily_summaries_of_text body 7
    = [record_dict (fresh_record (date scenario_record))] /\
    daily_summaries_of_text body 7 <> [record_dict scenario_record].
Proof.
  eexists. split; [reflexivity|]. split; [by vm_compute|].
  vm_compute. discriminate.
Qed.

(** A line that does not begin with the first code point of the parser's
    bullet prefix changes nothing; the lines [bot.py] writes begin with
    U+2022. *)
Lemma update_summary_other_line (line : str) (data : dict) :
  head line <> Some 226%N -> update_summary line data = data.
Proof.
  intros Hh. unfold update_summary.
  destruct line as [|c line]; [done|].
  assert ((226 =? c)%N = false) as Hc.
  { apply N.eqb_neq. intros <-. by destruct Hh. }
  unfold P_WORKOUT, P_EATING, P_GOALS, PARSER_BULLET.
  cbn [app startswith]. by rewrite Hc.
Qed.


(** C6. The lookup in the stretch log signals absence, and nothing else,
    when no entry carries the date: neither an error nor an entry, so no
    entry with [stretched = false]; a fetch that fails is absence as well;
    and when entries carry the date the lookup returns the first of them
    from the head of the document. The caller tells absence from an entry
    that says no: its reminder opens differently. *)
Theorem stretch_entry_absent_or_first
  (fetched : result (list StretchEntry)) (date_key : str) :
  (forall entries, fetched = Ok entries ->
     (forall e, e ∈ entries -> entry_date e <> date_key) ->
     get_stretch_entry fetched date_key = None) /\
  (forall err, fetched = Raise err ->
     get_stretch_entry fetched date_key = None) /\
  (forall before e after, fetched = Ok (before ++ e :: after) ->
     entry_date e = date_key ->
     (forall e', e' ∈ before -> entry_date e' <> date_key) ->
     get_stretch_entry fetched date_key = Some e) /\
  (forall e, stretched e = false ->
     send_stretch_check None None <> send_stretch_check (Some e) None).
Proof.
  repeat split.
  - intros entries -> Hno. cbn [get_stretch_entry].
    induction entries as [|e entries IH]; [done|]. cbn [find].
    unfold eqb. rewrite bool_decide_eq_false_2 by (apply Hno; left).
    apply IH. intros e' He'. apply Hno. by right.
  - by intros err ->.
  - intros before e after -> He Hno. cbn [get_stretch_entry].
    induction before as [|e' before IH]; cbn [app find]; unfold eqb.
    + by rewrite bool_decide_eq_true_2.
    + rewrite bool_decide_eq_false_2 by (apply Hno; left).
      apply IH. intros e'' He''. apply Hno. by right.
  - intros e He. unfold send_stretch_check. rewrite He. discriminate.
Qed.

(** ** The theorems at concrete inputs *)

(** C8 on a document with two entries and the limit 1. *)
Lemma daily_reader_limit_and_order_witness :
  0 <= 1 /\
  Z.of_nat (length (get_daily_summaries_from_doc (Ok two_entry_doc) 1)) <= 1.
Proof.
  split; [lia|].
  apply (daily_reader_limit_and_order (Ok two_entry_doc) 1). lia.
Defined.




(** C6 on a log with no entry for one date and two for another. *)
Lemma stretch_entry_absent_or_first_witness :
  get_stretch_entry (Ok stretch_log) (u "2024-01-01") = None /\
  get_stretch_entry (Ok stretch_log) (u "2024-01-02")
  = Some {| entry_date := u "2024-01-02"; stretched := false;
            raw_text := u "no" |}.
Proof.
  split.
  - apply (proj1 (stretch_entry_absent_or_first (Ok stretch_log) (u "2024-01-01"))
             stretch_log eq_refl).
    intros e He. unfold stretch_log in He.
    repeat (apply elem_of_cons in He as [->|He]; [discriminate|]).
    by apply elem_of_nil in He.
  - apply (proj1 (proj2 (proj2
             (stretch_entry_absent_or_first (Ok stretch_log) (u "2024-01-02"))))
             [ {| entry_date := u "2024-01-03"; stretched := true;
                  raw_text := u "yes" |} ] _
             [ {| entry_date := u "2024-01-02"; stretched := true;
                  raw_text := u "yep" |} ] eq_refl eq_refl).
    intros e He. apply elem_of_cons in He as [->|He]; [discriminate|].
    by apply elem_of_nil in He.
Defined.


(** C2 (amended) on status 400 with the default configuration. *)
Lemma non_retryable_short_circuit_witness :
  1 <= MAX_RETRIES default_config /\
  (400 ∉ [429; 500; 502; 503; 504]) /\
  GoogleDocs._retry_with_backoff example_runtime default_config
    (always_fails (A := pyval) (HttpError 400)) world0
  = (Raise (HttpError 400), advance world0 1 []).
Proof.
  assert (Hs : 400 ∉ [429; 500; 502; 503; 504]).
  { intros H. repeat (apply elem_of_cons in H as [H|H]; [discriminate|]).
    by apply elem_of_nil in H. }
  split; [cbn; lia|]. split; [exact Hs|].
  apply (proj1 (non_retryable_short_circuit example_runtime default_config)
           pyval (always_fails (HttpError 400)) world0 400);
    [cbn; lia|reflexivity|exact Hs].
Defined.

(** * Further properties *)

Import GoogleDocsLog.

(** ** More facts about stripping *)

Section MoreStrings.

Implicit Types (s t p ws : str) (c : N).

Lemma lstrip_blank_app ws s : forallb isspace ws = true -> lstrip (ws ++ s) = lstrip s.
Proof.
  induction ws as [|c ws IH]; [done|]. cbn [forallb app lstrip].
  destruct (isspace c); [exact IH|done].
Qed.

Lemma rstrip_app_blank s ws : forallb isspace ws = true -> rstrip (s ++ ws) = rstrip s.
Proof.
  intros H. unfold rstrip. rewrite rev_app_distr, lstrip_blank_app; [done|].
  rewrite forallb_forall in *. intros c Hc. apply H. by apply in_rev.
Qed.

Lemma lstrip_head c s : isspace c = false -> lstrip (c :: s) = c :: s.
Proof. intros H. cbn. by rewrite H. Qed.

Lemma rstrip_last s c : isspace c = false -> rstrip (s ++ [c]) = s ++ [c].
Proof.
  intros H. unfold rstrip. rewrite rev_app_distr. cbn [rev app].
  rewrite lstrip_head by done. cbn [rev]. by rewrite rev_involutive.
Qed.

(** Text that begins and ends with a character that is not blank loses
    exactly the blanks around it. *)
Lemma strip_surrounded ws1 ws2 c s d :
  forallb isspace ws1 = true -> forallb isspace ws2 = true ->
  isspace c = false -> isspace d = false ->
  strip (ws1 ++ (c :: s ++ [d]) ++ ws2) = c :: s ++ [d].
Proof.
  intros H1 H2 Hc Hd. unfold strip.
  rewrite lstrip_blank_app by done.
  change ((c :: s ++ [d]) ++ ws2) with (c :: (s ++ [d]) ++ ws2).
  rewrite lstrip_head by done.
  change (c :: (s ++ [d]) ++ ws2) with (((c :: s) ++ [d]) ++ ws2).
  rewrite rstrip_app_blank by done. by rewrite rstrip_last.
Qed.

Lemma startswith_app p s : startswith p (p ++ s) = true.
Proof. apply startswith_spec. by exists s. Qed.

Lemma endswith_app p s : endswith p (s ++ p) = true.
Proof. unfold endswith. rewrite rev_app_distr. apply startswith_app. Qed.

End MoreStrings.

(** X1. [_clean_json_response] unwraps a fenced reply: whatever blanks
    surround it, a reply opened by three backticks and [json], or by three
    backticks alone, and closed by three backticks, is reduced to the
    stripped text between the fences; a reply that, once stripped, neither
    begins nor ends with three backticks is only stripped. *)
Theorem clean_json_response_unwraps :
  (forall ws1 ws2 body,
     forallb isspace ws1 = true -> forallb isspace ws2 = true ->
     _clean_json_response (ws1 ++ (u "```json" ++ body ++ u "```") ++ ws2)
     = strip body) /\
  (forall ws1 ws2 body,
     forallb isspace ws1 = true -> forallb isspace ws2 = true ->
     startswith (u "json") body = false ->
     _clean_json_response (ws1 ++ (u "```" ++ body ++ u "```") ++ ws2)
     = strip body) /\
  (forall text,
     startswith (u "```") (strip text) = false ->
     endswith (u "```") (strip text) = false ->
     _clean_json_response text = strip text).
Proof.
  assert (Hfenced : forall ws1 ws2 open body,
            forallb isspace ws1 = true -> forallb isspace ws2 = true ->
            strip (ws1 ++ ((u "```" ++ open) ++ body ++ u "```") ++ ws2)
            = (u "```" ++ open) ++ body ++ u "```").
  { intros ws1 ws2 open body H1 H2.
    change (u "```") with ([96; 96; 96]%N).
    replace (([96; 96; 96]%N ++ open) ++ body ++ [96; 96; 96]%N)
      with (96%N :: ([96; 96]%N ++ open ++ body ++ [96; 96]%N) ++ [96%N])
      by (cbn; by rewrite <- !app_assoc).
    by apply strip_surrounded. }
  repeat split.
  - intros ws1 ws2 body H1 H2. unfold _clean_json_response.
    change (u "```json") with (u "```" ++ u "json").
    rewrite Hfenced by done.
    change (u "```" ++ u "json") with (u "```json").
    rewrite startswith_app.
    change (drop 7 (u "```json" ++ body ++ u "```")) with (body ++ u "```").
    rewrite endswith_app, length_app, Nat.add_sub, take_app_length. done.
  - intros ws1 ws2 body H1 H2 Hj. unfold _clean_json_response.
    change (u "```" ++ body ++ u "```")
      with ((u "```" ++ []) ++ body ++ u "```").
    rewrite (Hfenced ws1 ws2 [] body) by done.
    change ((u "```" ++ []) ++ body ++ u "```")
      with (u "```" ++ body ++ u "```").
    assert (Hno : startswith (u "```json") (u "```" ++ body ++ u "```") = false).
    { change (startswith (u "json") (body ++ u "```") = false).
      revert Hj. destruct body as [|a [|b [|c [|d body]]]]; cbn;
        repeat (destruct (_ =? _)%N; try done). }
    rewrite Hno.
    rewrite startswith_app.
    change (drop 3 (u "```" ++ body ++ u "```")) with (body ++ u "```").
    rewrite endswith_app, length_app, Nat.add_sub, take_app_length. done.
  - intros text Hs He. unfold _clean_json_response.
    replace (startswith (u "```json") (strip text)) with false.
    2:{ symmetry. destruct (startswith (u "```json") _) eqn:E; [|done].
        apply startswith_spec in E as [t Ht].
        rewrite <- Hs. symmetry. apply startswith_spec.
        exists (u "json" ++ t). by rewrite Ht. }
    rewrite Hs, He. apply strip_idem.
Qed.

Lemma insert_text_after (a text b : str) :
  insert_text (S (length a)) text (a ++ b) = a ++ text ++ b.
Proof.
  unfold insert_text. rewrite Nat.sub_succ, Nat.sub_0_r.
  by rewrite take_app_length, drop_app_length.
Qed.

(** X2. The three insertions of [append_to_doc] put the heading and the
    content, in this order and each on lines of its own, in front of the
    text the document had, which follows unchanged; so of two appended
    entries the later one comes first. *)
Theorem append_to_doc_prepends (heading content body : str) :
  append_to_doc heading content body
  = [NL] ++ heading ++ [NL] ++ content ++ [NL] ++ [NL] ++ body /\
  forall heading2 content2,
    append_to_doc heading2 content2 (append_to_doc heading content body)
    = ([NL] ++ heading2 ++ [NL] ++ content2 ++ [NL] ++ [NL])
      ++ ([NL] ++ heading ++ [NL] ++ content ++ [NL] ++ [NL]) ++ body.
Proof.
  assert (Hone : forall h c b,
            append_to_doc h c b = [NL] ++ h ++ [NL] ++ c ++ [NL] ++ [NL] ++ b).
  { intros h c b. unfold append_to_doc. cbv zeta.
    change (insert_text 1 ([NL] ++ h ++ [NL]) b) with (([NL] ++ h ++ [NL]) ++ b).
    replace (1 + length h + 2)%nat with (S (length ([NL] ++ h ++ [NL])))
      by (rewrite !length_app; cbn [length]; lia).
    rewrite insert_text_after.
    replace (1 + length h + length c + 3)%nat
      with (S (length (([NL] ++ h ++ [NL]) ++ c ++ [NL])))
      by (rewrite !length_app; cbn [length]; lia).
    rewrite (app_assoc _ (c ++ [NL]) b), insert_text_after.
    by rewrite <- !app_assoc. }
  split; [apply Hone|]. intros h2 c2. rewrite !Hone.
  by rewrite <- !app_assoc.
Qed.

Section RawReader.

Implicit Types (l line e h : str) (lines entries cur hs : list str).

Lemma join_opens h more :
  startswith DAILY_HEADING h = true -> opens_with (join [NL] (h :: more)) h.
Proof.
  intros Hh. destruct more as [|m more]; cbn [join].
  - split; [done|by left].
  - split.
    + apply startswith_spec in Hh as [t ->]. apply startswith_spec.
      eexists. by rewrite <- app_assoc.
    + right. by eexists.
Qed.

Lemma raw_inv_close hs entries cur :
  raw_inv hs entries cur -> Forall2 opens_with (close_entry entries cur) hs.
Proof.
  intros (hs1 & H2 & Hc). destruct cur as [|h more]; cbn [close_entry].
  - by subst.
  - destruct Hc as [-> Hh]. apply Forall2_app; [done|].
    constructor; [by apply join_opens|constructor].
Qed.

Lemma raw_inv_step hs entries cur line :
  raw_inv hs entries cur ->
  raw_inv (hs ++ stripped_headings [line])
          (fst (entry_step (entries, cur) line))
          (snd (entry_step (entries, cur) line)).
Proof.
  intros Hinv. unfold stripped_headings, entry_step. rewrite filter_cons, filter_nil.
  destruct (startswith DAILY_HEADING (strip line)) eqn:Hh.
  - rewrite decide_True by done. cbn [map fst snd].
    exists hs. split; [by apply raw_inv_close|done].
  - rewrite decide_False by (by rewrite not_true_iff_false).
    cbn [map]. rewrite app_nil_r.
    destruct Hinv as (hs1 & H2 & Hc).
    destruct (eqb (strip line) SEPARATOR); destruct cur as [|h more];
      cbn [fst snd].
    + by exists hs1.
    + destruct Hc as [-> Hs]. exists (hs1 ++ [h]). split; [|done].
      apply Forall2_app; [done|]. constructor; [by apply join_opens|constructor].
    + by exists hs1.
    + by exists hs1.
Qed.

Lemma stripped_headings_cons line lines :
  stripped_headings (line :: lines)
  = stripped_headings [line] ++ stripped_headings lines.
Proof.
  unfold stripped_headings. rewrite !filter_cons, filter_nil.
  by destruct (decide _).
Qed.

Lemma raw_inv_fold lines : forall hs entries cur,
  raw_inv hs entries cur ->
  raw_inv (hs ++ stripped_headings lines)
          (fst (fold_left entry_step lines (entries, cur)))
          (snd (fold_left entry_step lines (entries, cur))).
Proof.
  induction lines as [|line lines IH]; intros hs entries cur Hinv.
  - cbn. by rewrite app_nil_r.
  - cbn [fold_left]. rewrite stripped_headings_cons, app_assoc.
    pose proof (raw_inv_step _ _ _ line Hinv) as Hstep.
    destruct (entry_step (entries, cur) line) as [entries' cur'].
    by apply IH.
Qed.

Lemma collect_entries_headings lines :
  Forall2 opens_with (collect_entries lines) (stripped_headings lines).
Proof.
  unfold collect_entries.
  pose proof (raw_inv_fold lines [] [] []) as H.
  destruct (fold_left entry_step lines ([], [])) as [entries cur].
  apply raw_inv_close, H. exists []. by split.
Qed.

End RawReader.

(** X3. For every document, every limit [N >= 0] and every outcome of the
    fetch, [search_recent_entries] returns at most [N] entries, and a smaller
    limit returns the first entries of what a larger limit returns; when the
    fetch raises the result is empty. *)
Theorem recent_entries_limit
  (fetched : result (list structural_element)) (N : Z) (HN : 0 <= N) :
  Z.of_nat (length (search_recent_entries fetched N)) <= N /\
  (forall M, N <= M ->
     search_recent_entries fetched N
     = take (Z.to_nat N) (search_recent_entries fetched M)) /\
  (forall e, fetched = Raise e -> search_recent_entries fetched N = []).
Proof.
  assert (Hslice : forall K entries, 0 <= K ->
            recent_slice K entries = take (Z.to_nat K) entries).
  { intros K entries HK. unfold recent_slice.
    destruct (Z.geb_spec (Z.of_nat (length entries)) K) as [Hge|Hlt].
    - by destruct (Z.leb_spec 0 K); [|lia].
    - rewrite take_ge; [done|lia]. }
  destruct fetched as [content|e]; cbn [search_recent_entries];
    [|repeat split; [cbn; lia|by intros; rewrite take_nil]].
  unfold recent_entries_of_text. repeat split.
  - rewrite Hslice, length_take by done. lia.
  - intros M HM. rewrite !Hslice by lia. rewrite take_take. f_equal. lia.
  - done.
Qed.

(** X4. [search_recent_entries] cuts the document at every heading line:
    with a limit no smaller than their number, the entries are as many as
    the lines that, stripped, begin with "Daily Check-in:", in the same
    order, and each entry opens with its stripped heading line, alone or
    followed by a newline. *)
Theorem recent_entries_follow_headings
  (content : list structural_element) (days : Z)
  (Hdays : Z.of_nat (length (stripped_headings (split NL (full_text content))))
           <= days) :
  Forall2 (fun e h =>
             startswith DAILY_HEADING e = true /\
             (e = h \/ exists more, e = h ++ [NL] ++ more))
          (search_recent_entries (Ok content) days)
          (stripped_headings (split NL (full_text content))).
Proof.
  cbn [search_recent_entries]. unfold recent_entries_of_text.
  pose proof (collect_entries_headings (split NL (full_text content))) as H.
  pose proof (Forall2_length _ _ _ H) as Hlen.
  unfold recent_slice.
  destruct (Z.geb_spec (Z.of_nat (length (collect_entries (split NL (full_text content))))) days);
    [|done].
  destruct (Z.leb_spec 0 days); [|lia].
  rewrite take_ge by lia. done.
Qed.

Section Lines.

Implicit Types (s t a b : str) (c sep : N) (ls : list str).

Lemma split_nonempty sep s : split sep s <> [].
Proof.
  destruct s as [|c s]; [done|]. cbn.
  destruct (c =? sep)%N; [done|]. by destruct (split sep s).
Qed.

(** Splitting at a separator splits the text before it and the text after
    it. *)
Lemma split_app_sep sep a b :
  split sep (a ++ sep :: b) = split sep a ++ split sep b.
Proof.
  induction a as [|c a IH]; cbn [app split].
  - by rewrite N.eqb_refl.
  - rewrite IH. destruct (c =? sep)%N; [done|].
    pose proof (split_nonempty sep a). by destruct (split sep a).
Qed.

Lemma split_no_sep sep s : sep ∉ s -> split sep s = [s].
Proof.
  induction s as [|c s IH]; [done|]. intros Hn. cbn.
  destruct (N.eqb_spec c sep) as [->|_]; [destruct Hn; left|].
  rewrite IH; [done|]. intros H. apply Hn. by right.
Qed.

Lemma join_cons (glue l l' : str) ls :
  join glue (l :: l' :: ls) = l ++ glue ++ join glue (l' :: ls).
Proof. reflexivity. Qed.

Lemma split_join sep ls :
  ls <> [] -> split sep (join [sep] ls) = concat (map (split sep) ls).
Proof.
  induction ls as [|l ls IH]; [done|]. intros _.
  destruct ls as [|l' ls].
  - cbn. by rewrite app_nil_r.
  - rewrite join_cons. cbn [app map concat].
    rewrite split_app_sep, IH by done. done.
Qed.

Lemma lstrip_keep a c b :
  isspace c = false -> lstrip (a ++ c :: b) = lstrip a ++ c :: b.
Proof.
  intros Hc. induction a as [|x a IH]; cbn [app lstrip].
  - by rewrite Hc.
  - by destruct (isspace x).
Qed.

(** Stripping on the right leaves everything up to a character that is not
    blank. *)
Lemma rstrip_keep a c b :
  isspace c = false -> rstrip (a ++ c :: b) = a ++ c :: rstrip b.
Proof.
  intros Hc. unfold rstrip.
  replace (rev (a ++ c :: b)) with (rev b ++ c :: rev a)
    by (rewrite rev_app_distr; cbn [rev]; by rewrite <- app_assoc).
  rewrite lstrip_keep by done.
  rewrite rev_app_distr. cbn [rev]. rewrite rev_involutive.
  by rewrite <- app_assoc.
Qed.

Lemma strip_keep c a d b :
  isspace c = false -> isspace d = false ->
  strip (c :: a ++ d :: b) = c :: a ++ d :: rstrip b.
Proof.
  intros Hc Hd. unfold strip. rewrite lstrip_head by done.
  exact (rstrip_keep (c :: a) d b Hd).
Qed.

Lemma strip_head c t : isspace c = false -> strip (c :: t) = c :: rstrip t.
Proof. intros Hc. unfold strip. rewrite lstrip_head by done. by apply rstrip_cons. Qed.

(** A line whose first character is not blank, not a hyphen and not the
    first code point of the parser's bullet is inert. *)
Lemma inert_first_char c t :
  isspace c = false -> c <> 45%N -> c <> 226%N -> inert_line (c :: t) = true.
Proof.
  intros Hc H1 H2. unfold inert_line, is_separator.
  rewrite strip_head by done.
  change (negb ((45 =? c)%N && startswith [45; 45]%N (rstrip t))
          && negb ((226 =? c)%N && true) = true).
  by rewrite (proj2 (N.eqb_neq 45 c)), (proj2 (N.eqb_neq 226 c)).
Qed.

Lemma inert_update l data :
  inert_line l = true -> update_summary (strip l) data = data.
Proof.
  unfold inert_line. rewrite andb_true_iff, !negb_true_iff. intros [_ H].
  apply update_summary_other_line. destruct (strip l) as [|c t]; [done|].
  cbn in *. intros [= ->]. done.
Qed.

Lemma fold_inert body data :
  Forall (fun l => inert_line l = true) body ->
  fold_left (fun acc l => update_summary (strip l) acc) body data = data.
Proof.
  induction 1 as [|l body Hl _ IH]; [done|]. cbn [fold_left].
  by rewrite inert_update.
Qed.

Lemma replace_without old new s c :
  head old = Some c -> c ∉ s -> replace old new s = s.
Proof.
  intros Hold. unfold replace. induction s as [|x s IH]; [done|].
  intros Hn. cbn [replace_from].
  destruct old as [|o old]; [done|]. injection Hold as ->.
  cbn [startswith]. destruct (N.eqb_spec c x) as [->|_]; [destruct Hn; left|].
  cbn. f_equal. apply IH. intros H. apply Hn. by right.
Qed.

End Lines.

Section StoredCheckIn.

(** A date of digits and hyphens has no blank, no newline and no capital
    D. *)
Lemma iso_date_facts today :
  forallb iso_date_char today = true ->
  Forall (fun c => isspace c = false /\ c <> 68%N /\ c <> NL) today.
Proof.
  rewrite forallb_forall. intros H. apply Forall_forall. intros c Hc.
  apply list_elem_of_In, H in Hc. unfold iso_date_char in Hc.
  unfold isspace, NL.
  apply orb_true_iff in Hc as [Hc|Hc].
  - apply andb_true_iff in Hc as [H1 H2].
    apply N.leb_le in H1, H2.
    repeat split; [|lia|lia].
    repeat match goal with
           | |- context [(?a <=? c)%N] => destruct (N.leb_spec a c); try lia
           | |- context [(c <=? ?a)%N] => destruct (N.leb_spec c a); try lia
           | |- context [(c =? ?a)%N] => destruct (N.eqb_spec c a); try lia
           end; done.
  - apply N.eqb_eq in Hc as ->. by repeat split.
Qed.

Lemma rstrip_nonblank s :
  Forall (fun c => isspace c = false) s -> rstrip s = s.
Proof.
  intros H. destruct (rev s) as [|c t] eqn:E.
  - apply (f_equal (@rev N)) in E. rewrite rev_involutive in E. by subst.
  - apply (f_equal (@rev N)) in E. rewrite rev_involutive in E. cbn in E.
    subst s. apply rstrip_last.
    apply Forall_app in H as [_ H]. by inversion H.
Qed.

(** The date line of a stored check-in is read back as the date. *)
Lemma heading_date_stored today :
  forallb iso_date_char today = true ->
  heading_date (daily_heading today) = Some today.
Proof.
  intros Hiso. apply iso_date_facts in Hiso.
  assert (Hnb : Forall (fun c => isspace c = false) today)
    by (eapply Forall_impl; [exact Hiso|by intros c (? & _)]).
  assert (HnD : 68%N ∉ today).
  { intros Hin. eapply Forall_forall in Hiso; [|exact Hin]. by destruct Hiso as (_ & ? & _). }
  unfold heading_date, daily_heading.
  change (u "Daily Check-in: " ++ today)
    with (68%N :: u "aily Check-in" ++ 58%N :: 32%N :: today).
  rewrite strip_keep by done.
  destruct today as [|c today].
  - reflexivity.
  - assert (rstrip (32%N :: c :: today) = 32%N :: c :: today) as ->.
    { change (32%N :: c :: today) with ([32%N] ++ c :: today).
      inversion Hnb; subst. rewrite rstrip_keep by done.
      f_equal. f_equal. apply rstrip_nonblank. done. }
    change (startswith DAILY_HEADING (68%N :: u "aily Check-in" ++ 58%N :: 32%N :: c :: today))
      with true. cbv iota.
    change (replace DAILY_HEADING [] (68%N :: u "aily Check-in" ++ 58%N :: 32%N :: c :: today))
      with (32%N :: replace DAILY_HEADING [] (c :: today)).
    rewrite (replace_without DAILY_HEADING [] (c :: today) 68%N) by done.
    unfold strip. change (lstrip (32%N :: c :: today)) with (lstrip (c :: today)).
    inversion Hnb; subst. rewrite lstrip_head by done.
    f_equal. by apply rstrip_nonblank.
Qed.

Lemma join_no_sep (glue : str) ls c :
  c ∉ glue -> Forall (fun l => c ∉ l) ls -> c ∉ join glue ls.
Proof.
  intros Hg. induction 1 as [|l ls Hl Hls IH]; [by apply not_elem_of_nil|].
  destruct ls as [|l' ls]; [done|]. rewrite join_cons.
  rewrite !elem_of_app. tauto.
Qed.

Lemma render_daily_record fmt today user_text (r : DailyRecord) :
  render_daily fmt today user_text (VDict (summary_dict r))
  = Ok (daily_doc_content today user_text (workout r) (eating_feelings r)
          (join (u ", ") (short_term_goals r))).
Proof.
  unfold render_daily, summary_get.
  change (dict_get (u "short_term_goals") (VList []) (summary_dict r))
    with (VList (map VStr (short_term_goals r))).
  cbn [join_value]. by rewrite str_items_strings.
Qed.

Lemma append_to_doc_text (h c b : str) :
  append_to_doc h c b = [NL] ++ h ++ [NL] ++ c ++ [NL] ++ [NL] ++ b.
Proof.
  unfold append_to_doc. cbv zeta.
  change (insert_text 1 ([NL] ++ h ++ [NL]) b) with (([NL] ++ h ++ [NL]) ++ b).
  replace (1 + length h + 2)%nat with (S (length ([NL] ++ h ++ [NL])))
    by (rewrite !length_app; cbn [length]; lia).
  rewrite insert_text_after.
  replace (1 + length h + length c + 3)%nat
    with (S (length (([NL] ++ h ++ [NL]) ++ c ++ [NL])))
    by (rewrite !length_app; cbn [length]; lia).
  rewrite (app_assoc _ (c ++ [NL]) b), insert_text_after.
  by rewrite <- !app_assoc.
Qed.

(** The lines of the document after a check-in was stored on top of it. *)
Lemma stored_lines today user_text workout eating goals body :
  NL ∉ today -> NL ∉ workout -> NL ∉ eating -> NL ∉ goals ->
  split NL (append_to_doc (daily_heading today)
              (daily_doc_content today user_text workout eating goals) body)
  = [ []; daily_heading today ]
    ++ stored_body today user_text workout eating goals
    ++ [ u "---"; u "            "; [] ] ++ split NL body.
Proof.
  intros Ht Hw He Hg. rewrite append_to_doc_text.
  transitivity (split NL (join [NL]
    [ []; daily_heading today; [];
      u "Daily Check-in: " ++ today; []; u "Raw Response:"; user_text; [];
      u "Summary:";
      [8226%N] ++ u " Workout: " ++ workout;
      [8226%N] ++ u " Eating Feelings: " ++ eating;
      [8226%N] ++ u " Short-term Goals: " ++ goals;
      []; u "---"; u "            "; []; body ])).
  { f_equal. unfold daily_doc_content, daily_heading.
    repeat (progress (cbn [join concat app]; rewrite <- ?app_assoc)).
    reflexivity. }
  rewrite split_join by done. cbn [map concat].
  assert (Hlit : forall l : str,
            forallb (fun c => negb (c =? NL)%N) l = true -> NL ∉ l).
  { intros l Hl Hin. rewrite forallb_forall in Hl.
    apply list_elem_of_In, Hl in Hin. by rewrite N.eqb_refl in Hin. }
  assert (Hnl : forall p s : str,
            forallb (fun c => negb (c =? NL)%N) p = true -> NL ∉ s ->
            split NL (p ++ s) = [p ++ s]).
  { intros p s Hp Hs. apply split_no_sep. rewrite elem_of_app.
    intros [H|H]; [by apply (Hlit p Hp)|done]. }
  unfold daily_heading.
  rewrite !(Hnl (u _)) by done.
  assert (Hmid : forall p s : str,
            forallb (fun c => negb (c =? NL)%N) p = true -> NL ∉ s ->
            NL ∉ p ++ s).
  { intros p s Hp Hs. rewrite elem_of_app.
    intros [H|H]; [by apply (Hlit p Hp)|done]. }
  rewrite !(Hnl [8226%N]) by (done || by apply Hmid).
  unfold stored_body. cbn [app split]. rewrite <- !app_assoc.
  rewrite app_nil_r. reflexivity.
Qed.

Lemma stored_body_inert today user_text workout eating goals :
  forallb inert_line (split NL user_text) = true ->
  Forall (fun l => inert_line l = true)
         (stored_body today user_text workout eating goals).
Proof.
  intros Hu. unfold stored_body. rewrite !Forall_app. repeat split.
  - repeat constructor. by apply inert_first_char.
  - apply Forall_forall. intros l Hl. rewrite forallb_forall in Hu.
    by apply Hu, list_elem_of_In.
  - repeat constructor; by apply inert_first_char.
Qed.

Lemma inert_not_separator body :
  Forall (fun l => inert_line l = true) body ->
  Forall (fun l => is_separator l = false) body.
Proof.
  intros H. eapply Forall_impl; [exact H|]. intros l. unfold inert_line.
  rewrite andb_true_iff, negb_true_iff. tauto.
Qed.

(** Summaries collected so far only shorten the budget of the scan. *)
Lemma scan_lines_shift (n : nat) : forall lines days s,
  (length lines <= n)%nat ->
  scan_lines days lines s
  = s ++ scan_lines (days - Z.of_nat (length s)) lines [].
Proof.
  induction n as [|n IH]; intros lines days s Hn.
  - destruct lines; [|cbn in Hn; lia].
    by rewrite !scan_lines_nil, app_nil_r.
  - destruct lines as [|l rest]; [by rewrite !scan_lines_nil, app_nil_r|].
    rewrite !scan_lines_cons. cbn [length] in Hn |- *.
    destruct (Z.ltb_spec (Z.of_nat (length s)) days) as [Hlt|Hge];
      destruct (Z.ltb_spec (Z.of_nat 0) (days - Z.of_nat (length s)))
        as [Hlt'|Hge']; try lia; cbn [negb]; [|by rewrite app_nil_r].
    destruct (heading_date l) as [date_str|]; [|apply IH; lia].
    destruct (scan_entry rest (new_summary date_str)) as [d rest'] eqn:He.
    destruct (scan_entry_spec _ _ _ _ He) as (body & Hrest & _).
    assert (Hlen : (length rest' <= n)%nat).
    { apply (f_equal (@length str)) in Hrest. rewrite length_app in Hrest. lia. }
    rewrite (IH rest' days (s ++ [d]) Hlen).
    rewrite (IH rest' (days - Z.of_nat (length s)) ([] ++ [d]) Hlen).
    rewrite <- app_assoc. cbn [app]. do 3 f_equal.
    rewrite length_app. cbn [length]. lia.
Qed.

(** Lines that are not daily headings, before any entry, are skipped by
    the daily re-parser. *)
Lemma scan_lines_skip days pre lines s :
  Forall (fun l => startswith DAILY_HEADING (strip l) = false) pre ->
  scan_lines days (pre ++ lines) s = scan_lines days lines s.
Proof.
  induction 1 as [|l pre Hl _ IH]; [done|].
  cbn [app]. rewrite scan_lines_cons. unfold heading_date. rewrite Hl.
  destruct (negb _) eqn:Hfull; [|exact IH].
  symmetry. apply scan_lines_full.
  apply negb_true_iff, Z.ltb_ge in Hfull. lia.
Qed.

End StoredCheckIn.

(** X5. What [process_daily_response] stores is read back with its date
    and nothing else, on top of what was there. For every date of digits and
    hyphens, every reply whose lines are inert, every record with one-line
    fields, the reply and the fields being texts of the Basic Multilingual
    Plane (where the indices [append_to_doc] computes with [len] are those
    of the service), every document and every limit of at least 1, storing
    the check-in on top of the document succeeds, and the daily re-parser
    then returns first a record with that date whose workout and eating
    feelings are "Not specified" and whose goals are empty, whatever the
    record held, followed by what it returned from the old document with
    the limit lowered by one. *)
Theorem stored_check_in_read_back (fmt : pyval -> str)
  (today user_text body : str) (r : DailyRecord) (days : Z)
  (Hdate : forallb iso_date_char today = true)
  (Hplane : forallb bmp (user_text :: workout r :: eating_feelings r
                         :: short_term_goals r) = true)
  (Hreply : forallb inert_line (split NL user_text) = true)
  (Hworkout : NL ∉ workout r)
  (Heating : NL ∉ eating_feelings r)
  (Hgoals : Forall (fun g => NL ∉ g) (short_term_goals r))
  (Hdays : 0 < days) :
  exists doc,
    store_daily fmt today user_text (VDict (summary_dict r)) body = Ok doc /\
    daily_summaries_of_text doc days
    = [ (K_DATE, VStr today);
        (K_WORKOUT, VStr NOT_SPECIFIED);
        (K_EATING, VStr NOT_SPECIFIED);
        (K_GOALS, VList []) ] :: daily_summaries_of_text body (days - 1).
Proof.
  unfold store_daily. rewrite render_daily_record.
  exists (append_to_doc (daily_heading today)
            (daily_doc_content today user_text (workout r) (eating_feelings r)
               (join (u ", ") (short_term_goals r))) body).
  assert (Htoday : NL ∉ today).
  { intros Hin. apply iso_date_facts in Hdate.
    eapply Forall_forall in Hdate; [|exact Hin]. by destruct Hdate as (_ & _ & ?). }
  assert (Hjoin : NL ∉ join (u ", ") (short_term_goals r)).
  { apply join_no_sep; [|done]. intros H.
    repeat (apply elem_of_cons in H as [H|H]; [discriminate|]).
    by apply elem_of_nil in H. }
  unfold daily_summaries_of_text.
  rewrite stored_lines by done.
  set (rest := [u "---"; u "            "; []] ++ split NL body).
  set (sb := stored_body _ _ _ _ _).
  pose proof (stored_body_inert today user_text (workout r) (eating_feelings r)
                (join (u ", ") (short_term_goals r)) Hreply) as Hinert.
  fold sb in Hinert.
  cbn [app]. rewrite scan_lines_cons.
  destruct (Z.ltb_spec (Z.of_nat (@length dict [])) days) as [_|Hge];
    [|cbn [length] in Hge; lia].
  cbn [negb]. change (heading_date []) with (@None str). cbv iota.
  rewrite scan_lines_cons.
  destruct (Z.ltb_spec (Z.of_nat (@length dict [])) days) as [_|Hge];
    [|cbn [length] in Hge; lia].
  cbn [negb]. rewrite (heading_date_stored today Hdate).
  rewrite scan_entry_app;
    [|by apply inert_not_separator|right; by exists (u "---"), ([u "            "; []] ++ split NL body)].
  rewrite fold_inert by done.
  split; [reflexivity|].
  rewrite (scan_lines_shift _ rest days _ (le_n _)).
  cbn [app length]. change (Z.of_nat 1) with 1.
  change (new_summary today :: scan_lines (days - 1) rest []
          = new_summary today :: scan_lines (days - 1) (split NL body) []).
  f_equal. apply scan_lines_skip. by repeat constructor.
Qed.

Section RawStored.

Implicit Types (l line e h : str) (lines entries cur : list str).

(** Plain lines are added, stripped, to an entry in progress. *)
Lemma entry_fold_plain lines : forall entries h cur,
  Forall (fun l => plain_line l = true) lines ->
  fold_left entry_step lines (entries, h :: cur)
  = (entries, (h :: cur) ++ map strip lines).
Proof.
  induction lines as [|line lines IH]; intros entries h cur Hp.
  - cbn. by rewrite app_nil_r.
  - inversion Hp as [|? ? Hl Hls]; subst. cbn [fold_left map].
    unfold plain_line in Hl. rewrite andb_true_iff, !negb_true_iff in Hl.
    destruct Hl as [Hh Hs]. unfold entry_step at 2. rewrite Hh, Hs.
    change ((h :: cur) ++ [strip line]) with (h :: (cur ++ [strip line])).
    rewrite IH by done. cbn [app]. by rewrite <- app_assoc.
Qed.

Lemma plain_first_char c t :
  isspace c = false -> c <> 68%N -> c <> 45%N -> plain_line (c :: t) = true.
Proof.
  intros Hc H1 H2. unfold plain_line. rewrite strip_head by done.
  unfold eqb. rewrite bool_decide_eq_false_2 by (intros [= ? _]; done).
  change (negb ((68 =? c)%N && startswith (u "aily Check-in:") (rstrip t))
          && negb false = true).
  by rewrite (proj2 (N.eqb_neq 68 c)).
Qed.

Lemma heading_stored_starts today :
  forallb iso_date_char today = true ->
  startswith DAILY_HEADING (strip (daily_heading today)) = true.
Proof.
  intros H. apply heading_date_stored in H. unfold heading_date in H.
  by destruct (startswith _ _).
Qed.

(** Entries closed earlier are carried along unchanged. *)
Lemma entry_fold_shift lines : forall before entries cur,
  fold_left entry_step lines (before ++ entries, cur)
  = (before ++ fst (fold_left entry_step lines (entries, cur)),
     snd (fold_left entry_step lines (entries, cur))).
Proof.
  induction lines as [|line lines IH]; intros before entries cur; [done|].
  cbn [fold_left].
  assert (Hstep : entry_step (before ++ entries, cur) line
                  = (before ++ fst (entry_step (entries, cur) line),
                     snd (entry_step (entries, cur) line))).
  { unfold entry_step, close_entry.
    destruct (startswith _ _); [|destruct (eqb _ _)]; destruct cur;
      cbn [fst snd]; by rewrite <- ?app_assoc. }
  rewrite Hstep.
  destruct (entry_step (entries, cur) line) as [entries1 cur1].
  apply IH.
Qed.

Lemma collect_entries_after before lines :
  (let '(entries, cur) := fold_left entry_step lines (before, []) in
   close_entry entries cur)
  = before ++ collect_entries lines.
Proof.
  unfold collect_entries.
  rewrite <- (app_nil_r before) at 1. rewrite entry_fold_shift.
  destruct (fold_left entry_step lines ([], [])) as [entries cur].
  cbn [fst snd]. destruct cur; cbn [close_entry]; by rewrite <- ?app_assoc.
Qed.

End RawStored.

(** X6. [search_recent_entries] reads a stored check-in as two entries
    on top of the old ones. [append_to_doc] writes the heading and the
    content repeats it, so for every date of digits and hyphens, every reply
    of plain lines, one-line fields, the reply and the fields being texts of
    the Basic Multilingual Plane (where the indices [append_to_doc] computes
    with [len] are those of the service), every document and every limit of
    at least 2, the first entry read back is the bare heading followed by an
    empty line, the second is the content from its own heading line down to
    the separator, each line stripped, and the rest is what the old document
    gave with the limit lowered by two. *)
Theorem stored_check_in_raw_entries
  (today user_text workout eating goals body : str) (days : Z)
  (Hdate : forallb iso_date_char today = true)
  (Hplane : forallb bmp [user_text; workout; eating; goals] = true)
  (Hreply : forallb plain_line (split NL user_text) = true)
  (Hworkout : NL ∉ workout) (Heating : NL ∉ eating) (Hgoals : NL ∉ goals)
  (Hdays : 2 <= days) :
  recent_entries_of_text
    (append_to_doc (daily_heading today)
       (daily_doc_content today user_text workout eating goals) body) days
  = (strip (daily_heading today) ++ [NL])
    :: join [NL] (map strip (tail (stored_body today user_text workout
                                     eating goals)))
    :: recent_entries_of_text body (days - 2).
Proof.
  assert (Htoday : NL ∉ today).
  { intros Hin. apply iso_date_facts in Hdate.
    eapply Forall_forall in Hdate; [|exact Hin]. by destruct Hdate as (_ & _ & ?). }
  pose proof (heading_stored_starts today Hdate) as Hh.
  remember (recent_entries_of_text body (days - 2)) as later eqn:Hlater.
  unfold recent_entries_of_text. rewrite stored_lines by done.
  unfold collect_entries.
  set (sb := stored_body today user_text workout eating goals).
  assert (Hsb : sb = [] :: daily_heading today
                     :: tail (tail sb)) by reflexivity.
  assert (Hplain : Forall (fun l => plain_line l = true) (tail (tail sb))).
  { unfold sb, stored_body. cbn [app tail]. constructor; [done|].
    constructor; [by apply plain_first_char|].
    apply Forall_app. split.
    - apply Forall_forall. intros l Hl. rewrite forallb_forall in Hreply.
      by apply Hreply, list_elem_of_In.
    - repeat constructor; by apply plain_first_char. }
  rewrite Hsb. cbn [app fold_left].
  assert (Hstep1 : entry_step ([], []) [] = ([], [])) by reflexivity.
  rewrite Hstep1.
  assert (Hstep2 : entry_step ([], []) (daily_heading today)
                   = ([], [strip (daily_heading today)])).
  { unfold entry_step. by rewrite Hh. }
  rewrite Hstep2.
  assert (Hstep3 : entry_step ([], [strip (daily_heading today)]) []
                   = ([], [strip (daily_heading today); []])) by reflexivity.
  rewrite Hstep3.
  assert (Hstep4 : entry_step ([], [strip (daily_heading today); []])
                     (daily_heading today)
                   = ([strip (daily_heading today) ++ [NL]],
                      [strip (daily_heading today)])).
  { unfold entry_step. rewrite Hh. reflexivity. }
  rewrite Hstep4. rewrite fold_left_app.
  rewrite entry_fold_plain by done. cbn [fold_left].
  assert (Hstep5 : forall entries h cur,
            entry_step (entries, h :: cur) (u "---")
            = (entries ++ [join [NL] (h :: cur)], [])) by reflexivity.
  cbn [app]. rewrite Hstep5.
  assert (Hstep6 : forall entries,
            entry_step (entries, []) (u "            ") = (entries, []))
    by reflexivity.
  assert (Hstep7 : forall entries, entry_step (entries, []) [] = (entries, []))
    by reflexivity.
  rewrite Hstep6, Hstep7.
  rewrite collect_entries_after. cbn [app].
  subst later. unfold recent_entries_of_text, recent_slice. cbn [length].
  set (old := collect_entries (split NL body)).
  destruct (Z.geb_spec (Z.of_nat (S (S (length old)))) days) as [Hge|Hlt];
    destruct (Z.geb_spec (Z.of_nat (length old)) (days - 2)) as [Hge'|Hlt'];
    try lia.
  - destruct (Z.leb_spec 0 days); [|lia].
    destruct (Z.leb_spec 0 (days - 2)); [|lia].
    replace (Z.to_nat days) with (S (S (Z.to_nat (days - 2)))) by lia.
    reflexivity.
  - reflexivity.
Qed.

(** ** The retry wrappers on every operation *)

(** X7. An operation that fails [k] times and then succeeds, with [k]
    smaller than [MAX_RETRIES], is called [k + 1] times by either wrapper,
    which sleeps the [k] backoff delays [ds] in between and returns the
    success value, provided that each of these backoffs goes through: the
    delay [RETRY_DELAY * (RETRY_BACKOFF ** attempt)] is computed and
    [time.sleep] takes it. The wrapper of [google_docs.py] needs the
    failures to be ones it retries. *)
Theorem retry_succeeds_after_failures (rt : Runtime) (cfg : Config)
  {A} (func : operation A) (w : World) (k : nat) (v : A) (ds : list float)
  (Hk : Z.of_nat k < MAX_RETRIES cfg)
  (Hok : func (calls w + k)%nat = Ok v)
  (Hsleeps : sleeps_through rt cfg 0 k ds) :
  (fails_retryably func (calls w) k ->
   GoogleDocs._retry_with_backoff rt cfg func w
   = (Ok v, advance w (S k) ds)) /\
  (fails_for func (calls w) k ->
   ClaudeApi._retry_with_backoff rt cfg func w
   = (Ok v, advance w (S k) ds)).
Proof.
  split; intros Hfail.
  - by apply google_retry_recovers.
  - by apply claude_retry_recovers.
Qed.

(** A loop of the common shape, started on all the attempts, is a retry
    run. *)
Lemma loop_retry_run (rt : Runtime) (cfg : Config) {A} (func : operation A)
  (retried : exception -> bool)
  (loop : list Z -> option exception -> World -> result A * World)
  (loop_nil : forall last w, loop [] last w = (raise_last last, w))
  (loop_cons : forall a later last w,
     loop (a :: later) last w =
     match func (calls w) with
     | Ok v => (Ok v, advance w 1 [])
     | Raise e =>
         if retried e then
           if a <? MAX_RETRIES cfg - 1 then
             match backoff_sleep rt cfg a (advance w 1 []) with
             | (Ok _, w2) => loop later (Some e) w2
             | (Raise e', w2) => (Raise e', w2)
             end
           else loop later (Some e) (advance w 1 [])
         else (Raise e, advance w 1 [])
     end)
  (w : World) :
  1 <= MAX_RETRIES cfg ->
  exists n ds,
    retry_run rt cfg func retried w (loop (range (MAX_RETRIES cfg)) None w)
      n ds.
Proof.
  intros Hmax.
  assert (Hm : MAX_RETRIES cfg = Z.of_nat (0 + Z.to_nat (MAX_RETRIES cfg)))
    by lia.
  destruct (loop_run rt cfg func retried loop loop_nil loop_cons
              (Z.to_nat (MAX_RETRIES cfg)) 0%nat None w Hm)
    as (n & ds & Hle & Hpos & Hw & Hds & Hfail & Hend).
  specialize (Hpos ltac:(lia)).
  exists n, ds. unfold retry_run, range.
  split; [done|]. split; [lia|]. split; [done|]. split; [done|].
  split; [done|].
  destruct Hend as [[Hout Hearly]|(Hn & e & e' & He & Hr & Hb & Hout)].
  - left. split.
    + rewrite Hout. destruct n as [|n']; [lia|].
      by replace (S n' - 1)%nat with n' by lia.
    + intros Hn. apply Hearly. lia.
  - right. split; [lia|]. by exists e, e'.
Qed.

(** X8. With [MAX_RETRIES] at least 1, a run of either wrapper is a retry
    run. It makes [n] calls, between one and [MAX_RETRIES], of which all but
    the last failed with failures the wrapper retries, and it sleeps the
    backoff delays of the calls before the last, each computed and taken by
    [time.sleep]. Then either it returns or raises what the last call did,
    stopping before [MAX_RETRIES] calls only on a success or, for the
    wrapper of [google_docs.py], on a failure that is not retried; or the
    last call failed with attempts left and the backoff after it raised
    (the delay could not be computed, or [time.sleep] refused it), and the
    run raises that exception in place of the operation's. *)
Theorem retry_wrappers_run (rt : Runtime) (cfg : Config)
  (Hmax : 1 <= MAX_RETRIES cfg)
  {A} (func : operation A) (w : World) :
  (exists n ds, retry_run rt cfg func retryable w
                  (GoogleDocs._retry_with_backoff rt cfg func w) n ds) /\
  (exists n ds, retry_run rt cfg func (fun _ => true) w
                  (ClaudeApi._retry_with_backoff rt cfg func w) n ds).
Proof.
  split.
  - apply (loop_retry_run rt cfg func retryable
             (GoogleDocs.retry_loop rt cfg func) (fun _ _ => eq_refl)
             (fun a later last w => google_loop_cons rt cfg func a later last w)
             w Hmax).
  - apply (loop_retry_run rt cfg func (fun _ => true)
             (ClaudeApi.retry_loop rt cfg func) (fun _ _ => eq_refl)
             (fun a later last w => claude_loop_cons rt cfg func a later last w)
             w Hmax).
Qed.

(** X9. Two settings make either wrapper raise an exception that is not
    the operation's. With [MAX_RETRIES] at most 0 the operation is never
    called and [raise None] gives a [TypeError]. With room for a second
    attempt, when the backoff after a first failure (one that the wrapper
    retries) raises, because the delay cannot be computed or [time.sleep]
    refuses it, the wrapper raises that exception after one call and no
    sleep. *)
Theorem retry_wrappers_bad_settings (rt : Runtime) (cfg : Config)
  {A} (func : operation A) (w : World) :
  (MAX_RETRIES cfg <= 0 ->
   GoogleDocs._retry_with_backoff rt cfg func w = (Raise TypeError, w) /\
   ClaudeApi._retry_with_backoff rt cfg func w = (Raise TypeError, w)) /\
  (forall e e', 2 <= MAX_RETRIES cfg ->
     func (calls w) = Raise e ->
     backoff_outcome rt cfg 0 = Raise e' ->
     (retryable e = true ->
      GoogleDocs._retry_with_backoff rt cfg func w
      = (Raise e', advance w 1 [])) /\
     ClaudeApi._retry_with_backoff rt cfg func w
     = (Raise e', advance w 1 [])).
Proof.
  split.
  - intros Hmax.
    unfold GoogleDocs._retry_with_backoff, ClaudeApi._retry_with_backoff,
      range.
    replace (Z.to_nat (MAX_RETRIES cfg)) with 0%nat by lia.
    by split.
  - intros e e' Hmax Hfail Hback.
    unfold GoogleDocs._retry_with_backoff, ClaudeApi._retry_with_backoff,
      range.
    destruct (Z.to_nat (MAX_RETRIES cfg)) as [|m] eqn:Hm; [lia|].
    cbn [seq map]. split.
    + intros Hretry.
      rewrite google_loop_cons, Hfail, Hretry.
      replace (Z.of_nat 0 <? MAX_RETRIES cfg - 1) with true
        by (symmetry; apply Z.ltb_lt; lia).
      change (Z.of_nat 0) with 0.
      by rewrite backoff_sleep_outcome, Hback.
    + rewrite claude_loop_cons, Hfail.
      replace (Z.of_nat 0 <? MAX_RETRIES cfg - 1) with true
        by (symmetry; apply Z.ltb_lt; lia).
      change (Z.of_nat 0) with 0.
      by rewrite backoff_sleep_outcome, Hback.
Qed.

(** X10. Reading the log through [get_document_content]: when the remote
    read fails [k] times with retried failures and then returns the document
    ([k] below [MAX_RETRIES], each of the [k] backoffs in between going
    through with the delays [ds]), both readers return what they parse from
    that document, after [k + 1] calls and these sleeps; when the first read
    fails with a failure that is not retried, both readers return the empty
    list after that single call and [test_docs_connection] answers
    [False]. *)
Theorem readers_through_retry (rt : Runtime) (cfg : Config)
  (documents_get : operation (list structural_element)) (days : Z)
  (w : World) :
  (forall k content ds,
     Z.of_nat k < MAX_RETRIES cfg ->
     fails_retryably documents_get (calls w) k ->
     documents_get (calls w + k)%nat = Ok content ->
     sleeps_through rt cfg 0 k ds ->
     let w' := advance w (S k) ds in
     read_daily_summaries rt cfg documents_get days w
     = (daily_summaries_of_text (full_text content) days, w') /\
     read_recent_entries rt cfg documents_get days w
     = (recent_entries_of_text (full_text content) days, w') /\
     test_docs_connection rt cfg documents_get w = (true, w')) /\
  (forall e,
     1 <= MAX_RETRIES cfg ->
     documents_get (calls w) = Raise e -> retryable e = false ->
     read_daily_summaries rt cfg documents_get days w
     = ([], advance w 1 []) /\
     read_recent_entries rt cfg documents_get days w
     = ([], advance w 1 []) /\
     test_docs_connection rt cfg documents_get w
     = (false, advance w 1 [])).
Proof.
  split.
  - intros k content ds Hk Hfail Hok Hds w'.
    unfold read_daily_summaries, read_recent_entries, test_docs_connection,
      get_document_content.
    by rewrite (google_retry_recovers rt cfg documents_get w k content ds
                  Hk Hfail Hok Hds).
  - intros e Hmax Hfail Hno.
    unfold read_daily_summaries, read_recent_entries, test_docs_connection,
      get_document_content.
    by rewrite (google_retry_gives_up rt cfg documents_get w e Hmax Hfail Hno).
Qed.

Lemma record_dict_typed (r : DailyRecord) : typed_summary (record_dict r).
Proof.
  split.
  - exists (workout r). reflexivity.
  - exists (short_term_goals r). reflexivity.
Qed.

Lemma read_summaries_typed (fetched : result (list structural_element))
  (days : Z) :
  Forall typed_summary (get_daily_summaries_from_doc fetched days).
Proof.
  destruct fetched as [content|e]; [|by constructor].
  apply Forall_forall. intros d Hd.
  apply daily_summaries_from_lines in Hd as (r & -> & _).
  apply record_dict_typed.
Qed.

(** X11. The weekly recap never raises on what the daily reader returns:
    whatever the document fetch did, whatever the oracle answers, whatever
    [json.loads] returns or raises on a reply, and whatever the runtime does
    with a backoff delay, [get_weekly_recap] on the summaries read from the
    log returns a recap, and that recap is either the one computed from the
    summaries alone or the decoded form of a reply the oracle gave to the
    weekly prompt in one of the [MAX_RETRIES] calls. *)
Theorem weekly_recap_of_log_total (rt : Runtime) (cfg : Config)
  (json_loads : Decoder) (fmt : pyval -> str) (oracle : Oracle)
  (fetched : result (list structural_element)) (days : Z) (w : World) :
  let daily_summaries := get_daily_summaries_from_doc fetched days in
  exists recap summaries_text,
    summaries_text_from fmt 1 daily_summaries [] = Ok summaries_text /\
    (get_weekly_recap rt cfg json_loads fmt oracle daily_summaries w).1
    = Ok recap /\
    (recap = local_recap daily_summaries \/
     exists k text,
       Z.of_nat k < MAX_RETRIES cfg /\
       oracle (weekly_prompt summaries_text) (calls w + k)%nat = Ok text /\
       json_loads (_clean_json_response (strip text)) = Ok recap).
Proof.
  intros daily_summaries.
  assert (Htyped : Forall typed_summary daily_summaries)
    by apply read_summaries_typed.
  destruct (summaries_text_typed fmt daily_summaries Htyped 1%nat [])
    as [text Htext].
  unfold get_weekly_recap. rewrite Htext.
  destruct (ClaudeApi._retry_with_backoff _ _ _ _) as [[v|e] w'] eqn:Hrun.
  - exists v, text. split; [done|]. split; [done|].
    apply claude_retry_ok in Hrun as (k & Hk & Hok & _).
    apply weekly_request_ok in Hok as (reply & Ho & [Hv|[_ ->]]);
      [|by left|done].
    right. by exists k, reply.
  - exists (local_recap daily_summaries), text. split; [done|].
    rewrite weekly_fallback_typed by done. split; [done|by left].
Qed.

(** ** The handlers of the bot *)

Section Handlers.

Import BotHistory BotFlow.

Ltac run_handler :=
  unfold try_except, bind, act, assign, lift, ret;
  cbn [length app
       set_awaiting_daily set_awaiting_weekly set_awaiting_stretch
       set_pending_stretch set_pending_weekly
       awaiting_daily_response awaiting_weekly_response
       awaiting_stretch_response pending_weekly_data pending_stretch_data
       fst snd].

Ltac split_outcome :=
  match goal with
  | |- context [perform ?env ?n ?a] =>
      destruct (perform env n a) as [[]|?] eqn:?
  | |- context [match ?r with Ok _ => _ | Raise _ => _ end] =>
      destruct r as [?|?] eqn:?
  end; run_handler.

Ltac closing :=
  let e := fresh "e" in
  intros e [= <-]; eexists; split; [reflexivity|]; split; [|done];
  unfold closing_actions; rewrite !elem_of_cons; auto 6.

(** X12. [handle_message] consumes at most one awaited reply. An update
    from another chat, or without a message text, changes nothing and makes
    no call. Any other update clears the first awaited flag in the order
    daily, weekly, stretch, whatever the services do while the reply is
    processed, and leaves the other flags and the stored recap as they
    were; the pending stretch date is kept or emptied; at least one action
    is made; and an exception leaves the handler only when the last action,
    an apology or the hint that nothing is expected, raised it. *)
Theorem handle_message_routing (env : Services) (update : Update)
  (bot : FitnessCoachBot) :
  let '(r, bot', log) := handle_message env update bot [] in
  match (if other_chat env update then None else text_of update) with
  | None => r = Ok tt /\ bot' = bot /\ log = []
  | Some user_text =>
      awaiting_daily_response bot' = false /\
      awaiting_weekly_response bot'
      = awaiting_daily_response bot && awaiting_weekly_response bot /\
      awaiting_stretch_response bot'
      = (awaiting_daily_response bot || awaiting_weekly_response bot)
        && awaiting_stretch_response bot /\
      pending_weekly_data bot' = pending_weekly_data bot /\
      (pending_stretch_data bot' = pending_stretch_data bot \/
       pending_stretch_data bot' = []) /\
      log <> [] /\
      (forall e, r = Raise e ->
         exists a, last log = Some a /\ a ∈ closing_actions /\
                   perform env (length log - 1) a = Raise e)
  end.
Proof.
  unfold handle_message.
  destruct (other_chat env update); [done|].
  destruct (text_of update) as [user_text|]; [|done].
  destruct bot as [d wk st pw ps]. cbn [awaiting_daily_response
    awaiting_weekly_response awaiting_stretch_response pending_weekly_data
    pending_stretch_data].
  destruct d; [|destruct wk; [|destruct st]].
  - unfold process_daily_response. run_handler.
    repeat split_outcome; repeat split; try done; try (by left); closing.
  - unfold process_weekly_response. run_handler.
    repeat split_outcome; repeat split; try done; try (by left); closing.
  - unfold process_stretch_response. run_handler.
    repeat split_outcome; repeat split; try done; try (by left);
      try (by right); closing.
  - run_handler.
    repeat split_outcome; repeat split; try done; try (by left); closing.
Qed.

(** X13. An outage of the extractor is not reported to the user. When
    [json.loads] rejects the first reply of the oracle with
    [JSONDecodeError], or each of the [MAX_RETRIES] attempts fails (the
    oracle raises, or [json.loads] raises another exception), and every
    action succeeds, [process_daily_response] acknowledges the reply,
    appends the check-in with the two placeholder texts of the fallback and
    no goals, and confirms that everything has been saved. *)
Theorem daily_processing_oracle_outage (rt : Runtime) (cfg : Config)
  (json_loads : Decoder) (oracle : Oracle) (w : World) (env : Services)
  (user_text : str) (bot : FitnessCoachBot)
  (Hextract : forall history reply,
     daily_summary_of env history reply
     = fst (get_daily_summary rt cfg json_loads oracle history reply w))
  (Hdown :
     first_reply_malformed json_loads oracle
       (daily_prompt (recent_history env 3) user_text) (calls w) \/
     (forall i, (i < Z.to_nat (MAX_RETRIES cfg))%nat ->
        attempt_fails json_loads oracle
          (daily_prompt (recent_history env 3) user_text) (calls w + i)%nat))
  (Hperform : forall n a, perform env n a = Ok tt) :
  let workout := u "Unable to process workout information" in
  let eating := u "Unable to process eating information" in
  process_daily_response env user_text bot []
  = (Ok tt, set_awaiting_daily false bot,
     [ SendMessage PROCESSING;
       AppendToDoc (daily_heading (today_str env))
         (daily_doc_content (today_str env) user_text workout eating []);
       SendMessage (daily_confirmation_text workout eating []) ]).
Proof.
  intros workout eating.
  unfold process_daily_response. run_handler.
  rewrite !Hperform, Hextract.
  rewrite (daily_summary_when_down rt cfg json_loads oracle _ _ w Hdown).
  assert (Hrender :
    render_daily (fmt env) (today_str env) user_text DAILY_FALLBACK
    = Ok (daily_doc_content (today_str env) user_text workout eating []))
    by reflexivity.
  assert (Hconfirm :
    daily_confirmation env DAILY_FALLBACK
    = Ok (daily_confirmation_text workout eating [])) by reflexivity.
  rewrite Hrender, Hperform, Hconfirm, Hperform. reflexivity.
Qed.

(** X14. [send_weekly_recap] changes the bot only when everything went
    through: either the bot is left as it was, or the extractor returned a
    recap, the two messages were sent and the recap was appended to the
    log, all without an exception, and the bot now awaits the weekly reply
    and holds the recap. With no daily summary in the log the bot is left as
    it was and the first message is the invitation to start logging. *)
Theorem weekly_recap_flag_follows_save (env : Services)
  (bot : FitnessCoachBot) :
  let daily_summaries := get_daily_summaries_from_doc (document env) 7 in
  let '(r, bot', log) := send_weekly_recap env bot [] in
  (daily_summaries = [] ->
   bot' = bot /\
   (log = [SendMessage NO_SUMMARIES] \/
    log = [SendMessage NO_SUMMARIES; SendMessage SORRY_RECAP])) /\
  (bot' = bot \/
   exists recap recap_text,
     weekly_recap_of env daily_summaries = Ok recap /\
     recap_text_of env recap = Ok recap_text /\
     log = [ SendMessage PREPARING; SendMessage recap_text;
             AppendToDoc (u "Week of " ++ week_start_str env) recap_text ] /\
     perform env 0 (SendMessage PREPARING) = Ok tt /\
     perform env 1 (SendMessage recap_text) = Ok tt /\
     perform env 2
       (AppendToDoc (u "Week of " ++ week_start_str env) recap_text) = Ok tt /\
     r = Ok tt /\
     bot' = set_pending_weekly recap (set_awaiting_weekly true bot)).
Proof.
  intros daily_summaries.
  unfold send_weekly_recap, _get_recent_summaries.
  fold daily_summaries.
  destruct daily_summaries as [|s rest] eqn:Hs.
  - run_handler. repeat split_outcome; split; auto.
  - run_handler.
    repeat split_outcome; (split; [done|]); try (by left).
    right. eexists _, _. repeat split; done.
Qed.

(** X15. A stretch check never raises, and when it turns the awaiting flag
    on, the reply is saved under the date of the check: whatever the
    services and the date are when the reply is processed,
    [process_stretch_response] first saves the reply, with the answer read
    off it, under the day the reminder was sent. *)
Theorem stretch_reply_under_reminder_date (env1 env2 : Services)
  (user_text : str) (bot : FitnessCoachBot)
  (Hidle : awaiting_stretch_response bot = false) :
  let '(r1, bot1, log1) := send_stretch_check env1 bot [] in
  r1 = Ok tt /\
  (awaiting_stretch_response bot1 = true ->
   (exists opening, log1 = [SendMessage (stretch_prompt opening)]) /\
   exists rest,
     (process_stretch_response env2 user_text bot1 []).2
     = SaveStretchEntry (VStr (today_str env1)) user_text
         (stretched_of_reply user_text) :: rest).
Proof.
  unfold send_stretch_check. run_handler.
  destruct (stretch_entry_on env1 (yesterday_str env1)) as [y|e];
    [|by split; [|rewrite Hidle]].
  destruct (match y with Some e => stretched e | None => false end) eqn:Hy;
    [by split; [|rewrite Hidle]|].
  destruct (stretch_entry_on env1 (today_str env1)) as [t|e];
    [|by split; [|rewrite Hidle]].
  unfold Bot.send_stretch_check. rewrite Hy.
  destruct t as [t|]; [by split; [|rewrite Hidle]|].
  run_handler.
  destruct (perform env1 0 _) as [[]|e]; run_handler;
    [|by split; [|rewrite Hidle]].
  split; [done|]. intros _. split; [by eexists|].
  unfold process_stretch_response. run_handler.
  change (dict_get K_DATE (VStr (today_str env2))
            [(K_DATE, VStr (today_str env1))]) with (VStr (today_str env1)).
  repeat split_outcome; by eexists.
Qed.

Lemma no_goals_read (text : str) (days : Z) (d : dict) :
  Forall (fun l => startswith P_GOALS (strip l) = false) (split NL text) ->
  d ∈ daily_summaries_of_text text days ->
  exists r, d = record_dict r /\ short_term_goals r = [].
Proof.
  intros Hlines Hd.
  apply daily_summaries_from_lines in Hd as (r & -> & _ & _ & _ & _ & Hgoals).
  exists r. split; [done|].
  destruct Hgoals as [Hnone|(t & (l & Hl & Hstart & _) & _)]; [done|].
  rewrite Forall_forall in Hlines. specialize (Hlines l Hl). congruence.
Qed.

Lemma yesterday_goals_none (yesterday : str) (daily_summaries : list dict) :
  Forall (fun d => exists r, d = record_dict r /\ short_term_goals r = [])
    daily_summaries ->
  yesterday_goals_in yesterday daily_summaries = VList [].
Proof.
  induction 1 as [|d rest (r & -> & Hr) _ IH]; [done|].
  cbn [yesterday_goals_in]. destruct (dated yesterday (record_dict r)); [|done].
  change (dict_get K_GOALS (VList []) (record_dict r))
    with (VList (map VStr (short_term_goals r))).
  by rewrite Hr.
Qed.

(** X16. The daily prompt never recalls yesterday's goals from a log that
    holds no goals line in the spelling of the reader: when no line of the
    document, stripped, begins with the reader's goals prefix (as in every
    entry written by [process_daily_response], whose bullet is U+2022), or
    when the document cannot be fetched, [send_daily_prompt] sends the
    prompt without the sentence on yesterday's plan, awaits the daily reply
    when the message went out and does not raise. *)
Theorem daily_prompt_without_goals (env : Services) (bot : FitnessCoachBot)
  (Hlog : match document env with
          | Ok content =>
              Forall (fun l => startswith P_GOALS (strip l) = false)
                (split NL (full_text content))
          | Raise _ => True
          end) :
  send_daily_prompt env bot []
  = (Ok tt,
     match perform env 0 (SendMessage (GOOD_EVENING ++ TELL_ME)) with
     | Ok _ => set_awaiting_daily true bot
     | Raise _ => bot
     end,
     [SendMessage (GOOD_EVENING ++ TELL_ME)]).
Proof.
  unfold send_daily_prompt.
  assert (Hnone : yesterday_goals_in (yesterday_str env)
                    (get_daily_summaries_from_doc (document env) 2)
                  = VList []).
  { apply yesterday_goals_none, Forall_forall. intros d Hd.
    destruct (document env) as [content|e]; cbn in Hd.
    - by apply (no_goals_read (full_text content) 2).
    - by apply elem_of_nil in Hd. }
  rewrite Hnone. cbn [daily_prompt_text truthy]. run_handler.
  by destruct (perform env 0 _) as [[]|e].
Qed.

Lemma fold_history (entries : list str) (init : str) :
  fold_left (fun history_text entry => history_text ++ u "- " ++ entry ++ [NL])
    entries init
  = init ++ concat (map (fun entry => u "- " ++ entry ++ [NL]) entries).
Proof.
  revert init. induction entries as [|e entries IH]; intros init.
  - by rewrite app_nil_r.
  - cbn [fold_left map concat]. rewrite IH. by rewrite <- !app_assoc.
Qed.

(** X17. The history that [process_daily_response] hands to the
    extractor: it is the fixed sentence when the log gives no entry, and
    otherwise the title line followed by one line group per entry returned
    by [search_recent_entries] with the limit 3, of which there are at most
    three and each of which begins with "Daily Check-in:". *)
Theorem recent_history_lists_entries (env : Services) :
  let entries := search_recent_entries (document env) 3 in
  (length entries <= 3)%nat /\
  Forall (fun e => startswith DAILY_HEADING e = true) entries /\
  recent_history env 3
  = match entries with
    | [] => u "No recent history available."
    | _ :: _ =>
        (u "Recent fitness history:" ++ [NL])
        ++ concat (map (fun entry => u "- " ++ entry ++ [NL]) entries)
    end.
Proof.
  intros entries.
  assert (Hlen : (length entries <= 3)%nat).
  { unfold entries, search_recent_entries, recent_entries_of_text,
      recent_slice.
    destruct (document env) as [content|e]; [|cbn; lia].
    destruct (Z.geb_spec (Z.of_nat (length (collect_entries
                (split NL (full_text content))))) 3) as [Hge|Hlt].
    - cbn [Z.leb Z.compare]. rewrite length_take. lia.
    - lia. }
  split; [done|]. split.
  - unfold entries, search_recent_entries, recent_entries_of_text,
      recent_slice.
    destruct (document env) as [content|e]; [|by constructor].
    pose proof (collect_entries_headings (split NL (full_text content))) as H.
    assert (Hall : Forall (fun e => startswith DAILY_HEADING e = true)
                     (collect_entries (split NL (full_text content)))).
    { clear -H. induction H as [|e h es hs [He _] _ IH]; by constructor. }
    destruct (_ >=? _); [|done].
    cbn [Z.leb Z.compare]. by apply Forall_take.
  - unfold recent_history. fold entries.
    unfold _get_recent_history.
    destruct entries as [|e es] eqn:He; [done|].
    rewrite <- He in *. replace (length entries - 3)%nat with 0%nat by lia.
    rewrite drop_0. apply fold_history.
Qed.

End Handlers.

(** ** The configuration *)

Section ConfigPy.

Import Settings.

Lemma decimal_head (n : nat) :
  exists c rest, decimal n = c :: rest /\ (48 <= c <= 57)%N.
Proof.
  unfold decimal.
  destruct (Nat.to_uint n) as [|d|d|d|d|d|d|d|d|d|d];
    cbn; eexists _, _; (split; [reflexivity|lia]).
Qed.

Lemma int_str_set (z : Z) : eqb (int_str z) (u "Not set") = false.
Proof.
  unfold eqb. apply bool_decide_eq_false. unfold int_str.
  destruct (z <? 0).
  - discriminate.
  - destruct (decimal_head (Z.to_nat z)) as (c & rest & -> & Hc).
    intros [= -> _]. lia.
Qed.

(** X18. [validate_config] and [get_config_summary] agree on the five
    required settings: the names that [validate_config] reports as missing
    are, in the order of the error message, those that the summary does not
    show as set, and the validation passes exactly when the summary shows
    all five as set. *)
Theorem config_validation_matches_summary (float_str : float -> str)
  (s : Settings) :
  let summary := get_config_summary float_str s in
  missing_configs s
  = map fst (List.filter (fun '(_, key) => negb (shown_set summary key))
               shown_as) /\
  (validate_config s = inr tt <->
   Forall (fun '(_, key) => shown_set summary key = true) shown_as).
Proof.
  intros summary.
  assert (Hchat : shown_set summary (u "user_chat_id")
                  = negb (USER_CHAT_ID s =? 0)).
  { unfold shown_set, summary, get_config_summary.
    change (dict_lookup (u "user_chat_id") _)
      with (Some (VStr (if negb (USER_CHAT_ID s =? 0)
                        then int_str (USER_CHAT_ID s) else u "Not set"))).
    cbv beta iota. destruct (USER_CHAT_ID s =? 0); [done|].
    cbn [negb]. by rewrite int_str_set. }
  assert (Htoken : shown_set summary (u "telegram_token_set")
                   = negb (bool_decide (TELEGRAM_TOKEN s = []))) by done.
  assert (Hkey : shown_set summary (u "claude_api_key_set")
                 = negb (bool_decide (CLAUDE_API_KEY s = []))) by done.
  assert (Hdoc : shown_set summary (u "google_doc_id_set")
                 = negb (bool_decide (DOC_ID s = []))) by done.
  assert (Hstretch : shown_set summary (u "stretch_doc_id_set")
                     = negb (bool_decide (STRETCH_DOC_ID s = []))) by done.
  assert (Hmissing : missing_configs s
    = map fst (List.filter (fun '(_, key) => negb (shown_set summary key))
                 shown_as)).
  { unfold shown_as. cbn [List.filter].
    rewrite Htoken, Hchat, Hkey, Hdoc, Hstretch.
    unfold missing_configs, required_configs.
    cbn [List.filter not_value is_zero].
    change (eqb (u "TELEGRAM_TOKEN") (u "USER_CHAT_ID")) with false.
    change (eqb (u "USER_CHAT_ID") (u "USER_CHAT_ID")) with true.
    change (eqb (u "CLAUDE_API_KEY") (u "USER_CHAT_ID")) with false.
    change (eqb (u "GOOGLE_DOC_ID") (u "USER_CHAT_ID")) with false.
    change (eqb (u "STRETCH_DOC_ID") (u "USER_CHAT_ID")) with false.
    by destruct (bool_decide (TELEGRAM_TOKEN s = [])),
      (USER_CHAT_ID s =? 0), (bool_decide (CLAUDE_API_KEY s = [])),
      (bool_decide (DOC_ID s = [])), (bool_decide (STRETCH_DOC_ID s = [])). }
  split; [done|].
  unfold validate_config. rewrite Hmissing.
  unfold shown_as. cbn [List.filter]. rewrite !Forall_cons, Forall_nil.
  destruct (shown_set summary (u "telegram_token_set")),
    (shown_set summary (u "user_chat_id")),
    (shown_set summary (u "claude_api_key_set")),
    (shown_set summary (u "google_doc_id_set")),
    (shown_set summary (u "stretch_doc_id_set")); cbn; split;
    try done; intuition congruence.
Qed.

(** X19. The configuration summary does not depend on the secrets beyond
    whether they are set: two settings with the same chat id, model, time
    zone, retry settings and log level, whose token, API key and two
    document ids are empty or not alike, have the same summary. *)
Theorem config_summary_hides_secrets (float_str : float -> str)
  (s1 s2 : Settings) (Hsame : same_public s1 s2) :
  get_config_summary float_str s1 = get_config_summary float_str s2.
Proof.
  destruct Hsame as (Ht & Hk & Hd & Hs & Hc & Hm & Hz & Hr & Hy & Hl).
  unfold get_config_summary.
  rewrite Hc, Hm, Hz, Hr, Hy, Hl.
  rewrite (bool_decide_ext _ _ Ht), (bool_decide_ext _ _ Hk),
    (bool_decide_ext _ _ Hd), (bool_decide_ext _ _ Hs).
  reflexivity.
Qed.

End ConfigPy.

Section Appended.

(** The same for the reader of raw entries. *)
Lemma entry_fold_skip pre lines :
  Forall (fun l => startswith DAILY_HEADING (strip l) = false) pre ->
  fold_left entry_step (pre ++ lines) ([], [])
  = fold_left entry_step lines ([], []).
Proof.
  induction 1 as [|l pre Hl _ IH]; [done|].
  cbn [app fold_left]. unfold entry_step at 2. rewrite Hl.
  by destruct (eqb (strip l) SEPARATOR).
Qed.

Lemma append_to_doc_lines (h c b : str) :
  split NL (append_to_doc h c b)
  = ([[]] ++ split NL h ++ split NL c ++ [[]]) ++ split NL b.
Proof.
  rewrite append_to_doc_text.
  change ([NL] ++ h ++ [NL] ++ c ++ [NL] ++ [NL] ++ b)
    with ([] ++ NL :: (h ++ NL :: (c ++ NL :: ([] ++ NL :: b)))).
  rewrite !split_app_sep. cbn [split]. by rewrite <- !app_assoc.
Qed.

End Appended.

(** X20. What is appended without a daily heading is invisible to both
    readers: when the heading and the content are texts of the Basic
    Multilingual Plane (where the indices [append_to_doc] computes with
    [len] are those of the service) and none of their lines begins, once
    stripped, with "Daily Check-in:", the daily re-parser and
    [search_recent_entries] return from the new document what they returned
    from the old one. *)
Theorem append_without_heading_invisible (heading content body : str)
  (days : Z)
  (Hplane : forallb bmp [heading; content] = true)
  (Hheading : Forall (fun l => startswith DAILY_HEADING (strip l) = false)
                (split NL heading))
  (Hcontent : Forall (fun l => startswith DAILY_HEADING (strip l) = false)
                (split NL content)) :
  daily_summaries_of_text (append_to_doc heading content body) days
  = daily_summaries_of_text body days /\
  recent_entries_of_text (append_to_doc heading content body) days
  = recent_entries_of_text body days.
Proof.
  assert (Hpre : Forall (fun l => startswith DAILY_HEADING (strip l) = false)
                   ([[]] ++ split NL heading ++ split NL content ++ [[]])).
  { rewrite !Forall_app. repeat split; try done; by repeat constructor. }
  unfold daily_summaries_of_text, recent_entries_of_text, collect_entries.
  rewrite append_to_doc_lines. split.
  - by apply scan_lines_skip.
  - by rewrite entry_fold_skip.
Qed.

(** X21. The extractor absorbs transient failures. When the first [k]
    attempts on the prompt fail, with [k] below [MAX_RETRIES] (the oracle
    raises, or [json.loads] raises an exception other than
    [JSONDecodeError]), each of the [k] backoffs in between goes through
    with the delays [ds], and the oracle then gives a reply that, once
    stripped and cleaned of its code fences, [json.loads] decodes,
    [get_daily_summary] returns the decoded value after [k + 1] calls and
    these sleeps; and so does [get_weekly_recap] on summaries of the right
    types, whose prompt is built without an exception. *)
Theorem extractor_recovers (rt : Runtime) (cfg : Config)
  (json_loads : Decoder) (oracle : Oracle) (w : World) (k : nat)
  (ds : list float)
  (Hk : Z.of_nat k < MAX_RETRIES cfg)
  (Hsleeps : sleeps_through rt cfg 0 k ds) :
  (forall history user_reply text v,
     (forall i, (i < k)%nat ->
        attempt_fails json_loads oracle (daily_prompt history user_reply)
          (calls w + i)%nat) ->
     oracle (daily_prompt history user_reply) (calls w + k)%nat = Ok text ->
     json_loads (_clean_json_response (strip text)) = Ok v ->
     get_daily_summary rt cfg json_loads oracle history user_reply w
     = (Ok v, advance w (S k) ds)) /\
  (forall fmt daily_summaries,
     Forall typed_summary daily_summaries ->
     exists summaries_text,
       summaries_text_from fmt 1 daily_summaries [] = Ok summaries_text /\
       forall text v,
         (forall i, (i < k)%nat ->
            attempt_fails json_loads oracle (weekly_prompt summaries_text)
              (calls w + i)%nat) ->
         oracle (weekly_prompt summaries_text) (calls w + k)%nat = Ok text ->
         json_loads (_clean_json_response (strip text)) = Ok v ->
         get_weekly_recap rt cfg json_loads fmt oracle daily_summaries w
         = (Ok v, advance w (S k) ds)).
Proof.
  split.
  - intros history user_reply text v Hfail Hok Hdecode.
    unfold get_daily_summary.
    rewrite (claude_retry_recovers rt cfg
               (daily_request json_loads oracle
                  (daily_prompt history user_reply)) w k v ds Hk);
      [done| | |done].
    + intros i Hi. by apply daily_request_fails, Hfail.
    + unfold daily_request. by rewrite Hok, Hdecode.
  - intros fmt daily_summaries Htyped.
    destruct (summaries_text_typed fmt daily_summaries Htyped 1%nat [])
      as [summaries_text Htext].
    exists summaries_text. split; [done|].
    intros text v Hfail Hok Hdecode.
    unfold get_weekly_recap. rewrite Htext.
    rewrite (claude_retry_recovers rt cfg
               (weekly_request json_loads oracle daily_summaries
                  (weekly_prompt summaries_text)) w k v ds Hk);
      [done| | |done].
    + intros i Hi. by apply weekly_request_fails, Hfail.
    + unfold weekly_request. by rewrite Hok, Hdecode.
Qed.

(** * The further properties on examples *)

(** X3 on the document with two entries and the limit 1. *)
Lemma recent_entries_limit_witness :
  0 <= 1 /\
  Z.of_nat (length (search_recent_entries (Ok two_entry_doc) 1)) <= 1 /\
  search_recent_entries (Ok two_entry_doc) 1
  = take 1 (search_recent_entries (Ok two_entry_doc) 7).
Proof.
  assert (H01 : 0 <= 1) by lia.
  destruct (recent_entries_limit (Ok two_entry_doc) 1 H01) as (Hlen & Hpre & _).
  split; [exact H01|]. split; [exact Hlen|].
  apply (Hpre 7). lia.
Defined.

(** X4 on the document with two entries and the limit 7. *)
Lemma recent_entries_follow_headings_witness :
  Z.of_nat (length (stripped_headings (split NL (full_text two_entry_doc))))
  <= 7 /\
  Forall2 (fun e h =>
             startswith DAILY_HEADING e = true /\
             (e = h \/ exists more, e = h ++ [NL] ++ more))
          (search_recent_entries (Ok two_entry_doc) 7)
          (stripped_headings (split NL (full_text two_entry_doc))).
Proof.
  assert (H : Z.of_nat (length (stripped_headings
                (split NL (full_text two_entry_doc)))) <= 7)
    by (apply Z.leb_le; vm_compute; reflexivity).
  split; [exact H|].
  exact (recent_entries_follow_headings two_entry_doc 7 H).
Defined.

Ltac absent := apply (bool_decide_unpack _); vm_compute; exact I.

(** X5 on the scenario of the round trip, stored in an empty document and
    read with the limit 1. *)
Lemma stored_check_in_read_back_witness :
  exists doc,
    store_daily (fun _ => u "?") (date scenario_record) scenario_reply
      (VDict (summary_dict scenario_record)) empty_body = Ok doc /\
    daily_summaries_of_text doc 1
    = [ [ (K_DATE, VStr (date scenario_record));
          (K_WORKOUT, VStr NOT_SPECIFIED);
          (K_EATING, VStr NOT_SPECIFIED);
          (K_GOALS, VList []) ] ].
Proof.
  destruct (stored_check_in_read_back (fun _ => u "?") (date scenario_record)
              scenario_reply empty_body scenario_record 1)
    as (doc & Hdoc & Hread).
  - vm_compute; reflexivity.
  - vm_compute; reflexivity.
  - vm_compute; reflexivity.
  - absent.
  - absent.
  - repeat constructor; absent.
  - lia.
  - exists doc. split; [exact Hdoc|]. rewrite Hread; reflexivity.
Defined.

(** X6 on the same check-in, read with the limit 3. *)
Lemma stored_check_in_raw_entries_witness :
  recent_entries_of_text
    (append_to_doc (daily_heading (u "2024-01-01"))
       (daily_doc_content (u "2024-01-01") scenario_reply (u "5k run")
          (u "Not specified") (u "sleep earlier")) empty_body) 3
  = [ strip (daily_heading (u "2024-01-01")) ++ [NL];
      join [NL] (map strip (tail (stored_body (u "2024-01-01")
                                    scenario_reply (u "5k run")
                                    (u "Not specified")
                                    (u "sleep earlier")))) ].
Proof.
  rewrite (stored_check_in_raw_entries (u "2024-01-01") scenario_reply
             (u "5k run") (u "Not specified") (u "sleep earlier") empty_body 3).
  - reflexivity.
  - vm_compute; reflexivity.
  - vm_compute; reflexivity.
  - vm_compute; reflexivity.
  - absent.
  - absent.
  - absent.
  - lia.
Defined.

(** X20 on a weekly reply appended to the log that holds the stored
    scenario. *)
Lemma append_without_heading_invisible_witness :
  daily_summaries_of_text
    (append_to_doc (u "Weekly Response: 2023-12-26")
       (BotFlow.weekly_response_content (u "2023-12-26") (u "8/10, sleep more"))
       (full_text stored_scenario_doc)) 7
  = daily_summaries_of_text (full_text stored_scenario_doc) 7 /\
  recent_entries_of_text
    (append_to_doc (u "Weekly Response: 2023-12-26")
       (BotFlow.weekly_response_content (u "2023-12-26") (u "8/10, sleep more"))
       (full_text stored_scenario_doc)) 7
  = recent_entries_of_text (full_text stored_scenario_doc) 7.
Proof.
  apply append_without_heading_invisible;
    [vm_compute; reflexivity|..];
    apply (bool_decide_unpack _); vm_compute; exact I.
Defined.

(** The two backoffs of the default configuration on the runtime of the
    examples. *)
Lemma two_default_sleeps :
  sleeps_through example_runtime default_config 0 2 [1%float; 2%float].
Proof.
  unfold sleeps_through. cbn [seq].
  constructor; [by vm_compute|]. constructor; [by vm_compute|constructor].
Qed.

(** X7 on the default configuration and an operation that fails with
    status 503 twice before it returns 7. *)
Lemma retry_succeeds_after_failures_witness :
  GoogleDocs._retry_with_backoff example_runtime default_config
    (fails_twice_then (HttpError 503) (HttpError 503) 7) world0
  = (Ok 7, advance world0 3 [1%float; 2%float]) /\
  ClaudeApi._retry_with_backoff example_runtime default_config
    (fails_twice_then (HttpError 503) (HttpError 503) 7) world0
  = (Ok 7, advance world0 3 [1%float; 2%float]).
Proof.
  destruct (retry_succeeds_after_failures example_runtime default_config
              (fails_twice_then (HttpError 503) (HttpError 503) 7)
              world0 2 7 [1%float; 2%float]) as [Hgoogle Hclaude].
  - cbn; lia.
  - reflexivity.
  - apply two_default_sleeps.
  - split.
    + apply Hgoogle. intros i Hi.
      destruct i as [|[|i]]; [by eexists..|lia].
    + apply Hclaude. intros i Hi.
      destruct i as [|[|i]]; [by eexists..|lia].
Defined.

(** X8 on the default configuration and an operation that always fails
    with status 403: the wrapper of [google_docs.py] stops after one call,
    the one of [claude_api.py] after three. *)
Lemma retry_wrappers_run_witness :
  (exists n ds,
     retry_run example_runtime default_config
       (always_fails (A := Z) (HttpError 403)) retryable world0
       (GoogleDocs._retry_with_backoff example_runtime default_config
          (always_fails (HttpError 403)) world0) n ds) /\
  (exists n ds,
     retry_run example_runtime default_config
       (always_fails (A := Z) (HttpError 403)) (fun _ => true) world0
       (ClaudeApi._retry_with_backoff example_runtime default_config
          (always_fails (HttpError 403)) world0) n ds).
Proof.
  apply (retry_wrappers_run example_runtime default_config).
  cbn; lia.
Defined.

(** X10 on the default configuration: a fetch that fails once with status
    503 and then returns the document with two entries, and a fetch that
    is refused with status 403. *)
Lemma readers_through_retry_witness :
  (read_daily_summaries example_runtime default_config flaky_fetch 7
     world0).1
  = daily_summaries_of_text two_entry_text 7 /\
  (read_daily_summaries example_runtime default_config flaky_fetch 7
     world0).2
  = advance world0 2 [1%float] /\
  read_recent_entries example_runtime default_config refused_fetch 7 world0
  = ([], advance world0 1 []) /\
  test_docs_connection example_runtime default_config refused_fetch world0
  = (false, advance world0 1 []).
Proof.
  destruct (readers_through_retry example_runtime default_config
              flaky_fetch 7 world0) as [Hgood _].
  destruct (readers_through_retry example_runtime default_config
              refused_fetch 7 world0) as [_ Hbad].
  destruct (Hgood 1%nat two_entry_doc [1%float]) as (Hdaily & _ & _).
  - cbn; lia.
  - intros i Hi. destruct i as [|i]; [by eexists|lia].
  - reflexivity.
  - apply one_default_sleep.
  - destruct (Hbad (HttpError 403)) as (_ & Hraw & Htest).
    + cbn; lia.
    + reflexivity.
    + reflexivity.
    + rewrite Hdaily, Hraw, Htest. repeat split.
Defined.

Section OnExamples.

Import BotHistory BotFlow.

(** X13 on services whose extractor is down. *)
Lemma daily_processing_oracle_outage_witness :
  process_daily_response quiet_services scenario_reply new_bot []
  = (Ok tt, new_bot,
     [ SendMessage PROCESSING;
       AppendToDoc (daily_heading (u "2024-01-02"))
         (daily_doc_content (u "2024-01-02") scenario_reply
            (u "Unable to process workout information")
            (u "Unable to process eating information") []);
       SendMessage (daily_confirmation_text
                      (u "Unable to process workout information")
                      (u "Unable to process eating information") []) ]).
Proof.
  apply (daily_processing_oracle_outage example_runtime default_config
           loads_empty_object oracle_down world0 quiet_services
           scenario_reply new_bot).
  - reflexivity.
  - right. intros i _. left. by eexists.
  - reflexivity.
Defined.

(** X15 on a reminder sent on 2 January and answered a day later. *)
Lemma stretch_reply_under_reminder_date_witness :
  awaiting_stretch_response new_bot = false /\
  awaiting_stretch_response (send_stretch_check quiet_services new_bot []).1.2
  = true /\
  exists rest,
    (process_stretch_response next_day_services (u "yep, ten minutes")
       (send_stretch_check quiet_services new_bot []).1.2 []).2
    = SaveStretchEntry (VStr (u "2024-01-02")) (u "yep, ten minutes") true
      :: rest.
Proof.
  pose proof (stretch_reply_under_reminder_date quiet_services
                next_day_services (u "yep, ten minutes") new_bot eq_refl)
    as H.
  destruct (send_stretch_check quiet_services new_bot []) as [[r1 bot1] log1]
    eqn:Hrun.
  assert (Hflag : awaiting_stretch_response bot1 = true)
    by (vm_compute in Hrun; by injection Hrun as _ <- _).
  destruct H as [_ H]. destruct (H Hflag) as [_ Hsave].
  split; [reflexivity|]. split; [exact Hflag|]. exact Hsave.
Defined.

(** X16 on the log that holds the stored scenario. *)
Lemma daily_prompt_without_goals_witness :
  Forall (fun l => startswith P_GOALS (strip l) = false)
    (split NL (full_text stored_scenario_doc)) /\
  send_daily_prompt quiet_services new_bot []
  = (Ok tt, set_awaiting_daily true new_bot,
     [SendMessage (GOOD_EVENING ++ TELL_ME)]).
Proof.
  assert (H : Forall (fun l => startswith P_GOALS (strip l) = false)
                (split NL (full_text stored_scenario_doc)))
    by (apply (bool_decide_unpack _); vm_compute; exact I).
  split; [exact H|].
  exact (daily_prompt_without_goals quiet_services new_bot H).
Defined.

End OnExamples.

(** X19 on two settings with different secrets. *)
Lemma config_summary_hides_secrets_witness :
  Settings.same_public some_settings other_secrets /\
  Settings.get_config_summary (fun _ => u "1.0") some_settings
  = Settings.get_config_summary (fun _ => u "1.0") other_secrets.
Proof.
  assert (H : Settings.same_public some_settings other_secrets)
    by (repeat split; done).
  split; [exact H|].
  exact (config_summary_hides_secrets (fun _ => u "1.0") _ _ H).
Defined.

(** X1 on a reply fenced as JSON, with blanks around it. *)
Lemma clean_json_response_unwraps_witness :
  _clean_json_response
    (u " " ++ (u "```json" ++ ([NL] ++ u "{}" ++ [NL]) ++ u "```") ++ [NL])
  = u "{}".
Proof.
  destruct clean_json_response_unwraps as [Hjson _].
  rewrite (Hjson (u " ") [NL] ([NL] ++ u "{}" ++ [NL]));
    [|reflexivity|reflexivity].
  vm_compute. reflexivity.
Defined.

(** X9 on an operation that is always answered with status 503, with
    three attempts and the base delay -1.0: on the runtime of the examples
    the first sleep is refused with [ValueError]. *)
Lemma retry_wrappers_bad_settings_witness :
  GoogleDocs._retry_with_backoff example_runtime negative_delay_config
    (always_fails (A := Z) (HttpError 503)) world0
  = (Raise ValueError, advance world0 1 []) /\
  ClaudeApi._retry_with_backoff example_runtime negative_delay_config
    (always_fails (A := Z) (HttpError 503)) world0
  = (Raise ValueError, advance world0 1 []).
Proof.
  destruct (retry_wrappers_bad_settings example_runtime negative_delay_config
              (always_fails (A := Z) (HttpError 503)) world0) as [_ H].
  destruct (H (HttpError 503) ValueError) as [Hgoogle Hclaude].
  - cbn; lia.
  - reflexivity.
  - by vm_compute.
  - split; [apply Hgoogle; reflexivity|exact Hclaude].
Defined.

(** X21 on the default configuration, an oracle that is unreachable twice
    and then replies with a fenced empty object. *)
Lemma extractor_recovers_witness :
  get_daily_summary example_runtime default_config loads_empty_object
    flaky_oracle (u "No recent history available.") scenario_reply world0
  = (Ok (VDict []), advance world0 3 [1%float; 2%float]).
Proof.
  destruct (extractor_recovers example_runtime default_config
              loads_empty_object flaky_oracle world0 2 [1%float; 2%float])
    as [Hdaily _].
  - cbn; lia.
  - apply two_default_sleeps.
  - apply (Hdaily _ _ fenced_empty_object).
    + intros i Hi. left. destruct i as [|[|i]]; [by eexists..|lia].
    + reflexivity.
    + vm_compute; reflexivity.
Defined.
